(** * Airport tracking: correlation and geospatial filtering engine

    A shallow embedding of the JavaScript sources

    - [src/utils/apiclient.js] and its later revision [unnamed/part_000]
      (class [APIClient]: telemetry fetch, normalisation, zone filter,
      haversine distance, zone membership, bounding-box tiler,
      de-duplication, schedule fetch, combined fetch, airport codes),
    - [unnamed/part_001] (class [FlightMonitorService]: schedule index,
      correlation, enrichment, status from telemetry, position store,
      flight details, gate status and summary),
    - [src/services/passengerService.js] (class [PassengerService]: status
      from a schedule, the response of [getFlightInfo]),
    - [unnamed/part_002] (class [KPIService]: indicator summary and
      counters),

    followed by the properties the specification states about them and by
    further properties of the same code.

    Conventions of the embedding.

    - A JavaScript value that may be [null] or [undefined] is an [option].
    - Numbers carried by the feeds (altitude, velocity, coordinates,
      distances) are exact rationals [Q]: every finite binary64 value is
      one, and the code only multiplies them by constants, compares them
      and prints them.  Rounding of products is not modelled.
    - The tiler is modelled over the real numbers [R], i.e. in exact
      arithmetic.  The haversine distance and zone membership, whose
      properties depend on rounding, are modelled in binary64 arithmetic;
      [Math.sin], [Math.cos] and [Math.atan2], whose results the language
      leaves to the engine, are arguments.
    - An instant printed by [Date.prototype.toISOString] is the number of
      milliseconds since the epoch; such a string is never empty.
    - A statement that can throw is a computation in the monad [Exc];
      [try { .. } catch { .. }] is [try_catch].
    - The plain object [scheduleMap] is its own properties, in the order
      of their creation, together with its prototype: reading a key also
      finds what is inherited from [Object.prototype], an assignment to
      [__proto__] sets the prototype, and [Object.entries] lists the keys
      that are array indices first.
    - The key-value store is a finite map from keys to hashes of strings
      with a time to live; it answers every command.  What the document
      and graph stores answer is an argument of the function that asks. *)

From Stdlib Require Import List String Ascii ZArith QArith Qabs Qround Reals Lqa Lra Lia Bool.
From Stdlib Require Import DecimalString DecimalPos DecimalN Sorted Permutation.
From Stdlib Require Floats.
From stdpp Require Import base gmap strings.
Import ListNotations.

Local Open Scope string_scope.

(* ===================================================================== *)
(** * The fragment of the JavaScript run time the code relies on *)
(* ===================================================================== *)

Module JS.

(** ** Exceptions *)

Inductive Error : Type :=
| TypeError      (* property access on null or undefined *)
| NetworkError.  (* a rejected axios promise *)

Inductive Exc (A : Type) : Type :=
| Ok (a : A)
| Throw (e : Error).
Arguments Ok {A} a.
Arguments Throw {A} e.

Definition bind {A B : Type} (c : Exc A) (k : A -> Exc B) : Exc B :=
  match c with
  | Ok a => k a
  | Throw e => Throw e
  end.

Definition try_catch {A : Type} (body : Exc A) (handler : Error -> A) : A :=
  match body with
  | Ok a => a
  | Throw e => handler e
  end.

(** [try { body } catch { handler }] where the handler can itself throw. *)
Definition try_catch_exc {A : Type} (body : Exc A) (handler : Error -> Exc A)
  : Exc A :=
  match body with
  | Ok a => Ok a
  | Throw e => handler e
  end.

(** [Array.prototype.map] with a callback that can throw. *)
Fixpoint mapM {A B : Type} (f : A -> Exc B) (l : list A) : Exc (list B) :=
  match l with
  | [] => Ok []
  | x :: l' =>
      bind (f x) (fun y => bind (mapM f l') (fun ys => Ok (y :: ys)))
  end.

(** A [for] loop run for its effects only. *)
Fixpoint forM_ {A : Type} (f : A -> Exc unit) (l : list A) : Exc unit :=
  match l with
  | [] => Ok tt
  | x :: l' => bind (f x) (fun _ => forM_ f l')
  end.

(** The object a property is read from: reading a property of [null]
    or [undefined] throws. *)
Definition deref {A : Type} (o : option A) : Exc A :=
  match o with
  | Some a => Ok a
  | None => Throw TypeError
  end.

(** A value that is neither [null] nor [undefined], for the kinds of
    value that have no falsy member (objects, time stamps). *)
Definition present {A : Type} (o : option A) : bool :=
  match o with
  | Some _ => true
  | None => false
  end.

(** Optional chaining: [o?.p]. *)
Definition opt_chain {A B : Type} (o : option A) (p : A -> option B)
  : option B :=
  match o with
  | Some a => p a
  | None => None
  end.

(** ** Truthiness and [||] *)

Definition truthy_string (o : option string) : bool :=
  match o with
  | Some s => negb (String.eqb s "")
  | None => false
  end.

Definition truthy_number (o : option Q) : bool :=
  match o with
  | Some q => negb (Qeq_bool q 0)
  | None => false
  end.

Definition truthy_bool (o : option bool) : bool :=
  match o with
  | Some b => b
  | None => false
  end.

(** [x || d] for a string-or-null [x] and a string [d]. *)
Definition or_string (x : option string) (d : string) : string :=
  match x with
  | Some s => if String.eqb s "" then d else s
  | None => d
  end.

(** [a || b] when both sides are string-or-null. *)
Definition or_else (a b : option string) : option string :=
  if truthy_string a then a else b.

(** [x || 0] for a number-or-null [x]. *)
Definition or_zero (x : option Q) : Q :=
  match x with
  | Some q => q
  | None => 0%Q
  end.

(** [ToNumber]: [null] is [0] in arithmetic. *)
Definition ToNumber (x : option Q) : Q := or_zero x.

(** ** Strings *)

(** The ASCII members of the WhiteSpace and LineTerminator classes. *)
Definition isWhiteSpace (c : ascii) : bool :=
  let n := nat_of_ascii c in
  (Nat.eqb n 9 || Nat.eqb n 10 || Nat.eqb n 11 || Nat.eqb n 12
   || Nat.eqb n 13 || Nat.eqb n 32)%bool.

Fixpoint trimStart (s : string) : string :=
  match s with
  | String c s' => if isWhiteSpace c then trimStart s' else s
  | EmptyString => EmptyString
  end.

Fixpoint trimEnd (s : string) : string :=
  match s with
  | String c s' =>
      match trimEnd s' with
      | EmptyString => if isWhiteSpace c then EmptyString
                       else String c EmptyString
      | t => String c t
      end
  | EmptyString => EmptyString
  end.

(** [String.prototype.trim]. *)
Definition trim (s : string) : string := trimEnd (trimStart s).

(** [s.includes(searchString)]. *)
Fixpoint includes (s searchString : string) : bool :=
  (String.prefix searchString s
   || match s with
      | String _ s' => includes s' searchString
      | EmptyString => false
      end)%bool.

(** [s.substring(0, n)] is [String.substring 0 n s]. *)

(** ** Numbers *)

Definition Qlt_bool (x y : Q) : bool := negb (Qle_bool y x).

Fixpoint zeros (n : nat) : string :=
  match n with
  | O => ""
  | S n' => String "0" (zeros n')
  end.

(** [Number.prototype.toFixed(f)] on a finite number below [10^21]:
    the integer [n] for which [n / 10^f] is closest to [x], the larger
    one on a tie, printed with [f] digits after the point; a negative
    [x] prints as ["-"] followed by the text of [-x]. *)
Definition toFixed_digits (f : nat) (x : Q) : string :=
  let n := Qfloor (x * inject_Z (10 ^ Z.of_nat f) + (1 # 2)) in
  let m := NilZero.string_of_uint (N.to_uint (Z.to_N n)) in
  let k := String.length m in
  let m := if Nat.leb k f then zeros (f + 1 - k) ++ m else m in
  let k := String.length m in
  match f with
  | O => m
  | _ => String.substring 0 (k - f) m ++ "." ++ String.substring (k - f) f m
  end.

Definition toFixed (x : Q) (f : nat) : string :=
  if Qlt_bool x 0 then "-" ++ toFixed_digits f (- x)
  else toFixed_digits f x.

(** [x.toFixed(f)] where [x] may be null. *)
Definition toFixed_of (x : option Q) (f : nat) : Exc string :=
  match x with
  | Some q => Ok (toFixed q f)
  | None => Throw TypeError
  end.

(** ** Arrays *)

(** [Array.prototype.sort(compareFn)].  The sort is stable (ECMAScript
    2019); for a consistent comparator the result is the one of a stable
    insertion sort.  [compareFn a b > 0] places [a] after [b]. *)
Section Sort.
Context {A : Type} (compareFn : A -> A -> Q).

Fixpoint insert (x : A) (l : list A) : list A :=
  match l with
  | [] => [x]
  | y :: l' =>
      if Qlt_bool 0 (compareFn x y) then y :: insert x l'
      else x :: l
  end.

Fixpoint sort (l : list A) : list A :=
  match l with
  | [] => []
  | x :: l' => insert x (sort l')
  end.
End Sort.

(** [array.map((x, index) => ..)]. *)
Fixpoint mapi_from {A B : Type} (i : nat) (f : A -> nat -> B) (l : list A)
  : list B :=
  match l with
  | [] => []
  | x :: l' => f x i :: mapi_from (S i) f l'
  end.

Definition mapi {A B : Type} (f : A -> nat -> B) (l : list A) : list B :=
  mapi_from 0 f l.

End JS.

Import JS.

(** The monad notation [x ← c; k] of stdpp is used for [Exc]. *)
#[global] Instance Exc_ret : MRet Exc := fun A a => Ok a.
#[global] Instance Exc_bind : MBind Exc := fun A B k c => JS.bind c k.


(* ===================================================================== *)
(** * APIClient: telemetry *)
(* ===================================================================== *)

(** Milliseconds since the epoch; the text [toISOString] prints for it. *)
Definition Instant : Type := Z.

(** One entry of the [states] array of the telemetry source; [state_k] is
    [state[k]].  Every position of the array can hold [null]. *)
Record State : Type := {
  state_1 : option string;   (* callsign *)
  state_2 : option string;   (* origin country *)
  state_4 : option Z;        (* last contact, epoch seconds *)
  state_5 : option Q;        (* longitude *)
  state_6 : option Q;        (* latitude *)
  state_7 : option Q;        (* altitude in metres *)
  state_8 : option bool;     (* on ground *)
  state_9 : option Q;        (* velocity in m/s *)
  state_10 : option Q;       (* heading in degrees *)
  state_11 : option Q        (* vertical rate *)
}.

(** The object the first [map] of [getOpenSkyFlights] builds. *)
Record Flight : Type := {
  callsign : string;
  origin_country : option string;
  longitude : option Q;
  latitude : option Q;
  altitude : Q;
  velocity : Q;
  heading : Q;
  vertical_rate : Q;
  on_ground : bool;
  last_contact : option Z;
  timestamp : Instant
}.

(** [{ ...flight, distance, index }]. *)
Record LiveFlight : Type := {
  flight :> Flight;
  distance : Q;
  index : nat
}.

(** The configuration the constructor of [APIClient] stores in [this]. *)
Record APIClient : Type := {
  airportLat : Q;
  airportLon : Q;
  airportRadius : Q;
  aviationStackKey : option string
}.

(** What [await axios.get(..)] resolves to; a rejected promise (time-out,
    DNS failure, status outside 2xx) is [Throw NetworkError]. *)
Record Response (D : Type) : Type := {
  response_status : Z;
  response_data : option D
}.
Arguments response_status {D} _.
Arguments response_data {D} _.

Record OpenSkyData : Type := {
  states : option (list (option State))
}.

(** [state => ({ callsign: state[1] ? state[1].trim() : 'UNKNOWN', .. })];
    [now] is the instant [new Date()] reads. *)
Definition normalize (now : Instant) (state : State) : Flight :=
  {| callsign :=
       if truthy_string (state_1 state)
       then match state_1 state with Some s => trim s | None => "UNKNOWN" end
       else "UNKNOWN";
     origin_country := state_2 state;
     longitude := state_5 state;
     latitude := state_6 state;
     altitude :=
       if truthy_number (state_7 state)
       then (ToNumber (state_7 state) * (328084 # 100000))%Q
       else 0%Q;
     velocity :=
       if truthy_number (state_9 state)
       then (ToNumber (state_9 state) * (194384 # 100000))%Q
       else 0%Q;
     heading := or_zero (state_10 state);
     vertical_rate := or_zero (state_11 state);
     on_ground := truthy_bool (state_8 state);
     last_contact := state_4 state;
     timestamp := now |}.

(** [states.filter(state => state !== null)]. *)
Fixpoint filter_non_null {A : Type} (l : list (option A)) : list A :=
  match l with
  | [] => []
  | Some a :: l' => a :: filter_non_null l'
  | None :: l' => filter_non_null l'
  end.

Section Telemetry.

(** [this.calculateDistance]: the zone filter only stores, compares and
    prints its result, so it is a parameter here.  Its definition in
    binary64 arithmetic is [Geo64.calculateDistance] below. *)
Variable calculateDistance : Q -> Q -> Q -> Q -> Q.

(** [new Date()] while the element with a given index is mapped. *)
Variable clock : nat -> Instant.

(** [(flight, index) => { const distance = ..; return {...flight, distance, index} }]. *)
Definition withDistance (this : APIClient) (flight : Flight) (index : nat)
  : LiveFlight :=
  let distance :=
    calculateDistance (airportLat this) (airportLon this)
      (ToNumber (latitude flight)) (ToNumber (longitude flight)) in
  {| flight := flight; distance := distance; index := index |}.

(** [(a, b) => a.distance - b.distance]. *)
Definition byDistance (a b : LiveFlight) : Q := (distance a - distance b)%Q.

(** The loop that logs the closest five flights; [toFixed] is called on
    the latitude, the longitude and the distance of each. *)
Definition logClosest (flights : list LiveFlight) : Exc unit :=
  forM_ (fun f =>
           _ ← toFixed_of (latitude f) 4;
           _ ← toFixed_of (longitude f) 4;
           _ ← Ok (toFixed (distance f) 2);
           Ok tt)
        (firstn 5 flights).

(** The statements from the response check to the end of the [try]
    block, with the radius of the final [filter] left open. *)
Definition processStates (this : APIClient) (radius : Q)
    (response : Response OpenSkyData) : Exc (list LiveFlight) :=
  match response_data response with
  | None => Ok []
  | Some d =>
      match states d with
      | None => Ok []
      | Some sts =>
          let validStates := filter_non_null sts in
          if Nat.eqb (List.length validStates) 0 then Ok []
          else
            let flights :=
              mapi (withDistance this)
                   (mapi (fun state i => normalize (clock i) state)
                         validStates) in
            let flights := JS.sort byDistance flights in
            _ ← logClosest flights;
            let nearbyFlights :=
              List.filter (fun f => Qle_bool (distance f) radius) flights in
            Ok nearbyFlights
      end
  end.

End Telemetry.

(** [src/utils/apiclient.js]. *)
Module Apiclient.
Section Fetch.
Variable calculateDistance : Q -> Q -> Q -> Q -> Q.
Variable clock : nat -> Instant.

(** [get auth] is [axios.get(url, requestConfig)], [auth] telling
    whether [requestConfig.auth] is set; [credentials] is
    [process.env.OPENSKY_USERNAME && process.env.OPENSKY_PASSWORD].
    The zone is [f.distance <= 200]. *)
Definition getOpenSkyFlights (this : APIClient) (credentials : bool)
    (get : bool -> Exc (Response OpenSkyData)) : list LiveFlight :=
  try_catch
    (response ← get credentials;
     processStates calculateDistance clock this 200 response)
    (fun _ => []).
End Fetch.
End Apiclient.

(** [unnamed/part_000], the later revision of the same class. *)
Module Part000.
Section Fetch.
Variable calculateDistance : Q -> Q -> Q -> Q -> Q.
Variable clock : nat -> Instant.

(** The request is tried with credentials first and anonymously when
    that fails.  The zone is [f.distance <= this.airportRadius]. *)
Definition getOpenSkyFlights (this : APIClient)
    (get : bool -> Exc (Response OpenSkyData)) : list LiveFlight :=
  try_catch
    (response ← try_catch_exc (get true) (fun _ => get false);
     processStates calculateDistance clock this (airportRadius this)
       response)
    (fun _ => []).
End Fetch.

(** [removeDuplicateFlights] reads [callsign], [latitude] and
    [longitude] of whatever objects it is given. *)
Class Positioned (A : Type) : Type := {
  callsign_of : A -> string;
  latitude_of : A -> option Q;
  longitude_of : A -> option Q
}.

#[global] Instance Flight_Positioned : Positioned Flight :=
  {| callsign_of := callsign; latitude_of := latitude;
     longitude_of := longitude |}.

#[global] Instance LiveFlight_Positioned : Positioned LiveFlight :=
  {| callsign_of := fun f : LiveFlight => callsign f;
     latitude_of := fun f : LiveFlight => latitude f;
     longitude_of := fun f : LiveFlight => longitude f |}.

Section Dedupe.
Context {A : Type} `{Positioned A}.

(** [`${flight.callsign}_${flight.latitude.toFixed(3)}_${flight.longitude.toFixed(3)}`]. *)
Definition fingerprint (flight : A) : Exc string :=
  lat ← toFixed_of (latitude_of flight) 3;
  lon ← toFixed_of (longitude_of flight) 3;
  Ok (callsign_of flight ++ "_" ++ lat ++ "_" ++ lon).

(** The [for .. of] loop, with its two variables [unique] and [seen]. *)
Fixpoint removeDuplicateFlights_loop (flights unique : list A)
    (seen : gset string) : Exc (list A) :=
  match flights with
  | [] => Ok unique
  | flight :: rest =>
      key ← fingerprint flight;
      if decide (key ∈ seen)
      then removeDuplicateFlights_loop rest unique seen
      else removeDuplicateFlights_loop rest (unique ++ [flight])
             ({[ key ]} ∪ seen)
  end.

Definition removeDuplicateFlights (flights : list A) : Exc (list A) :=
  removeDuplicateFlights_loop flights [] ∅.
End Dedupe.
End Part000.

(* ===================================================================== *)
(** * APIClient: schedules *)
(* ===================================================================== *)

Record Leg : Type := {
  airport : option string;
  iata : option string;
  scheduled : option Instant;
  estimated : option Instant;
  actual : option Instant;
  terminal : option string;
  gate : option string
}.

Record Aircraft : Type := {
  registration : option string;
  aircraft_iata : option string;
  aircraft_icao : option string
}.

(** A schedule object.  [aircraftType] only occurs in the last-resort
    object of [getLiveFlights]. *)
Record Schedule : Type := {
  flightNumber : option string;
  airline : option string;
  airlineCode : option string;
  departure : Leg;
  arrival : Leg;
  status : option string;
  aircraft : Aircraft;
  aircraftType : option string
}.

(** One element of [response.data.data] of the schedule source; each
    nested object can be missing. *)
Record RawIds : Type := { ids_iata : option string; ids_icao : option string }.
Record RawAirline : Type := { airline_name : option string; airline_iata : option string }.
Record RawFlight : Type := {
  raw_flight : option RawIds;
  raw_airline : option RawAirline;
  raw_departure : option Leg;
  raw_arrival : option Leg;
  flight_status : option string;
  raw_aircraft : option Aircraft
}.

Record ApiError : Type := { error_code : string; error_message : string }.

Record AviationStackData : Type := {
  error : option ApiError;
  data : option (list RawFlight)
}.

(** [generateSampleFlights] of [APIClient] (the same text in both
    revisions); [now] is [Date.now()]. *)
Definition generateSampleFlights (now : Instant) : list Schedule :=
  (
  [
    {| flightNumber := Some "LH123"; airline := Some "Lufthansa"; airlineCode := Some "LH";
       departure :=
         {| airport := Some "Frankfurt am Main"; iata := Some "FRA";
          scheduled := Some (now + 3600000);
          estimated := Some (now + 3700000);
          actual := None;
          terminal := Some "Terminal 1"; gate := Some "A5" |};
       arrival :=
         {| airport := Some "Berlin Brandenburg"; iata := Some "BER";
          scheduled := Some (now + 5400000);
          estimated := Some (now + 5500000);
          actual := None;
          terminal := Some "Terminal 1"; gate := Some "B3" |};
       status := Some "scheduled";
       aircraft := {| registration := Some "D-AIDE"; aircraft_iata := Some "A320"; aircraft_icao := Some "A320" |};
       aircraftType := None |};
    {| flightNumber := Some "DL456"; airline := Some "Delta Air Lines"; airlineCode := Some "DL";
       departure :=
         {| airport := Some "Frankfurt am Main"; iata := Some "FRA";
          scheduled := Some (now + 7200000);
          estimated := Some (now + 7300000);
          actual := None;
          terminal := Some "Terminal 2"; gate := Some "C12" |};
       arrival :=
         {| airport := Some "New York John F Kennedy"; iata := Some "JFK";
          scheduled := Some (now + 36000000);
          estimated := Some (now + 36100000);
          actual := None;
          terminal := Some "Terminal 4"; gate := Some "A20" |};
       status := Some "scheduled";
       aircraft := {| registration := Some "N123DA"; aircraft_iata := Some "A350"; aircraft_icao := Some "A350" |};
       aircraftType := None |};
    {| flightNumber := Some "BA789"; airline := Some "British Airways"; airlineCode := Some "BA";
       departure :=
         {| airport := Some "Frankfurt am Main"; iata := Some "FRA";
          scheduled := Some (now - 600000);
          estimated := Some (now - 500000);
          actual := Some (now - 480000);
          terminal := Some "Terminal 3"; gate := Some "E8" |};
       arrival :=
         {| airport := Some "London Heathrow"; iata := Some "LHR";
          scheduled := Some (now + 3600000);
          estimated := Some (now + 3500000);
          actual := None;
          terminal := Some "Terminal 5"; gate := Some "B15" |};
       status := Some "active";
       aircraft := {| registration := Some "G-XWBA"; aircraft_iata := Some "B787"; aircraft_icao := Some "B787" |};
       aircraftType := None |}
  ]
  )%Z.

(** [flight => ({ flightNumber: flight.flight.iata || flight.flight.icao, .. })]. *)
Definition transformFlight (flight : RawFlight) : Exc Schedule :=
  ids ← deref (raw_flight flight);
  airl ← deref (raw_airline flight);
  dep ← deref (raw_departure flight);
  arr ← deref (raw_arrival flight);
  Ok {| flightNumber := or_else (ids_iata ids) (ids_icao ids);
        airline := airline_name airl;
        airlineCode := airline_iata airl;
        departure := dep;
        arrival := arr;
        status := flight_status flight;
        aircraft :=
          {| registration := opt_chain (raw_aircraft flight) registration;
             aircraft_iata := opt_chain (raw_aircraft flight) aircraft_iata;
             aircraft_icao := opt_chain (raw_aircraft flight) aircraft_icao |};
        aircraftType := None |}.

(** [getAviationStackFlights] (the same text in both revisions); [get] is
    the outcome of [axios.get(url, { params, timeout })]. *)
Definition getAviationStackFlights (this : APIClient) (now : Instant)
    (get : Exc (Response AviationStackData)) : list Schedule :=
  try_catch
    (if negb (truthy_string (aviationStackKey this))
     then Ok (generateSampleFlights now)
     else
       response ← get;
       match response_data response with
       | None => Ok (generateSampleFlights now)
       | Some d =>
           match error d with
           | Some _ => Ok (generateSampleFlights now)
           | None =>
               match data d with
               | None => Ok (generateSampleFlights now)
               | Some l =>
                   if Nat.eqb (List.length l) 0
                   then Ok (generateSampleFlights now)
                   else mapM transformFlight l
               end
           end
       end)
    (fun _ => generateSampleFlights now).

(** The constructor: the assignment of [this.aviationStackKey] is
    commented out in both revisions, so the key is [undefined]; the
    arguments are the parsed environment variables, when set. *)
Definition parse_or (env : option Q) (default : Q) : Q :=
  match env with Some q => q | None => default end.

Definition Apiclient_constructor (lat lon radius : option Q) : APIClient :=
  {| airportLat := parse_or lat (500379 # 10000);
     airportLon := parse_or lon (85622 # 10000);
     airportRadius := parse_or radius 50;
     aviationStackKey := None |}.

Definition Part000_constructor (lat lon radius : option Q) : APIClient :=
  {| airportLat := parse_or lat (500379 # 10000);
     airportLon := parse_or lon (85622 # 10000);
     airportRadius := parse_or radius 1000;
     aviationStackKey := None |}.

(* ===================================================================== *)
(** * FlightMonitorService *)
(* ===================================================================== *)

Module Monitor.

(** [determineStatusFromOpenSky]. *)
Definition determineStatusFromOpenSky (flight : Flight) : string :=
  if on_ground flight then "on-ground"
  else if Qlt_bool (altitude flight) 1000 then "taxiing"
  else if Qlt_bool 5000 (altitude flight) then "in-flight"
  else "climbing".

(** [generateSampleSchedules]; [now] is [Date.now()]. *)
Definition generateSampleSchedules (now : Instant) : list Schedule :=
  (
[
  {| flightNumber := Some "LH123"; airline := Some "Lufthansa"; airlineCode := Some "LH";
     departure :=
       {| airport := Some "Frankfurt am Main"; iata := Some "FRA";
        scheduled := Some (now + 3600000);
        estimated := Some (now + 3700000);
        actual := None;
        terminal := Some "Terminal 1"; gate := Some "A5" |};
     arrival :=
       {| airport := Some "Berlin Brandenburg"; iata := Some "BER";
        scheduled := Some (now + 5400000);
        estimated := Some (now + 5500000);
        actual := None;
        terminal := Some "Terminal 1"; gate := Some "B3" |};
     status := Some "active";
     aircraft := {| registration := Some "D-AIDE"; aircraft_iata := Some "A320"; aircraft_icao := Some "A320" |};
     aircraftType := None |};
  {| flightNumber := Some "DL456"; airline := Some "Delta Air Lines"; airlineCode := Some "DL";
     departure :=
       {| airport := Some "Frankfurt am Main"; iata := Some "FRA";
        scheduled := Some (now - 3600000);
        estimated := None;
        actual := Some (now - 3300000);
        terminal := Some "Terminal 2"; gate := Some "C12" |};
     arrival :=
       {| airport := Some "New York John F Kennedy"; iata := Some "JFK";
        scheduled := Some (now + 32400000);
        estimated := Some (now + 32300000);
        actual := None;
        terminal := Some "Terminal 4"; gate := Some "A20" |};
     status := Some "active";
     aircraft := {| registration := Some "N123DA"; aircraft_iata := Some "A350"; aircraft_icao := Some "A350" |};
     aircraftType := None |};
  {| flightNumber := Some "BA789"; airline := Some "British Airways"; airlineCode := Some "BA";
     departure :=
       {| airport := Some "Frankfurt am Main"; iata := Some "FRA";
        scheduled := Some (now - 1800000);
        estimated := None;
        actual := Some (now - 1500000);
        terminal := Some "Terminal 3"; gate := Some "E8" |};
     arrival :=
       {| airport := Some "London Heathrow"; iata := Some "LHR";
        scheduled := Some (now + 3600000);
        estimated := Some (now + 3500000);
        actual := None;
        terminal := Some "Terminal 5"; gate := Some "B15" |};
     status := Some "active";
     aircraft := {| registration := Some "G-XWBA"; aircraft_iata := Some "B787"; aircraft_icao := Some "B787" |};
     aircraftType := None |};
  {| flightNumber := Some "GFA006"; airline := Some "Gulf Air"; airlineCode := Some "GF";
     departure :=
       {| airport := Some "Frankfurt am Main"; iata := Some "FRA";
        scheduled := Some (now - 1200000);
        estimated := None;
        actual := Some (now - 900000);
        terminal := Some "Terminal 1"; gate := Some "B22" |};
     arrival :=
       {| airport := Some "Bahrain International"; iata := Some "BAH";
        scheduled := Some (now + 25200000);
        estimated := Some (now + 25000000);
        actual := None;
        terminal := Some "Terminal 1"; gate := Some "A15" |};
     status := Some "active";
     aircraft := {| registration := Some "A9C-??"; aircraft_iata := Some "A320"; aircraft_icao := Some "A320" |};
     aircraftType := None |};
  {| flightNumber := Some "EZY84EL"; airline := Some "EasyJet"; airlineCode := Some "U2";
     departure :=
       {| airport := Some "Frankfurt am Main"; iata := Some "FRA";
        scheduled := Some (now - 900000);
        estimated := None;
        actual := Some (now - 600000);
        terminal := Some "Terminal 2"; gate := Some "D45" |};
     arrival :=
       {| airport := Some "London Gatwick"; iata := Some "LGW";
        scheduled := Some (now + 7200000);
        estimated := Some (now + 7000000);
        actual := None;
        terminal := Some "Terminal 1"; gate := Some "B12" |};
     status := Some "active";
     aircraft := {| registration := Some "G-EZ??"; aircraft_iata := Some "A319"; aircraft_icao := Some "A319" |};
     aircraftType := None |};
  {| flightNumber := Some "UAE42"; airline := Some "Emirates"; airlineCode := Some "EK";
     departure :=
       {| airport := Some "Frankfurt am Main"; iata := Some "FRA";
        scheduled := Some (now - 1800000);
        estimated := None;
        actual := Some (now - 1500000);
        terminal := Some "Terminal 1"; gate := Some "A10" |};
     arrival :=
       {| airport := Some "Dubai International"; iata := Some "DXB";
        scheduled := Some (now + 28800000);
        estimated := Some (now + 28600000);
        actual := None;
        terminal := Some "Terminal 3"; gate := Some "A5" |};
     status := Some "active";
     aircraft := {| registration := Some "A6-E??"; aircraft_iata := Some "A380"; aircraft_icao := Some "A380" |};
     aircraftType := None |};
  {| flightNumber := Some "THY7MF"; airline := Some "Turkish Airlines"; airlineCode := Some "TK";
     departure :=
       {| airport := Some "Frankfurt am Main"; iata := Some "FRA";
        scheduled := Some (now - 2400000);
        estimated := None;
        actual := Some (now - 2100000);
        terminal := Some "Terminal 1"; gate := Some "B18" |};
     arrival :=
       {| airport := Some "Istanbul Airport"; iata := Some "IST";
        scheduled := Some (now + 14400000);
        estimated := Some (now + 14200000);
        actual := None;
        terminal := Some "Terminal 1"; gate := Some "A22" |};
     status := Some "active";
     aircraft := {| registration := Some "TC-J??"; aircraft_iata := Some "B777"; aircraft_icao := Some "B777" |};
     aircraftType := None |};
  {| flightNumber := Some "BCS39G"; airline := Some "European Air Transport"; airlineCode := Some "BCS";
     departure :=
       {| airport := Some "Frankfurt am Main"; iata := Some "FRA";
        scheduled := Some (now - 300000);
        estimated := None;
        actual := Some (now - 100000);
        terminal := Some "Terminal 2"; gate := Some "C8" |};
     arrival :=
       {| airport := Some "Leipzig Halle"; iata := Some "LEJ";
        scheduled := Some (now + 3600000);
        estimated := Some (now + 3400000);
        actual := None;
        terminal := Some "Terminal 1"; gate := Some "A3" |};
     status := Some "active";
     aircraft := {| registration := Some "D-AT??"; aircraft_iata := Some "AT75"; aircraft_icao := Some "AT75" |};
     aircraftType := None |};
  {| flightNumber := Some "AIC2016"; airline := Some "Air India Cargo"; airlineCode := Some "AIC";
     departure :=
       {| airport := Some "Frankfurt am Main"; iata := Some "FRA";
        scheduled := Some (now - 1800000);
        estimated := None;
        actual := Some (now - 1500000);
        terminal := Some "Terminal 1"; gate := Some "B10" |};
     arrival :=
       {| airport := Some "Delhi Indira Gandhi"; iata := Some "DEL";
        scheduled := Some (now + 43200000);
        estimated := Some (now + 43000000);
        actual := None;
        terminal := Some "Terminal 3"; gate := Some "D12" |};
     status := Some "active";
     aircraft := {| registration := Some "VT-??"; aircraft_iata := Some "B777"; aircraft_icao := Some "B777" |};
     aircraftType := None |};
  {| flightNumber := Some "BCS9TC"; airline := Some "European Air Transport"; airlineCode := Some "BCS";
     departure :=
       {| airport := Some "Frankfurt am Main"; iata := Some "FRA";
        scheduled := Some (now - 600000);
        estimated := None;
        actual := Some (now - 300000);
        terminal := Some "Terminal 2"; gate := Some "C15" |};
     arrival :=
       {| airport := Some "Cologne Bonn"; iata := Some "CGN";
        scheduled := Some (now + 1800000);
        estimated := Some (now + 1600000);
        actual := None;
        terminal := Some "Terminal 1"; gate := Some "B5" |};
     status := Some "active";
     aircraft := {| registration := Some "D-AT??"; aircraft_iata := Some "AT75"; aircraft_icao := Some "AT75" |};
     aircraftType := None |};
  {| flightNumber := Some "MBU8TN"; airline := Some "CargoLogic Germany"; airlineCode := Some "MBU";
     departure :=
       {| airport := Some "Frankfurt am Main"; iata := Some "FRA";
        scheduled := Some (now - 900000);
        estimated := None;
        actual := Some (now - 600000);
        terminal := Some "Terminal 2"; gate := Some "D20" |};
     arrival :=
       {| airport := Some "East Midlands"; iata := Some "EMA";
        scheduled := Some (now + 7200000);
        estimated := Some (now + 7000000);
        actual := None;
        terminal := Some "Terminal 1"; gate := Some "A8" |};
     status := Some "active";
     aircraft := {| registration := Some "D-A??"; aircraft_iata := Some "B757"; aircraft_icao := Some "B757" |};
     aircraftType := None |};
  {| flightNumber := Some "FDX4293"; airline := Some "FedEx Express"; airlineCode := Some "FDX";
     departure :=
       {| airport := Some "Frankfurt am Main"; iata := Some "FRA";
        scheduled := Some (now - 1200000);
        estimated := None;
        actual := Some (now - 900000);
        terminal := Some "Terminal 1"; gate := Some "A25" |};
     arrival :=
       {| airport := Some "Paris Charles de Gaulle"; iata := Some "CDG";
        scheduled := Some (now + 5400000);
        estimated := Some (now + 5200000);
        actual := None;
        terminal := Some "Terminal 2F"; gate := Some "K12" |};
     status := Some "active";
     aircraft := {| registration := Some "N4??"; aircraft_iata := Some "B777"; aircraft_icao := Some "B777" |};
     aircraftType := None |};
  {| flightNumber := Some "MPH9172"; airline := Some "Martinair Cargo"; airlineCode := Some "MPH";
     departure :=
       {| airport := Some "Frankfurt am Main"; iata := Some "FRA";
        scheduled := Some (now - 1500000);
        estimated := None;
        actual := Some (now - 1200000);
        terminal := Some "Terminal 1"; gate := Some "B30" |};
     arrival :=
       {| airport := Some "Amsterdam Schiphol"; iata := Some "AMS";
        scheduled := Some (now + 3600000);
        estimated := Some (now + 3400000);
        actual := None;
        terminal := Some "Terminal 1"; gate := Some "D18" |};
     status := Some "active";
     aircraft := {| registration := Some "PH-M??"; aircraft_iata := Some "B747"; aircraft_icao := Some "B747" |};
     aircraftType := None |}
]
  )%Z.

(** The members every plain object inherits from [Object.prototype];
    all are functions but [__proto__], which reads and sets the prototype
    of the object. *)
Definition Object_prototype : list string :=
  [ "constructor"; "__defineGetter__"; "__defineSetter__"; "hasOwnProperty";
    "__lookupGetter__"; "__lookupSetter__"; "isPrototypeOf";
    "propertyIsEnumerable"; "toString"; "valueOf"; "toLocaleString";
    "__proto__" ].

(** What reading a property of [scheduleMap] can give. *)
Inductive Value : Type :=
| VSchedule (schedule : Schedule)  (* a schedule object *)
| VMember (name : string)          (* the member [name] of Object.prototype;
                                      for [__proto__], Object.prototype *)
| VText (text : option string)     (* a string or null *)
| VLeg (leg : Leg)                 (* a departure or arrival object *)
| VAircraft (aircraft : Aircraft). (* an aircraft object *)

(** The plain object [scheduleMap]: its own properties in the order of
    their creation and, once a schedule has been assigned to
    [scheduleMap["__proto__"]], that schedule, which is then its
    prototype (and has [Object.prototype] as its own). *)
Record ScheduleMap : Type := {
  own : list (string * Schedule);
  proto : option Schedule
}.

(** [{}]. *)
Definition emptyObject : ScheduleMap := {| own := []; proto := None |}.

(** The own property with a key. *)
Fixpoint get_own (properties : list (string * Schedule)) (key : string)
  : option Schedule :=
  match properties with
  | [] => None
  | (k, v) :: rest => if String.eqb k key then Some v else get_own rest key
  end.

(** An own property is written: an existing one keeps its place. *)
Fixpoint set_own (properties : list (string * Schedule)) (key : string)
    (value : Schedule) : list (string * Schedule) :=
  match properties with
  | [] => [(key, value)]
  | (k, v) :: rest =>
      if String.eqb k key then (k, value) :: rest
      else (k, v) :: set_own rest key value
  end.

(** The properties of a schedule object as [transformFlight] builds it. *)
Definition schedule_member (schedule : Schedule) (key : string)
  : option Value :=
  if String.eqb key "flightNumber" then Some (VText (flightNumber schedule))
  else if String.eqb key "airline" then Some (VText (airline schedule))
  else if String.eqb key "airlineCode" then Some (VText (airlineCode schedule))
  else if String.eqb key "departure" then Some (VLeg (departure schedule))
  else if String.eqb key "arrival" then Some (VLeg (arrival schedule))
  else if String.eqb key "status" then Some (VText (status schedule))
  else if String.eqb key "aircraft" then Some (VAircraft (aircraft schedule))
  else None.

(** A property that is not an own one, looked up along the prototype
    chain; [None] is [undefined]. *)
Definition inherited (proto : option Schedule) (key : string)
  : option Value :=
  let fromObject :=
    if List.existsb (String.eqb key) Object_prototype
    then Some (VMember key) else None in
  match proto with
  | Some schedule =>
      if String.eqb key "__proto__" then Some (VSchedule schedule)
      else match schedule_member schedule key with
           | Some v => Some v
           | None => fromObject
           end
  | None => fromObject
  end.

(** [scheduleMap[key]]; [None] is [undefined]. *)
Definition get (scheduleMap : ScheduleMap) (key : string) : option Value :=
  match get_own (own scheduleMap) key with
  | Some schedule => Some (VSchedule schedule)
  | None => inherited (proto scheduleMap) key
  end.

(** The truth value of what was read. *)
Definition truthy (v : option Value) : bool :=
  match v with
  | None => false
  | Some (VText text) => truthy_string text
  | Some _ => true
  end.

(** [scheduleMap[key] = value]: the setter of [__proto__] makes the value
    the prototype; any other key becomes or stays an own property. *)
Definition set (scheduleMap : ScheduleMap) (key : string) (value : Schedule)
  : ScheduleMap :=
  if String.eqb key "__proto__"
  then {| own := own scheduleMap; proto := Some value |}
  else {| own := set_own (own scheduleMap) key value;
          proto := proto scheduleMap |}.

(** A key that is an array index: the decimal numeral, without sign or
    leading zero, of a number up to [2^32 - 2]. *)
Definition arrayIndex (key : string) : option N :=
  match NilZero.uint_of_string key with
  | Some d =>
      let n := N.of_uint d in
      if (String.eqb (NilZero.string_of_uint (N.to_uint n)) key
          && N.leb n 4294967294)%bool
      then Some n else None
  | None => None
  end.

Fixpoint insertByIndex (e : N * (string * Schedule))
    (l : list (N * (string * Schedule))) : list (N * (string * Schedule)) :=
  match l with
  | [] => [e]
  | e' :: l' =>
      if N.leb (fst e) (fst e') then e :: l else e' :: insertByIndex e l'
  end.

(** [Object.entries(scheduleMap)]: the own properties whose keys are
    array indices, by ascending index, then the others in the order of
    their creation. *)
Definition Object_entries (scheduleMap : ScheduleMap)
  : list (string * Schedule) :=
  let indexed :=
    flat_map (fun e => match arrayIndex (fst e) with
                       | Some n => [(n, e)]
                       | None => []
                       end)
             (own scheduleMap) in
  let named :=
    List.filter (fun e => negb (present (arrayIndex (fst e))))
                (own scheduleMap) in
  (map snd (fold_right insertByIndex [] indexed) ++ named)%list.

(** The first loop: [if (flightNumber) scheduleMap[flightNumber] = schedule]. *)
Definition addApiSchedules (scheduleMap : ScheduleMap)
    (aviationStackFlights : list Schedule) : ScheduleMap :=
  fold_left
    (fun m schedule =>
       match flightNumber schedule with
       | Some k => if truthy_string (Some k) then set m k schedule else m
       | None => m
       end)
    aviationStackFlights scheduleMap.

(** The second loop:
    [if (flightNumber && !scheduleMap[flightNumber]) scheduleMap[flightNumber] = schedule]. *)
Definition addSampleSchedules (scheduleMap : ScheduleMap)
    (sampleSchedules : list Schedule) : ScheduleMap :=
  fold_left
    (fun m schedule =>
       match flightNumber schedule with
       | Some k =>
           if (truthy_string (Some k) && negb (truthy (get m k)))%bool
           then set m k schedule else m
       | None => m
       end)
    sampleSchedules scheduleMap.

Definition buildScheduleMap (aviationStackFlights : list Schedule)
    (now : Instant) : ScheduleMap :=
  addSampleSchedules (addApiSchedules emptyObject aviationStackFlights)
    (generateSampleSchedules now).

(** The condition of the search loop:
    [flightNum.includes(flight.callsign.substring(0, 2)) ||
     sched.aircraft?.registration === flight.callsign]. *)
Definition partialMatch (flight : Flight) (flightNum : string)
    (sched : Schedule) : bool :=
  (includes flightNum (String.substring 0 2 (callsign flight))
   || match opt_chain (Some (aircraft sched)) registration with
      | Some r => String.eqb r (callsign flight)
      | None => false
      end)%bool.

(** [for (const [flightNum, sched] of entries) if (..) { schedule = sched; break; }]. *)
Fixpoint findPartial (flight : Flight) (entries : list (string * Schedule))
  : option Schedule :=
  match entries with
  | [] => None
  | (flightNum, sched) :: rest =>
      if partialMatch flight flightNum sched then Some sched
      else findPartial flight rest
  end.

(** The schedule made up for a callsign nothing matches. *)
Definition placeholder (flight : Flight) : Schedule :=
  {| flightNumber := Some (callsign flight);
     airline := Some "Unknown Airline";
     airlineCode := Some "UNK";
     departure :=
       {| airport := Some "Unknown Airport"; iata := Some "N/A";
          scheduled := None; estimated := None; actual := None;
          terminal := Some "N/A"; gate := Some "N/A" |};
     arrival :=
       {| airport := Some "Unknown Airport"; iata := Some "N/A";
          scheduled := None; estimated := None; actual := None;
          terminal := Some "N/A"; gate := Some "N/A" |};
     status := Some "in-flight";
     aircraft :=
       {| registration := Some (callsign flight);
          aircraft_iata := Some "UNK"; aircraft_icao := Some "UNK" |};
     aircraftType := None |}.

(** The value of the variable [schedule] when the three steps of the
    callback are done: what [scheduleMap[flight.callsign]] gives; when
    that is falsy, the schedule the search loop finds, if it finds one;
    and when it is still falsy, the placeholder. *)
Definition matchSchedule (flight : Flight) (scheduleMap : ScheduleMap)
  : option Value :=
  let schedule := get scheduleMap (callsign flight) in
  let schedule :=
    if truthy schedule then schedule
    else match findPartial flight (Object_entries scheduleMap) with
         | Some sched => Some (VSchedule sched)
         | None => schedule
         end in
  let schedule :=
    if truthy schedule then schedule
    else Some (VSchedule (placeholder flight)) in
  schedule.

(** [schedule?.departure]: only a schedule object has one. *)
Definition departure_of (schedule : option Value) : option Leg :=
  match schedule with
  | Some (VSchedule s) => Some (departure s)
  | _ => None
  end.

(** The object of the final [schedule || { .. }]. *)
Definition lastResort (flight : Flight) : Schedule :=
  {| flightNumber := Some (callsign flight);
     airline := Some "Unknown";
     airlineCode := None;
     departure :=
       {| airport := Some "Unknown"; iata := Some "N/A";
          scheduled := None; estimated := None; actual := None;
          terminal := None; gate := None |};
     arrival :=
       {| airport := Some "Unknown"; iata := Some "N/A";
          scheduled := None; estimated := None; actual := None;
          terminal := None; gate := None |};
     status := None;
     aircraft :=
       {| registration := None; aircraft_iata := None;
          aircraft_icao := None |};
     aircraftType := Some "Unknown" |}.

Record Position : Type := {
  p_latitude : Q;
  p_longitude : Q;
  p_altitude : Q;
  p_velocity : Q;
  p_heading : Q
}.

(** The object the callback of [openSkyFlights.map] returns. *)
Record EnrichedFlight : Type := {
  e_callsign : string;
  e_origin_country : string;
  e_position : Position;
  e_latitude : Q;
  e_longitude : Q;
  e_altitude : Q;
  e_velocity : Q;
  e_heading : Q;
  e_on_ground : bool;
  e_gate : string;
  e_terminal : string;
  e_status : string;
  e_schedule : Value;
  e_last_update : Instant
}.

(** [x || 0] for a number that is never null: zero stays zero. *)
Definition num_or_zero (x : Q) : Q := or_zero (Some x).

(** The callback of [openSkyFlights.map]. *)
Definition enrich (scheduleMap : ScheduleMap) (flight : LiveFlight)
  : EnrichedFlight :=
  let schedule := matchSchedule flight scheduleMap in
  {| e_callsign := callsign flight;
     e_origin_country := or_string (origin_country flight) "Unknown";
     e_position :=
       {| p_latitude := or_zero (latitude flight);
          p_longitude := or_zero (longitude flight);
          p_altitude := num_or_zero (altitude flight);
          p_velocity := num_or_zero (velocity flight);
          p_heading := num_or_zero (heading flight) |};
     e_latitude := or_zero (latitude flight);
     e_longitude := or_zero (longitude flight);
     e_altitude := num_or_zero (altitude flight);
     e_velocity := num_or_zero (velocity flight);
     e_heading := num_or_zero (heading flight);
     e_on_ground := on_ground flight;
     e_gate := or_string (opt_chain (departure_of schedule) gate) "N/A";
     e_terminal :=
       or_string (opt_chain (departure_of schedule) terminal) "N/A";
     e_status := determineStatusFromOpenSky flight;
     e_schedule :=
       match schedule with
       | Some v => if truthy schedule then v else VSchedule (lastResort flight)
       | None => VSchedule (lastResort flight)
       end;
     e_last_update := timestamp flight |}.

(** The enrichment step of [getLiveFlights]: the schedule index is
    built from the fetched schedules and the samples, then every live
    position is mapped.  The two stores in between are wrapped in their
    own [try]/[catch] and do not touch the data. *)
Definition enrichedFlights (now : Instant)
    (openSkyFlights : list LiveFlight)
    (aviationStackFlights : list Schedule) : list EnrichedFlight :=
  let scheduleMap := buildScheduleMap aviationStackFlights now in
  map (enrich scheduleMap) openSkyFlights.

End Monitor.

(* ===================================================================== *)
(** * PassengerService *)
(* ===================================================================== *)

Module Passenger.

(** [liveData] is what [redis.hGetAll] returns: a hash of strings. *)
Definition LiveData : Type := gmap string string.

(** [determineStatus(schedule, liveData)]. *)
Definition determineStatus (schedule : Schedule) (liveData : option LiveData)
  : string :=
  if decide (status schedule = Some "cancelled") then "Cancelled"
  else if present (actual (arrival schedule)) then "Landed"
  else if present (actual (departure schedule)) then "In Flight"
  else if decide (liveData ≫= (fun h => h !! "on_ground") = Some "true")
       then "Boarding"
  else if decide (status schedule = Some "delayed") then "Delayed"
  else "On Time".

End Passenger.

(* ===================================================================== *)
(** * APIClient: distance and zone membership, in binary64 arithmetic *)
(* ===================================================================== *)

Module Geo64.
Import Floats.
Local Open Scope float_scope.

(** The functions of [Math] the distance calls whose results the language
    leaves to the engine, but for the special values it fixes.
    [Math.sqrt] is the square root of IEEE 754, [sqrt]. *)
Record MathLib : Type := {
  Math_sin : float -> float;
  Math_cos : float -> float;
  Math_atan2 : float -> float -> float
}.

(** [Math.PI]. *)
Definition Math_PI : float := 0x1.921fb54442d18p+1.

Definition toRad (degrees : float) : float := degrees * Math_PI / 180.

(** [calculateDistance] (the same text in both revisions). *)
Definition calculateDistance (M : MathLib) (lat1 lon1 lat2 lon2 : float)
  : float :=
  let R := 6371 in
  let dLat := toRad (lat2 - lat1) in
  let dLon := toRad (lon2 - lon1) in
  let a := Math_sin M (dLat / 2) * Math_sin M (dLat / 2) +
           Math_cos M (toRad lat1) * Math_cos M (toRad lat2) *
           Math_sin M (dLon / 2) * Math_sin M (dLon / 2) in
  let c := 2 * Math_atan2 M (sqrt a) (sqrt (1 - a)) in
  R * c.

(** [isInAirportZone] (the same text in both revisions), the three fields
    of [this] it reads being arguments. *)
Definition isInAirportZone (M : MathLib)
    (airportLat airportLon airportRadius lat lon : float) : bool :=
  let distance := calculateDistance M airportLat airportLon lat lon in
  distance <=? airportRadius.

End Geo64.

(* ===================================================================== *)
(** * APIClient: the tiler, in exact arithmetic *)
(* ===================================================================== *)

Module Geo.
Local Open Scope R_scope.

Definition toRad (degrees : R) : R := degrees * PI / 180.

Record BoundingBox : Type := {
  lamin : R;
  lomin : R;
  lamax : R;
  lomax : R
}.

(** [createBoundingBox]. *)
Definition createBoundingBox (centerLat centerLon halfSizeKm : R)
  : BoundingBox :=
  let latDelta := halfSizeKm / 111.32 in
  let lonDelta := halfSizeKm / (111.32 * cos (toRad centerLat)) in
  {| lamin := Rmax (-90) (centerLat - latDelta);
     lomin := Rmax (-180) (centerLon - lonDelta);
     lamax := Rmin 90 (centerLat + latDelta);
     lomax := Rmin 180 (centerLon + lonDelta) |}.

(** The body of the two nested loops of [calculateBoundingBoxes]. *)
Definition tile (centerLat centerLon : R) (numBoxes : Z) (i j : nat)
  : BoundingBox :=
  let maxBoxSize := 500 in
  let overlap := 50 in
  let latOffset := (INR i - (IZR numBoxes - 1) / 2) * (maxBoxSize - overlap) in
  let lonOffset := (INR j - (IZR numBoxes - 1) / 2) * (maxBoxSize - overlap) in
  let boxLat := centerLat + latOffset / 111.32 in
  let boxLon := centerLon + lonOffset / (111.32 * cos (toRad centerLat)) in
  createBoundingBox boxLat boxLon (maxBoxSize / 2).

(** [calculateBoundingBoxes]; [Math.ceil] is [Zceil]. *)
Definition calculateBoundingBoxes (centerLat centerLon radiusKm : R)
  : list BoundingBox :=
  let maxBoxSize := 500 in
  if Rle_dec radiusKm maxBoxSize then
    [createBoundingBox centerLat centerLon radiusKm]
  else
    let numBoxes := Zceil (radiusKm / maxBoxSize) in
    flat_map
      (fun i => map (fun j => tile centerLat centerLon numBoxes i j)
                    (seq 0 (Z.to_nat numBoxes)))
      (seq 0 (Z.to_nat numBoxes)).

End Geo.

(* ===================================================================== *)
(** * Vocabulary of the specification *)
(* ===================================================================== *)

Module Spec.

(** The status tags of the StatusResolver. *)
Inductive StatusTag : Type :=
| ON_GROUND | TAXIING | CLIMBING | IN_FLIGHT | LANDED
| CANCELLED | DELAYED | SCHEDULED | ON_TIME.

(** The text the telemetry path prints for a tag. *)
Definition telemetry_label (t : StatusTag) : option string :=
  match t with
  | ON_GROUND => Some "on-ground"
  | TAXIING => Some "taxiing"
  | CLIMBING => Some "climbing"
  | IN_FLIGHT => Some "in-flight"
  | _ => None
  end.

(** The text the schedule path prints for a tag; the state equivalent to
    ON_GROUND is called boarding there. *)
Definition schedule_label (t : StatusTag) : option string :=
  match t with
  | CANCELLED => Some "Cancelled"
  | LANDED => Some "Landed"
  | IN_FLIGHT => Some "In Flight"
  | ON_GROUND => Some "Boarding"
  | DELAYED => Some "Delayed"
  | ON_TIME => Some "On Time"
  | _ => None
  end.

(** The fallback heuristic of the Correlator, in the words of the
    specification: the flight number contains the first two characters
    of the callsign, or the aircraft registration equals the callsign. *)
Definition fallback (callsign : string) (s : Schedule) : bool :=
  (match flightNumber s with
   | Some fn => includes fn (String.substring 0 2 callsign)
   | None => false
   end
   || match registration (aircraft s) with
      | Some r => String.eqb r callsign
      | None => false
      end)%bool.

End Spec.

Module IndexSpec.
Import Monitor.

(** Every key of the own properties is the flight number of its schedule
    and no key occurs twice. *)
Definition keyed (m : list (string * Schedule)) : Prop :=
  Forall (fun e => flightNumber (snd e) = Some (fst e)) m
  /\ List.NoDup (map fst m).

End IndexSpec.

Module Text.

(** The ten digits. *)
Definition isDigit (c : ascii) : bool :=
  (Nat.leb 48 (nat_of_ascii c) && Nat.leb (nat_of_ascii c) 57)%bool.

(** The digits of a text, other characters left out. *)
Fixpoint digitsOf (s : string) : string :=
  match s with
  | EmptyString => EmptyString
  | String c s' =>
      if isDigit c then String c (digitsOf s') else digitsOf s'
  end.

(** The character occurs in the text. *)
Fixpoint hasChar (c : ascii) (s : string) : bool :=
  match s with
  | EmptyString => false
  | String c' s' => (Ascii.eqb c' c || hasChar c s')%bool
  end.

(** The number the digits of a text denote. *)
Definition numeral (s : string) : option N :=
  option_map N.of_uint (NilEmpty.uint_of_string (digitsOf s)).

End Text.

Module DedupeSpec.
Section FirstOccurrences.
Context {A : Type} (key : A -> string).

(** No element among the first [i] of [xs] has the key of [x]. *)
Definition isFirst (xs : list A) (i : nat) (x : A) : bool :=
  forallb (fun y => negb (String.eqb (key y) (key x))) (firstn i xs).

(** The elements of [xs] that are the first with their key. *)
Definition firstOccurrences (xs : list A) : list A :=
  map snd
    (List.filter (fun p => isFirst xs (fst p) (snd p))
       (combine (seq 0 (List.length xs)) xs)).
End FirstOccurrences.

Section Fingerprints.
Import Part000.
Context {A : Type} `{Positioned A}.

(** A flight whose two coordinates are numbers. *)
Definition located (x : A) : Prop :=
  latitude_of x <> None /\ longitude_of x <> None.

(** The fingerprint of a located flight. *)
Definition keyOf (x : A) : string :=
  callsign_of x ++ "_" ++ toFixed (ToNumber (latitude_of x)) 3
    ++ "_" ++ toFixed (ToNumber (longitude_of x)) 3.

(** A number rounded to [f] decimals, a tie going up. *)
Definition rounded (f : nat) (x : Q) : Q :=
  (inject_Z (Qfloor (x * inject_Z (10 ^ Z.of_nat f) + (1 # 2)))
   / inject_Z (10 ^ Z.of_nat f))%Q.

(** The absolute value of a number in units of [10^-f], a tie going up. *)
Definition roundedAbs (f : nat) (x : Q) : Z :=
  Qfloor (Qabs x * inject_Z (10 ^ Z.of_nat f) + (1 # 2)).

(** Two numbers are both negative or both not, and their absolute values
    round to the same multiple of [10^-f]. *)
Definition sameFixed (f : nat) (x y : Q) : bool :=
  (Bool.eqb (Qlt_bool x 0) (Qlt_bool y 0)
   && Z.eqb (roundedAbs f x) (roundedAbs f y))%bool.

(** Two flights with coordinates that the de-duplication takes for one:
    the same callsign, and latitudes and longitudes that agree in sign and
    in their first three decimals after rounding. *)
Definition sameFingerprint (x y : A) : bool :=
  (String.eqb (callsign_of x) (callsign_of y)
   && sameFixed 3 (ToNumber (latitude_of x)) (ToNumber (latitude_of y))
   && sameFixed 3 (ToNumber (longitude_of x)) (ToNumber (longitude_of y)))%bool.

(** The elements of [xs] that no earlier element of [xs] is the same as. *)
Fixpoint firstBy (same : A -> A -> bool) (pre suf : list A) : list A :=
  match suf with
  | [] => []
  | x :: r =>
      if List.existsb (fun y => same y x) pre
      then firstBy same (pre ++ [x]) r
      else x :: firstBy same (pre ++ [x]) r
  end.

(** What the loop appends while it runs over [suf], [pre] being the
    part of the input it has already seen. *)
Fixpoint keepNew (pre suf : list A) : list A :=
  match suf with
  | [] => []
  | x :: r =>
      if List.existsb (String.eqb (keyOf x)) (map keyOf pre)
      then keepNew (pre ++ [x]) r
      else x :: keepNew (pre ++ [x]) r
  end.

End Fingerprints.

End DedupeSpec.

Module NormalizerSpec.
(** The invariant the data model states for a normalized position. *)
Definition positionInvariant (f : Flight) : Prop :=
  (0 <= altitude f)%Q /\ (0 <= velocity f)%Q
  /\ (exists lon, longitude f = Some lon /\ (-180 <= lon <= 180)%Q)
  /\ (exists lat, latitude f = Some lat /\ (-90 <= lat <= 90)%Q).

(** An aircraft on the apron of an airport below sea level: the source
    reports a negative barometric altitude. *)
Definition belowSeaLevel : State :=
  {| state_1 := Some "KLM1001 "; state_2 := Some "Netherlands";
     state_4 := Some 1700000000%Z;
     state_5 := Some (47642 # 10000); state_6 := Some (523086 # 10000);
     state_7 := Some (-10 # 1); state_8 := Some true;
     state_9 := Some (0 # 1); state_10 := Some (90 # 1); state_11 := None |}.
End NormalizerSpec.

Module ZoneSpec.

(** Ascending by distance, ties in the order of the input. *)
Definition before (a b : LiveFlight) : Prop :=
  (distance a < distance b)%Q
  \/ ((distance a == distance b)%Q /\ index a < index b).

(** Both coordinates of a flight are numbers. *)
Definition hasCoordinates (f : LiveFlight) : Prop :=
  latitude f <> None /\ longitude f <> None.

(** A raw record at a given place, other fields as the source sends them
    for an airborne aircraft. *)
Definition stateAt (cs : string) (lat lon : Q) : State :=
  {| state_1 := Some cs; state_2 := Some "Germany";
     state_4 := Some 1700000000%Z;
     state_5 := Some lon; state_6 := Some lat;
     state_7 := Some (3000 # 1); state_8 := Some false;
     state_9 := Some (120 # 1); state_10 := Some (90 # 1);
     state_11 := Some (0 # 1) |}.

(** Three places north of the reference point of the specification. *)
Definition near10 : State := stateAt "DLH10" (501278 # 10000) (85622 # 10000).
Definition near60 : State := stateAt "DLH60" (505775 # 10000) (85622 # 10000).
Definition far250 : State := stateAt "DLH250" (522862 # 10000) (85622 # 10000).

(** A stand-in for the distance function that knows the three places. *)
Definition tableDistance (lat1 lon1 lat2 lon2 : Q) : Q :=
  if Qeq_bool lat2 (501278 # 10000) then 10
  else if Qeq_bool lat2 (505775 # 10000) then 60
  else 250.

Definition respond (sts : list (option State)) : Exc (Response OpenSkyData) :=
  Ok {| response_status := 200;
        response_data := Some {| states := Some sts |} |}.


Section Flights.
Variable calculateDistance : Q -> Q -> Q -> Q -> Q.
Variable clock : nat -> Instant.

(** The flights the two [map]s build from the non-null states. *)
Definition flightsOf (this : APIClient) (sts : list (option State))
  : list LiveFlight :=
  mapi (withDistance calculateDistance this)
       (mapi (fun state i => normalize (clock i) state)
             (filter_non_null sts)).

End Flights.

End ZoneSpec.

Module FetchSpec.

(** A telemetry payload without usable states: no body, no [states]
    member, or only [null] entries. *)
Definition noStates (payload : option OpenSkyData) : Prop :=
  payload = None
  \/ (exists d, payload = Some d /\ states d = None)
  \/ (exists d sts, payload = Some d /\ states d = Some sts
                    /\ filter_non_null sts = []).

(** A failed schedule request: a rejected promise, no body, an [error]
    member, no or an empty [data] member, or an element whose nested
    objects are missing. *)
Definition scheduleFailure (get : Exc (Response AviationStackData)) : Prop :=
  (exists e, get = Throw e)
  \/ (exists r, get = Ok r /\
        (response_data r = None
         \/ (exists d, response_data r = Some d /\
               (error d <> None \/ data d = None \/ data d = Some []
                \/ (exists l e, data d = Some l
                                /\ mapM transformFlight l = Throw e))))).

(** A client whose schedule key is configured. *)
Definition keyedClient : APIClient :=
  {| airportLat := 500379 # 10000; airportLon := 85622 # 10000;
     airportRadius := 1000; aviationStackKey := Some "0123456789abcdef" |}.

End FetchSpec.

Module TilerSpec.
Import Geo.
Local Open Scope R_scope.

(** The invariant the data model states for a bounding box. *)
Definition boxInvariant (b : BoundingBox) : Prop :=
  -90 <= lamin b /\ lamax b <= 90 /\ -180 <= lomin b /\ lomax b <= 180
  /\ lamin b <= lamax b /\ lomin b <= lomax b.

(** Two boxes share a point. *)
Definition overlapping (b1 b2 : BoundingBox) : Prop :=
  Rmax (lamin b1) (lamin b2) <= Rmin (lamax b1) (lamax b2)
  /\ Rmax (lomin b1) (lomin b2) <= Rmin (lomax b1) (lomax b2).

End TilerSpec.

(** Records for the concrete cases of the specification. *)
Module Fixtures.

Definition flight_of_callsign (c : string) : Flight :=
  {| callsign := c; origin_country := None; longitude := None;
     latitude := None; altitude := 0; velocity := 0; heading := 0;
     vertical_rate := 0; on_ground := false; last_contact := None;
     timestamp := 0%Z |}.

Definition schedule_of (fn reg : string) : Schedule :=
  {| flightNumber := Some fn; airline := Some "Test"; airlineCode := None;
     departure := {| airport := None; iata := None; scheduled := None;
                     estimated := None; actual := None; terminal := None;
                     gate := None |};
     arrival := {| airport := None; iata := None; scheduled := None;
                   estimated := None; actual := None; terminal := None;
                   gate := None |};
     status := None;
     aircraft := {| registration := Some reg; aircraft_iata := None;
                    aircraft_icao := None |};
     aircraftType := None |}.

(** A position with a callsign and coordinates. *)
Definition flight_at (c : string) (lat lon : Q) : Flight :=
  {| callsign := c; origin_country := None; longitude := Some lon;
     latitude := Some lat; altitude := 0; velocity := 0; heading := 0;
     vertical_rate := 0; on_ground := false; last_contact := None;
     timestamp := 0%Z |}.

End Fixtures.

(* ===================================================================== *)
(** * APIClient: the remaining functions *)
(* ===================================================================== *)

Module Client.

(** [String.prototype.toUpperCase] on the ASCII letters. *)
Definition toUpperCase_char (c : ascii) : ascii :=
  let n := nat_of_ascii c in
  if (Nat.leb 97 n && Nat.leb n 122)%bool then ascii_of_nat (n - 32) else c.

Fixpoint toUpperCase (s : string) : string :=
  match s with
  | EmptyString => EmptyString
  | String c s' => String (toUpperCase_char c) (toUpperCase s')
  end.

(** The object literal [iataMap] of [getIATAFromICAO]. *)
Definition iataMap : list (string * string) :=
  [ ("EDDF", "FRA"); ("KSFO", "SFO"); ("KJFK", "JFK"); ("KLAX", "LAX");
    ("KORD", "ORD"); ("EGLL", "LHR"); ("LEMD", "MAD"); ("LFPG", "CDG");
    ("LIRF", "FCO") ].

(** [iataMap[key]]. *)
Fixpoint lookup (m : list (string * string)) (key : string) : option string :=
  match m with
  | [] => None
  | (k, v) :: rest => if String.eqb k key then Some v else lookup rest key
  end.

(** [getIATAFromICAO] (the same text in both revisions);
    [icao.substring(1, 4)] is [String.substring 1 3 icao]. *)
Definition getIATAFromICAO (icao : string) : string :=
  if truthy_string (lookup iataMap (toUpperCase icao))
  then match lookup iataMap (toUpperCase icao) with
       | Some v => v
       | None => toUpperCase (String.substring 1 3 icao)
       end
  else toUpperCase (String.substring 1 3 icao).

(** The object [getAllFlights] returns. *)
Record AllFlights : Type := {
  livePositions : list LiveFlight;
  schedules : list Schedule;
  all_timestamp : Instant;
  totalLive : nat;
  totalScheduled : nat
}.

Section GetAllFlights.
Variable calculateDistance : Q -> Q -> Q -> Q -> Q.
Variable clock : nat -> Instant.

(** [getAllFlights] of [unnamed/part_000]: the two fetches are awaited
    together; neither can reject, so the [catch] that rethrows is never
    entered. *)
Definition getAllFlights (this : APIClient) (now : Instant)
    (getStates : bool -> Exc (Response OpenSkyData))
    (getSchedules : Exc (Response AviationStackData)) : AllFlights :=
  let openSkyFlights :=
    Part000.getOpenSkyFlights calculateDistance clock this getStates in
  let aviationStackFlights := getAviationStackFlights this now getSchedules in
  {| livePositions := openSkyFlights;
     schedules := aviationStackFlights;
     all_timestamp := now;
     totalLive := List.length openSkyFlights;
     totalScheduled := List.length aviationStackFlights |}.

End GetAllFlights.

End Client.

(* ===================================================================== *)
(** * FlightMonitorService: the remaining functions *)
(* ===================================================================== *)

Module Store.
Import Monitor.

(** The key-value store: under a key a hash of strings and, when one is
    set, the seconds left to live. *)
Abbreviation Hash := (gmap string string).
Abbreviation Redis := (gmap string (gmap string string * option Z)).

(** [redis.hSet(key, fields)]: the fields are written into the hash under
    the key, which is created when missing; the time to live is kept. *)
Definition hSet (redis : Redis) (key : string)
    (fields : list (string * string)) : Redis :=
  let old : Hash * option Z :=
    match redis !! key with
    | Some e => e
    | None => (∅, None)
    end in
  <[ key := (fold_left (fun h kv => <[ fst kv := snd kv ]> h) fields (fst old),
             snd old) ]> redis.

(** [redis.expire(key, seconds)]. *)
Definition expire (redis : Redis) (key : string) (seconds : Z) : Redis :=
  match redis !! key with
  | Some e => <[ key := (fst e, Some seconds) ]> redis
  | None => redis
  end.

(** [redis.hGetAll(key)]: the empty object for a missing key. *)
Definition hGetAll (redis : Redis) (key : string) : Hash :=
  match redis !! key with
  | Some e => fst e
  | None => ∅
  end.

(** [Boolean.prototype.toString]. *)
Definition Boolean_toString (b : bool) : string :=
  if b then "true" else "false".

(** [`aircraft:${callsign}:position`]. *)
Definition positionKey (callsign : string) : string :=
  "aircraft:" ++ callsign ++ ":position".

Section StoreLivePositions.

(** [Number.prototype.toString] and [Date.prototype.toISOString]. *)
Variable Number_toString : Q -> string.
Variable toISOString : Instant -> string.

(** [x.toString()] where [x] may be null. *)
Definition toString_of (x : option Q) : Exc string :=
  match x with
  | Some q => Ok (Number_toString q)
  | None => Throw TypeError
  end.

(** The object literal given to [hSet]. *)
Definition positionFields (aircraft : LiveFlight)
  : Exc (list (string * string)) :=
  lat ← toString_of (latitude aircraft);
  lon ← toString_of (longitude aircraft);
  Ok [ ("callsign", callsign aircraft);
       ("latitude", lat);
       ("longitude", lon);
       ("altitude", Number_toString (altitude aircraft));
       ("velocity", Number_toString (velocity aircraft));
       ("heading", Number_toString (heading aircraft));
       ("on_ground", Boolean_toString (on_ground aircraft));
       ("last_update", toISOString (timestamp aircraft)) ].

(** [storeLivePositions] on a store that answers every command: the store
    it leaves and how it ends. *)
Fixpoint storeLivePositions (redis : Redis) (positions : list LiveFlight)
  : Redis * Exc unit :=
  match positions with
  | [] => (redis, Ok tt)
  | aircraft :: rest =>
      let key := positionKey (callsign aircraft) in
      match positionFields aircraft with
      | Throw e => (redis, Throw e)
      | Ok fields =>
          storeLivePositions (expire (hSet redis key fields) key 300) rest
      end
  end.

End StoreLivePositions.

(** [determineStatus(liveData, schedule)] of [FlightMonitorService];
    reading [liveData.on_ground] throws when [liveData] is null. *)
Definition determineStatus (liveData : option Hash)
    (schedule : option Schedule) : Exc string :=
  live ← deref liveData;
  if decide (live !! "on_ground" = Some "true") then Ok "on_ground"
  else match schedule with
       | Some s => Ok (or_string (status s) "in_flight")
       | None => Ok "in_flight"
       end.

(** One record of the gate query and the object [getGateStatus] makes of it. *)
Record GateRecord : Type := {
  rec_gate : option string;
  rec_terminal : option string;
  rec_status : option string;
  rec_occupiedBy : option string;
  rec_capacity : option Z
}.

Record Gate : Type := {
  gate_number : option string;
  gate_terminal : option string;
  gate_status : string;
  occupiedBy : option string;
  capacity : option Z
}.

(** The [map] of [getGateStatus]. *)
Definition gatesOfRecords (records : list GateRecord) : list Gate :=
  map (fun record =>
         {| gate_number := rec_gate record;
            gate_terminal := rec_terminal record;
            gate_status := or_string (rec_status record) "available";
            occupiedBy := rec_occupiedBy record;
            capacity := rec_capacity record |})
      records.

Record Summary : Type := {
  totalFlights : nat;
  inFlight : nat;
  onGround : nat;
  totalGates : nat;
  occupiedGates : nat;
  availableGates : nat;
  summary_timestamp : Instant
}.

(** The object [getSummary] builds from the flights and the gates. *)
Definition getSummary (flights : list EnrichedFlight) (gates : list Gate)
    (now : Instant) : Summary :=
  {| totalFlights := List.length flights;
     inFlight := List.length (List.filter (fun f => negb (e_on_ground f)) flights);
     onGround := List.length (List.filter (fun f => e_on_ground f) flights);
     totalGates := List.length gates;
     occupiedGates :=
       List.length (List.filter (fun g => truthy_string (occupiedBy g)) gates);
     availableGates :=
       List.length
         (List.filter (fun g => negb (truthy_string (occupiedBy g))) gates);
     summary_timestamp := now |}.

(** The [filter] of [getFlightsByTerminal]. *)
Definition getFlightsByTerminal (allFlights : list EnrichedFlight)
    (terminalName : string) : list EnrichedFlight :=
  List.filter (fun f => String.eqb (e_terminal f) terminalName) allFlights.

End Store.

(* ===================================================================== *)
(** * PassengerService: the response of getFlightInfo *)
(* ===================================================================== *)

Module Info.

Record GateInfo : Type := {
  info_gate : option string;
  info_terminal : option string
}.

Record LegInfo : Type := {
  li_airport : string;
  li_iata : string;
  li_scheduled : option Instant;
  li_estimated : option Instant;
  li_actual : option Instant;
  li_terminal : string;
  li_gate : string
}.

Record CurrentPosition : Type := {
  cp_latitude : option Q;
  cp_longitude : option Q;
  cp_altitude : option Q
}.

Record FlightInfo : Type := {
  fi_flightNumber : option string;
  fi_airline : option string;
  fi_airlineCode : option string;
  fi_departure : LegInfo;
  fi_arrival : LegInfo;
  fi_status : string;
  fi_delay : Z;
  fi_aircraft : option Aircraft;
  fi_currentPosition : option CurrentPosition
}.

(** [Math.round] of a quotient of integers: the nearest integer, the
    larger one on a tie. *)
Definition Math_round_div (n d : Z) : Z := ((2 * n + d) / (2 * d))%Z.

(** [Object.keys(liveData).length === 0]. *)
Definition isEmptyHash (liveData : gmap string string) : bool :=
  bool_decide (liveData = ∅).

Section GetFlightInfo.

(** [parseFloat]; [None] is [NaN]. *)
Variable parseFloat : string -> option Q.

(** The instant [new Date()] reads. *)
Variable now : Instant.

(** The statements of [getFlightInfo] after the three stores have been
    asked: [requested] is the argument [flightNumber], [scheduleFound] is
    the schedule found, [liveData] the hash read
    (the empty object when reading failed) and [gateInfo] the gate
    assignment, which is only asked for a flight that is known. *)
Definition flightInfo (requested : string)
    (scheduleFound : option Schedule) (liveData : gmap string string)
    (gateInfo : option GateInfo) : FlightInfo :=
  match scheduleFound with
  | None =>
      if isEmptyHash liveData then
        {| fi_flightNumber := Some (Client.toUpperCase requested);
           fi_airline := Some "Unknown Airline";
           fi_airlineCode := None;
           fi_departure :=
             {| li_airport := "Unknown"; li_iata := "N/A";
                li_scheduled := Some now; li_estimated := None;
                li_actual := None; li_terminal := "TBA"; li_gate := "TBA" |};
           fi_arrival :=
             {| li_airport := "Unknown"; li_iata := "N/A";
                li_scheduled := Some now; li_estimated := None;
                li_actual := None; li_terminal := "TBA"; li_gate := "TBA" |};
           fi_status := "Unknown";
           fi_delay := 0;
           fi_aircraft := None;
           fi_currentPosition := None |}
      else
        {| fi_flightNumber := Some (Client.toUpperCase requested);
           fi_airline := Some "Unknown Airline";
           fi_airlineCode := None;
           fi_departure :=
             {| li_airport := "Unknown"; li_iata := "N/A";
                li_scheduled := Some now; li_estimated := None;
                li_actual := None;
                li_terminal :=
                  or_string (opt_chain gateInfo info_terminal) "TBA";
                li_gate := or_string (opt_chain gateInfo info_gate) "TBA" |};
           fi_arrival :=
             {| li_airport := "Unknown"; li_iata := "N/A";
                li_scheduled := Some now; li_estimated := None;
                li_actual := None; li_terminal := "TBA"; li_gate := "TBA" |};
           fi_status :=
             if decide (liveData !! "on_ground" = Some "true")
             then "On Ground" else "In Flight";
           fi_delay := 0;
           fi_aircraft := None;
           fi_currentPosition :=
             if truthy_string (liveData !! "latitude")
             then Some {| cp_latitude :=
                            (liveData !! "latitude") ≫= parseFloat;
                          cp_longitude :=
                            (liveData !! "longitude") ≫= parseFloat;
                          cp_altitude :=
                            (liveData !! "altitude") ≫= parseFloat |}
             else None |}
  | Some found =>
      let delayMinutes :=
        match actual (departure found), scheduled (departure found) with
        | Some a, Some s => Math_round_div (a - s) 60000
        | _, _ => 0%Z
        end in
      {| fi_flightNumber := flightNumber found;
         fi_airline := airline found;
         fi_airlineCode := airlineCode found;
         fi_departure :=
           {| li_airport := or_string (airport (departure found)) "Unknown";
              li_iata := or_string (iata (departure found)) "N/A";
              li_scheduled := scheduled (departure found);
              li_estimated := estimated (departure found);
              li_actual := actual (departure found);
              li_terminal :=
                or_string
                  (or_else (opt_chain gateInfo info_terminal)
                           (terminal (departure found))) "TBA";
              li_gate :=
                or_string
                  (or_else (opt_chain gateInfo info_gate)
                           (gate (departure found))) "TBA" |};
         fi_arrival :=
           {| li_airport := or_string (airport (arrival found)) "Unknown";
              li_iata := or_string (iata (arrival found)) "N/A";
              li_scheduled := scheduled (arrival found);
              li_estimated := estimated (arrival found);
              li_actual := actual (arrival found);
              li_terminal := or_string (terminal (arrival found)) "TBA";
              li_gate := or_string (gate (arrival found)) "TBA" |};
         fi_status := Passenger.determineStatus found (Some liveData);
         fi_delay := delayMinutes;
         fi_aircraft := Some (aircraft found);
         fi_currentPosition :=
           if truthy_string (liveData !! "latitude")
           then Some {| cp_latitude := (liveData !! "latitude") ≫= parseFloat;
                        cp_longitude := (liveData !! "longitude") ≫= parseFloat;
                        cp_altitude := (liveData !! "altitude") ≫= parseFloat |}
           else None |}
  end.

End GetFlightInfo.

End Info.

(* ===================================================================== *)
(** * FlightMonitorService: getFlightDetails *)
(* ===================================================================== *)

Module Details.
Import Monitor Store.

(** The object [getFlightDetails] returns; [d_position], [d_on_ground]
    and [d_last_update] are missing from the answer made of a schedule
    alone. *)
Record Details : Type := {
  d_callsign : string;
  d_position : option Position;
  d_on_ground : option bool;
  d_gate : option string;
  d_terminal : option string;
  d_status : string;
  d_schedule : Schedule;
  d_last_update : option string
}.

(** [x || null]. *)
Definition or_null (x : option string) : option string :=
  if truthy_string x then x else None.

(** The object that stands in for a missing schedule. *)
Definition scheduleFallback (callsign : string) : Schedule :=
  {| flightNumber := Some callsign;
     airline := Some "Unknown";
     airlineCode := None;
     departure :=
       {| airport := Some "Unknown"; iata := Some "N/A";
          scheduled := None; estimated := None; actual := None;
          terminal := None; gate := None |};
     arrival :=
       {| airport := Some "Unknown"; iata := Some "N/A";
          scheduled := None; estimated := None; actual := None;
          terminal := None; gate := None |};
     status := None;
     aircraft :=
       {| registration := None; aircraft_iata := Some "N/A";
          aircraft_icao := None |};
     aircraftType := None |}.

Section GetFlightDetails.

(** [parseFloat] ([None] is [NaN]), the text of [new Date().toISOString()],
    and the two look-ups in the other stores, which answer [null] when
    they fail. *)
Variable parseFloat : string -> option Q.
Variable nowISO : string.
Variable getGateAssignment : string -> option Info.GateInfo.
Variable getFlightSchedule : string -> option Schedule.

(** [parseFloat(x) || 0]. *)
Definition parse_or_zero (x : option string) : Q := or_zero (x ≫= parseFloat).

(** [getFlightDetails] on a store that answers every command; [keys] is
    what [redis.keys] returns for the wildcard pattern. *)
Definition getFlightDetails (redis : Redis) (keys : list string)
    (flightNumber : option string) : Exc (option Details) :=
  let trimmed := trim (or_string flightNumber "") in
  let exact := hGetAll redis (positionKey trimmed) in
  let data : option Hash :=
    if negb (Info.isEmptyHash exact) then Some exact
    else match keys with
         | key :: _ => Some (hGetAll redis key)
         | [] => None
         end in
  match data with
  | Some data' =>
      if negb (Info.isEmptyHash data') then
        let callsign := trim (or_string (data' !! "callsign") trimmed) in
        let gateInfo := getGateAssignment callsign in
        let schedule := getFlightSchedule callsign in
        let fallback :=
          match schedule with
          | Some s => s
          | None => scheduleFallback callsign
          end in
        word ← determineStatus (Some data') schedule;
        Ok (Some
              {| d_callsign := callsign;
                 d_position :=
                   Some {| p_latitude := parse_or_zero (data' !! "latitude");
                           p_longitude := parse_or_zero (data' !! "longitude");
                           p_altitude := parse_or_zero (data' !! "altitude");
                           p_velocity := parse_or_zero (data' !! "velocity");
                           p_heading := parse_or_zero (data' !! "heading") |};
                 d_on_ground :=
                   Some (bool_decide (data' !! "on_ground" = Some "true"));
                 d_gate :=
                   or_null
                     (or_else
                        (or_else (opt_chain gateInfo Info.info_gate)
                                 (data' !! "gate"))
                        (gate (departure fallback)));
                 d_terminal :=
                   or_null
                     (or_else (opt_chain gateInfo Info.info_terminal)
                              (terminal (departure fallback)));
                 d_status := word;
                 d_schedule := fallback;
                 d_last_update :=
                   Some (or_string (data' !! "last_update") nowISO) |})
      else
        match getFlightSchedule trimmed with
        | Some schedule =>
            Ok (Some
                  {| d_callsign := trimmed;
                     d_position := None;
                     d_on_ground := None;
                     d_gate := or_null (gate (departure schedule));
                     d_terminal := or_null (terminal (departure schedule));
                     d_status := or_string (status schedule) "scheduled";
                     d_schedule := schedule;
                     d_last_update := None |})
        | None => Ok None
        end
  | None =>
      match getFlightSchedule trimmed with
      | Some schedule =>
          Ok (Some
                {| d_callsign := trimmed;
                   d_position := None;
                   d_on_ground := None;
                   d_gate := or_null (gate (departure schedule));
                   d_terminal := or_null (terminal (departure schedule));
                   d_status := or_string (status schedule) "scheduled";
                   d_schedule := schedule;
                   d_last_update := None |})
      | None => Ok None
      end
  end.

End GetFlightDetails.

End Details.

(* ===================================================================== *)
(** * KPIService *)
(* ===================================================================== *)

Module KPI.
Import Store.

(** The one document the aggregation of [getKPISummary] returns. *)
Record Stats : Type := {
  st_total : nat;
  st_delayed : nat;
  st_onTime : nat;
  st_cancelled : nat
}.

Record Summary : Type := {
  kpi_totalFlights : nat;
  kpi_delayedFlights : nat;
  kpi_onTimeFlights : nat;
  kpi_cancelledFlights : nat;
  kpi_onTimePercentage : Q;
  kpi_liveFlights : nat;
  kpi_airborneFlights : nat;
  kpi_groundFlights : nat;
  kpi_scheduledFlights : nat;
  kpi_timestamp : Instant
}.

(** The number [parseFloat(x.toFixed(f))] reads for an [x] that is not
    negative: the digits [toFixed_digits] prints, as a number. *)
Definition toFixed_number (x : Q) (f : nat) : Q :=
  (inject_Z (Qfloor (x * inject_Z (10 ^ Z.of_nat f) + (1 # 2)))
   / inject_Z (10 ^ Z.of_nat f))%Q.

(** The loop over the keys: of every hash that is not empty the member
    [on_ground] of the object pushed (the other two members do not reach
    the summary). *)
Definition liveFlights (redis : Redis) (liveFlightKeys : list string)
  : list bool :=
  flat_map
    (fun key =>
       let data := hGetAll redis key in
       if negb (Info.isEmptyHash data)
       then [bool_decide (data !! "on_ground" = Some "true")]
       else [])
    liveFlightKeys.

Definition Q_of_nat (n : nat) : Q := inject_Z (Z.of_nat n).

(** [getKPISummary]; [liveFlightKeys] is what [redis.keys] returns and
    [flightStats] the array the aggregation returns. *)
Definition getKPISummary (redis : Redis) (liveFlightKeys : list string)
    (flightStats : list Stats) (now : Instant) : Summary :=
  let live := liveFlights redis liveFlightKeys in
  let totalLiveFlights := List.length live in
  let airborneFlights := List.length (List.filter (fun f => negb f) live) in
  let groundFlights := List.length (List.filter (fun f => f) live) in
  let scheduledStats :=
    match flightStats with
    | s :: _ => s
    | [] => {| st_total := 0; st_delayed := 0; st_onTime := 0;
               st_cancelled := 0 |}
    end in
  let totalFlights := totalLiveFlights + st_total scheduledStats in
  let delayedFlights := st_delayed scheduledStats in
  let onTimeFlights := st_onTime scheduledStats + airborneFlights in
  let cancelledFlights := st_cancelled scheduledStats in
  let onTimePercentage :=
    if Nat.ltb 0 totalFlights
    then toFixed_number
           (Q_of_nat onTimeFlights / Q_of_nat totalFlights * 100)%Q 2
    else 0%Q in
  {| kpi_totalFlights := totalFlights;
     kpi_delayedFlights := delayedFlights;
     kpi_onTimeFlights := onTimeFlights;
     kpi_cancelledFlights := cancelledFlights;
     kpi_onTimePercentage := onTimePercentage;
     kpi_liveFlights := totalLiveFlights;
     kpi_airborneFlights := airborneFlights;
     kpi_groundFlights := groundFlights;
     kpi_scheduledFlights := st_total scheduledStats;
     kpi_timestamp := now |}.

(** One document of the aggregation of [updateKPICounters]: a status and
    the number of schedules that have it. *)
Record Count : Type := {
  count_id : option string;
  count : nat
}.

Record Counters : Type := {
  total : nat;
  delayed : nat;
  onTime : nat
}.

(** The [forEach] of [updateKPICounters]: the three numbers written to
    the store afterwards. *)
Definition updateKPICounters (counts : list Count) : Counters :=
  fold_left
    (fun acc c =>
       {| total := total acc + count c;
          delayed :=
            if decide (count_id c = Some "delayed") then count c
            else delayed acc;
          onTime :=
            if decide (count_id c = Some "active") then count c
            else onTime acc |})
    counts
    {| total := 0; delayed := 0; onTime := 0 |}.

End KPI.

(* ===================================================================== *)
(** * Vocabulary of the further properties *)
(* ===================================================================== *)

Module LookupSpec.

(** The schedule carries the designator [k]. *)
Definition filedUnder (k : string) (s : Schedule) : bool :=
  match flightNumber s with
  | Some k' => String.eqb k' k
  | None => false
  end.

(** The first schedule of a list that carries [k]. *)
Definition firstWith (k : string) (l : list Schedule) : option Schedule :=
  List.find (filedUnder k) l.

(** The last schedule of a list that carries [k]. *)
Fixpoint lastWith (k : string) (l : list Schedule) : option Schedule :=
  match l with
  | [] => None
  | s :: rest =>
      match lastWith k rest with
      | Some s' => Some s'
      | None => if filedUnder k s then Some s else None
      end
  end.

(** A key under which a plain object, or one that has a schedule as
    prototype, finds an inherited property. *)
Definition inheritedKey (k : string) : bool :=
  (List.existsb (String.eqb k) Monitor.Object_prototype
   || String.eqb k "flightNumber" || String.eqb k "airline"
   || String.eqb k "airlineCode" || String.eqb k "departure"
   || String.eqb k "arrival" || String.eqb k "status"
   || String.eqb k "aircraft")%bool.

(** The flight number of the schedule, if it has one, is no such key. *)
Definition plain (s : Schedule) : bool :=
  match flightNumber s with
  | Some k => negb (inheritedKey k)
  | None => true
  end.

(** The flight number of the schedule, if it has one, is no array index. *)
Definition named (s : Schedule) : bool :=
  match flightNumber s with
  | Some k => negb (present (Monitor.arrayIndex k))
  | None => true
  end.

End LookupSpec.

Module EngineSpec.
Import Floats Geo64.
Local Open Scope float_scope.

(** The number is neither NaN nor an infinity. *)
Definition isFinite (x : float) : bool :=
  match Prim2SF x with
  | S754_zero _ | S754_finite _ _ _ => true
  | _ => false
  end.

(** Values of the three functions that the ECMAScript standard fixes:
    the sine of +0 is +0 and that of NaN is NaN, the cosine of +0 is 1,
    [atan2(+0, 1)] is +0 and [atan2(NaN, x)] is NaN. *)
Definition ecma (M : MathLib) : Prop :=
  Math_sin M 0 = 0
  /\ Math_sin M nan = nan
  /\ Math_cos M 0 = 1
  /\ Math_atan2 M 0 1 = 0
  /\ (forall x, Math_atan2 M nan x = nan).

(** The sine of the engine is an odd function, as the one of fdlibm is. *)
Definition odd_sine (M : MathLib) : Prop :=
  forall x, Math_sin M (- x) = - Math_sin M x.

(** The product of two cosines of finite numbers is finite (a cosine lies
    between -1 and 1). *)
Definition bounded_cosine (M : MathLib) : Prop :=
  forall x y, isFinite x = true -> isFinite y = true ->
              isFinite (Math_cos M x * Math_cos M y) = true.

(** An engine that answers with the small-angle approximations. *)
Definition smallAngle : MathLib :=
  {| Math_sin := fun x => x;
     Math_cos := fun _ => 1;
     Math_atan2 := fun y x => y / x |}.

End EngineSpec.

Module StoreSpec.

(** The last position of a list that has the callsign [c]. *)
Fixpoint lastPosition (c : string) (positions : list LiveFlight)
  : option LiveFlight :=
  match positions with
  | [] => None
  | f :: rest =>
      match lastPosition c rest with
      | Some g => Some g
      | None => if String.eqb (callsign f) c then Some f else None
      end
  end.

(** The positions before the first one that lacks a coordinate. *)
Fixpoint storable (positions : list LiveFlight) : list LiveFlight :=
  match positions with
  | [] => []
  | f :: rest =>
      if (present (latitude f) && present (longitude f))%bool
      then f :: storable rest else []
  end.

Section Fields.
Variable Number_toString : Q -> string.
Variable toISOString : Instant -> string.

(** The eight fields written for a position that has both coordinates. *)
Definition fieldsOf (f : LiveFlight) : list (string * string) :=
  [ ("callsign", callsign f);
    ("latitude", Number_toString (ToNumber (latitude f)));
    ("longitude", Number_toString (ToNumber (longitude f)));
    ("altitude", Number_toString (altitude f));
    ("velocity", Number_toString (velocity f));
    ("heading", Number_toString (heading f));
    ("on_ground", Store.Boolean_toString (on_ground f));
    ("last_update", toISOString (timestamp f)) ].

(** A hash with the fields written over it. *)
Definition overwritten (fields : list (string * string))
    (h : gmap string string) : gmap string string :=
  fold_left (fun h kv => <[ fst kv := snd kv ]> h) fields h.

End Fields.

End StoreSpec.

Module RawFixtures.

(** A raw record that carries no position. *)
Definition noFix : State :=
  {| state_1 := Some "DLH0"; state_2 := Some "Germany";
     state_4 := Some 1700000000%Z;
     state_5 := None; state_6 := None;
     state_7 := None; state_8 := Some false;
     state_9 := None; state_10 := None; state_11 := None |}.

(** A raw record whose callsign is eight blanks, as the telemetry source
    pads it. *)
Definition blankCallsign : State :=
  {| state_1 := Some "        "; state_2 := Some "Germany";
     state_4 := Some 1700000000%Z;
     state_5 := Some (85622 # 10000); state_6 := Some (501278 # 10000);
     state_7 := Some (3000 # 1); state_8 := Some false;
     state_9 := Some (120 # 1); state_10 := Some (90 # 1);
     state_11 := Some (0 # 1) |}.

(** The position made of a raw record. *)
Definition positionOf (state : State) : LiveFlight :=
  {| flight := normalize 0%Z state; distance := 0; index := 0 |}.

End RawFixtures.

Import Spec IndexSpec DedupeSpec NormalizerSpec ZoneSpec FetchSpec TilerSpec.
Import Fixtures.

(* ===================================================================== *)
(** * Properties *)
(* ===================================================================== *)

(* ===================================================================== *)
(** * Status resolution *)
(* ===================================================================== *)

Section StatusResolver.
Import Spec.

Lemma Qlt_bool_iff (x y : Q) : Qlt_bool x y = true <-> (x < y)%Q.
Proof.
  unfold Qlt_bool. rewrite negb_true_iff.
  split.
  - intros Hb. apply Qnot_le_lt. intros Hle.
    apply Qle_bool_iff in Hle. congruence.
  - intros Hlt. destruct (Qle_bool y x) eqn:E; [|reflexivity].
    apply Qle_bool_iff in E. exfalso. eapply Qlt_not_le; eauto.
Qed.

Lemma Qlt_bool_false_iff (x y : Q) : Qlt_bool x y = false <-> (y <= x)%Q.
Proof.
  unfold Qlt_bool. rewrite negb_false_iff. apply Qle_bool_iff.
Qed.

(** Closes a rule whose guard contradicts the branch taken. *)
Ltac wrong_rule :=
  solve [ reflexivity | contradiction | congruence
        | exfalso;
          match goal with
          | H : ~ _ |- _ => apply H; solve [ discriminate | eauto ]
          end ].

(** C2, both decision orders.  Each resolver returns the label of a tag
    for every input, and the tag is the one of the first rule that
    applies. *)
Theorem C2_status_resolution :
  (forall flight : Flight,
      exists tag,
        telemetry_label tag = Some (Monitor.determineStatusFromOpenSky flight)
        /\ (on_ground flight = true -> tag = ON_GROUND)
        /\ (on_ground flight = false -> (altitude flight < 1000)%Q ->
            tag = TAXIING)
        /\ (on_ground flight = false -> ~ (altitude flight < 1000)%Q ->
            (5000 < altitude flight)%Q -> tag = IN_FLIGHT)
        /\ (on_ground flight = false -> ~ (altitude flight < 1000)%Q ->
            ~ (5000 < altitude flight)%Q -> tag = CLIMBING))
  /\
  (forall (schedule : Schedule) (liveData : option Passenger.LiveData),
      let cancelled := status schedule = Some "cancelled" in
      let landed := actual (arrival schedule) <> None in
      let departed := actual (departure schedule) <> None in
      let grounded :=
        exists h, liveData = Some h /\ h !! "on_ground" = Some "true" in
      let delayed := status schedule = Some "delayed" in
      exists tag,
        schedule_label tag = Some (Passenger.determineStatus schedule liveData)
        /\ (cancelled -> tag = CANCELLED)
        /\ (~ cancelled -> landed -> tag = LANDED)
        /\ (~ cancelled -> ~ landed -> departed -> tag = IN_FLIGHT)
        /\ (~ cancelled -> ~ landed -> ~ departed -> grounded ->
            tag = ON_GROUND)
        /\ (~ cancelled -> ~ landed -> ~ departed -> ~ grounded ->
            delayed -> tag = DELAYED)
        /\ (~ cancelled -> ~ landed -> ~ departed -> ~ grounded ->
            ~ delayed -> tag = ON_TIME)).
Proof.
  split.
  - intros flight. unfold Monitor.determineStatusFromOpenSky.
    destruct (on_ground flight) eqn:Hg.
    + exists ON_GROUND. repeat split; intros; congruence.
    + destruct (Qlt_bool (altitude flight) 1000) eqn:H1.
      * exists TAXIING. apply Qlt_bool_iff in H1.
        repeat split; intros; try congruence; contradiction.
      * apply Qlt_bool_false_iff in H1.
        destruct (Qlt_bool 5000 (altitude flight)) eqn:H2.
        -- exists IN_FLIGHT. apply Qlt_bool_iff in H2.
           repeat split; intros; try congruence; try contradiction.
           exfalso. eapply Qlt_not_le; eauto.
        -- exists CLIMBING. apply Qlt_bool_false_iff in H2.
           repeat split; intros; try congruence.
           ++ exfalso. eapply Qlt_not_le; eauto.
           ++ exfalso. eapply Qlt_not_le; eauto.
  - intros schedule liveData cancelled landed departed grounded delayed.
    subst cancelled landed departed grounded delayed.
    unfold Passenger.determineStatus.
    destruct (decide (status schedule = Some "cancelled")) as [Hc|Hc].
    { exists CANCELLED. repeat split; intros; try reflexivity; contradiction. }
    destruct (actual (arrival schedule)) eqn:Ha; simpl.
    { exists LANDED.
      repeat split; intros; wrong_rule. }
    destruct (actual (departure schedule)) eqn:Hd; simpl.
    { exists IN_FLIGHT.
      repeat split; intros; wrong_rule. }
    destruct (decide (liveData ≫= (fun h => h !! "on_ground") = Some "true"))
      as [Hg|Hg].
    { exists ON_GROUND.
      assert (Hgr : exists h, liveData = Some h /\ h !! "on_ground" = Some "true").
      { destruct liveData as [h|]; simpl in Hg; [|discriminate].
        exists h. split; [reflexivity|exact Hg]. }
      repeat split; intros; wrong_rule. }
    assert (Hng : ~ exists h, liveData = Some h /\ h !! "on_ground" = Some "true").
    { intros (h & -> & Hh). apply Hg. simpl. exact Hh. }
    destruct (decide (status schedule = Some "delayed")) as [Hdl|Hdl].
    { exists DELAYED.
      repeat split; intros; wrong_rule. }
    exists ON_TIME.
    repeat split; intros; wrong_rule.
Qed.

End StatusResolver.

(* ===================================================================== *)
(** * The schedule index and the Correlator *)
(* ===================================================================== *)

Section Correlator.
Import Monitor LookupSpec.

(** ** Own properties *)

Lemma get_own_Some_In (m : list (string * Schedule)) (k : string)
    (s : Schedule) :
  get_own m k = Some s -> In (k, s) m.
Proof.
  induction m as [|[k' v] m IH]; simpl; [discriminate|].
  destruct (String.eqb k' k) eqn:E.
  - apply String.eqb_eq in E. intros [= ->]. left. now subst.
  - intros Hg. right. now apply IH.
Qed.

Lemma get_own_None_not_In (m : list (string * Schedule)) (k : string) :
  get_own m k = None -> ~ In k (map fst m).
Proof.
  induction m as [|[k' v] m IH]; simpl; [tauto|].
  destruct (String.eqb k' k) eqn:E; [discriminate|].
  apply String.eqb_neq in E. intros Hg [Hk|Hk]; [congruence|].
  now apply IH.
Qed.

Lemma In_get_own (m : list (string * Schedule)) (k : string) (s : Schedule) :
  List.NoDup (map fst m) -> In (k, s) m -> get_own m k = Some s.
Proof.
  induction m as [|[k' v] m IH]; simpl; [tauto|].
  intros Hnd [Hin|Hin].
  - injection Hin as -> ->. now rewrite String.eqb_refl.
  - inversion Hnd as [|? ? Hnot Hnd']; subst.
    destruct (String.eqb k' k) eqn:E.
    + apply String.eqb_eq in E. subst k'. exfalso. apply Hnot.
      change k with (fst (k, s)). now apply in_map.
    + now apply IH.
Qed.

Lemma set_own_keys (m : list (string * Schedule)) (k : string)
    (s : Schedule) :
  map fst (set_own m k s) =
  if List.existsb (String.eqb k) (map fst m) then map fst m
  else (map fst m ++ [k])%list.
Proof.
  induction m as [|[k' v] m IH]; simpl; [reflexivity|].
  rewrite (String.eqb_sym k k').
  destruct (String.eqb k' k) eqn:E; simpl.
  - apply String.eqb_eq in E. now subst.
  - rewrite IH. now destruct (List.existsb (String.eqb k) (map fst m)).
Qed.

Lemma get_own_set_own (m : list (string * Schedule)) (k k' : string)
    (v : Schedule) :
  get_own (set_own m k v) k'
  = if String.eqb k k' then Some v else get_own m k'.
Proof.
  induction m as [|[k0 v0] m IH]; simpl.
  - reflexivity.
  - destruct (String.eqb k0 k) eqn:E0; simpl.
    + apply String.eqb_eq in E0. subst k0.
      destruct (String.eqb k k'); reflexivity.
    + rewrite IH. apply String.eqb_neq in E0.
      destruct (String.eqb k0 k') eqn:E1; [|reflexivity].
      apply String.eqb_eq in E1. subst k'.
      destruct (String.eqb k k0) eqn:E2; [|reflexivity].
      apply String.eqb_eq in E2. congruence.
Qed.

Lemma keyed_set_own (m : list (string * Schedule)) (k : string)
    (s : Schedule) :
  keyed m -> flightNumber s = Some k -> keyed (set_own m k s).
Proof.
  intros [Hall Hnd] Hk. split.
  - clear Hnd. induction m as [|[k' v] m IH]; simpl.
    + constructor; [exact Hk|constructor].
    + inversion Hall as [|? ? Hhd Htl]; subst.
      destruct (String.eqb k' k) eqn:E.
      * apply String.eqb_eq in E. subst k'.
        constructor; [exact Hk|exact Htl].
      * constructor; [exact Hhd|now apply IH].
  - rewrite set_own_keys.
    destruct (List.existsb (String.eqb k) (map fst m)) eqn:E; [exact Hnd|].
    apply List.NoDup_app.
    { exact Hnd. }
    { constructor; [simpl; tauto|constructor]. }
    intros x Hx [Hk'|[]]. subst x.
    assert (List.existsb (String.eqb k) (map fst m) = true); [|congruence].
    apply List.existsb_exists. exists k. split; [exact Hx|apply String.eqb_refl].
Qed.

(** ** Assignment to a property of the index *)

Lemma own_set (m : ScheduleMap) (k : string) (v : Schedule) :
  own (set m k v)
  = if String.eqb k "__proto__" then own m else set_own (own m) k v.
Proof. unfold set. now destruct (String.eqb k "__proto__"). Qed.

Lemma proto_set (m : ScheduleMap) (k : string) (v : Schedule) :
  proto (set m k v) = if String.eqb k "__proto__" then Some v else proto m.
Proof. unfold set. now destruct (String.eqb k "__proto__"). Qed.

Lemma keyed_set (m : ScheduleMap) (k : string) (s : Schedule) :
  keyed (own m) -> flightNumber s = Some k -> keyed (own (set m k s)).
Proof.
  intros Hm Hk. rewrite own_set.
  destruct (String.eqb k "__proto__"); [exact Hm|now apply keyed_set_own].
Qed.

Lemma keyed_addApiSchedules (l : list Schedule) (m : ScheduleMap) :
  keyed (own m) -> keyed (own (addApiSchedules m l)).
Proof.
  revert m. unfold addApiSchedules.
  induction l as [|s l IH]; cbn [fold_left]; intros m Hm; [exact Hm|].
  apply IH. destruct (flightNumber s) as [k|] eqn:Hk; [|exact Hm].
  destruct (truthy_string (Some k)); [|exact Hm].
  now apply keyed_set.
Qed.

Lemma keyed_addSampleSchedules (l : list Schedule) (m : ScheduleMap) :
  keyed (own m) -> keyed (own (addSampleSchedules m l)).
Proof.
  revert m. unfold addSampleSchedules.
  induction l as [|s l IH]; cbn [fold_left]; intros m Hm; [exact Hm|].
  apply IH. destruct (flightNumber s) as [k|] eqn:Hk; [|exact Hm].
  destruct (truthy_string (Some k) && negb (truthy (get m k)))%bool;
    [|exact Hm].
  now apply keyed_set.
Qed.

Lemma keyed_buildScheduleMap (api : list Schedule) (now : Instant) :
  keyed (own (buildScheduleMap api now)).
Proof.
  unfold buildScheduleMap.
  apply keyed_addSampleSchedules, keyed_addApiSchedules.
  split; constructor.
Qed.

(** ** Inherited properties *)

Lemma inherited_plain (p : option Schedule) (k : string) :
  inheritedKey k = false -> inherited p k = None.
Proof.
  unfold inheritedKey. cbn [List.existsb Object_prototype]. intros H.
  repeat match goal with
         | H : (_ || _)%bool = false |- _ =>
             apply orb_false_iff in H; destruct H
         end.
  unfold inherited, schedule_member. cbn [List.existsb Object_prototype].
  destruct p;
    repeat match goal with
           | H : String.eqb k _ = false |- _ => rewrite ?H; clear H
           end; reflexivity.
Qed.

Lemma plain_not_proto (k : string) :
  inheritedKey k = false -> String.eqb k "__proto__" = false.
Proof.
  unfold inheritedKey. cbn [List.existsb Object_prototype]. intros H.
  repeat match goal with
         | H : (_ || _)%bool = false |- _ =>
             apply orb_false_iff in H; destruct H
         end.
  assumption.
Qed.

Lemma truthy_get_plain (m : ScheduleMap) (k : string) :
  inheritedKey k = false -> truthy (get m k) = present (get_own (own m) k).
Proof.
  intros Hk. unfold get.
  destruct (get_own (own m) k); [reflexivity|].
  now rewrite inherited_plain.
Qed.

Lemma samples_plain (now : Instant) :
  forallb plain (generateSampleSchedules now) = true.
Proof. reflexivity. Qed.

(** ** What the two loops leave in the index *)

Lemma get_own_addApiSchedules (l : list Schedule) (m : ScheduleMap)
    (k : string) :
  k <> "" -> k <> "__proto__" ->
  get_own (own (addApiSchedules m l)) k
  = match lastWith k l with
    | Some s => Some s
    | None => get_own (own m) k
    end.
Proof.
  intros Hk Hp. revert m. induction l as [|s l IH]; intros m; [reflexivity|].
  unfold addApiSchedules in *. cbn [fold_left lastWith]. rewrite IH.
  destruct (lastWith k l); [reflexivity|].
  unfold filedUnder.
  destruct (flightNumber s) as [k'|]; [|reflexivity].
  cbn [truthy_string].
  destruct (String.eqb k' "") eqn:E; cbn [negb].
  - apply String.eqb_eq in E. subst k'.
    assert (Hf : String.eqb "" k = false) by (apply String.eqb_neq; congruence).
    now rewrite Hf.
  - rewrite own_set. destruct (String.eqb k' "__proto__") eqn:E'.
    + apply String.eqb_eq in E'. subst k'.
      assert (Hf : String.eqb "__proto__" k = false)
        by (apply String.eqb_neq; congruence).
      now rewrite Hf.
    + rewrite get_own_set_own. destruct (String.eqb k' k); reflexivity.
Qed.

Lemma get_own_unfiled_addApiSchedules (l : list Schedule) (m : ScheduleMap)
    (k : string) :
  k = "" \/ k = "__proto__" ->
  get_own (own (addApiSchedules m l)) k = get_own (own m) k.
Proof.
  intros Hk. revert m. induction l as [|s l IH]; intros m; [reflexivity|].
  unfold addApiSchedules in *. cbn [fold_left]. rewrite IH.
  destruct (flightNumber s) as [k'|]; [|reflexivity].
  cbn [truthy_string].
  destruct (String.eqb k' "") eqn:E; cbn [negb]; [reflexivity|].
  rewrite own_set. destruct (String.eqb k' "__proto__") eqn:E'; [reflexivity|].
  rewrite get_own_set_own.
  destruct (String.eqb k' k) eqn:E''; [|reflexivity].
  apply String.eqb_eq in E''. subst k'.
  destruct Hk as [->| ->]; [now rewrite String.eqb_refl in E|].
  now rewrite String.eqb_refl in E'.
Qed.

Lemma proto_addApiSchedules (l : list Schedule) (m : ScheduleMap) :
  proto (addApiSchedules m l)
  = match lastWith "__proto__" l with
    | Some s => Some s
    | None => proto m
    end.
Proof.
  revert m. induction l as [|s l IH]; intros m; [reflexivity|].
  unfold addApiSchedules in *. cbn [fold_left lastWith]. rewrite IH.
  destruct (lastWith "__proto__" l); [reflexivity|].
  unfold filedUnder.
  destruct (flightNumber s) as [k'|]; [|reflexivity].
  cbn [truthy_string].
  destruct (String.eqb k' "") eqn:E; cbn [negb].
  - apply String.eqb_eq in E. subst k'. reflexivity.
  - rewrite proto_set. now destruct (String.eqb k' "__proto__").
Qed.

Lemma get_own_addSampleSchedules (l : list Schedule) (m : ScheduleMap)
    (k : string) :
  forallb plain l = true -> k <> "" ->
  get_own (own (addSampleSchedules m l)) k
  = match get_own (own m) k with
    | Some s => Some s
    | None => firstWith k l
    end.
Proof.
  intros Hl Hk. revert m. induction l as [|s l IH]; intros m.
  - simpl. now destruct (get_own (own m) k).
  - cbn [forallb] in Hl. apply andb_true_iff in Hl as [Hs Hl].
    specialize (IH Hl).
    unfold addSampleSchedules, firstWith in *. cbn [fold_left List.find].
    rewrite IH. unfold filedUnder at 2. unfold plain in Hs.
    destruct (flightNumber s) as [k'|]; [|reflexivity].
    apply negb_true_iff in Hs.
    cbn [truthy_string].
    destruct (String.eqb k' "") eqn:E; cbn [negb andb].
    + apply String.eqb_eq in E. subst k'.
      assert (Hf : String.eqb "" k = false)
        by (apply String.eqb_neq; congruence).
      now rewrite Hf.
    + rewrite (truthy_get_plain m k' Hs).
      destruct (get_own (own m) k') as [y|] eqn:Hy; cbn [present negb].
      * destruct (String.eqb k' k) eqn:E'; [|reflexivity].
        apply String.eqb_eq in E'. subst k'. now rewrite Hy.
      * rewrite own_set, (plain_not_proto k' Hs), get_own_set_own.
        destruct (String.eqb k' k) eqn:E'.
        -- apply String.eqb_eq in E'. subst k'. now rewrite Hy.
        -- reflexivity.
Qed.

Lemma get_own_empty_addSampleSchedules (l : list Schedule)
    (m : ScheduleMap) :
  get_own (own (addSampleSchedules m l)) "" = get_own (own m) "".
Proof.
  revert m. induction l as [|s l IH]; intros m; [reflexivity|].
  unfold addSampleSchedules in *. cbn [fold_left]. rewrite IH.
  destruct (flightNumber s) as [k'|]; [|reflexivity].
  cbn [truthy_string].
  destruct (String.eqb k' "") eqn:E; cbn [negb andb]; [reflexivity|].
  destruct (truthy (get m k')); cbn [negb]; [reflexivity|].
  rewrite own_set. destruct (String.eqb k' "__proto__"); [reflexivity|].
  now rewrite get_own_set_own, E.
Qed.

Lemma proto_addSampleSchedules (l : list Schedule) (m : ScheduleMap) :
  forallb plain l = true -> proto (addSampleSchedules m l) = proto m.
Proof.
  intros Hl. revert m. induction l as [|s l IH]; intros m; [reflexivity|].
  cbn [forallb] in Hl. apply andb_true_iff in Hl as [Hs Hl].
  specialize (IH Hl).
  unfold addSampleSchedules in *. cbn [fold_left]. rewrite IH.
  unfold plain in Hs.
  destruct (flightNumber s) as [k'|]; [|reflexivity].
  apply negb_true_iff in Hs.
  destruct (truthy_string (Some k') && negb (truthy (get m k')))%bool;
    [|reflexivity].
  now rewrite proto_set, (plain_not_proto k' Hs).
Qed.

(** The own property of the index under a key: none under the empty key
    and under [__proto__]; otherwise the last fetched schedule with that
    flight number and, without one, the first sample with it. *)
Lemma get_own_buildScheduleMap (api : list Schedule) (now : Instant)
    (k : string) :
  get_own (own (buildScheduleMap api now)) k
  = if (String.eqb k "" || String.eqb k "__proto__")%bool then None
    else match lastWith k api with
         | Some s => Some s
         | None => firstWith k (generateSampleSchedules now)
         end.
Proof.
  unfold buildScheduleMap.
  destruct (String.eqb k "") eqn:E; cbn [orb].
  { apply String.eqb_eq in E. subst k.
    rewrite get_own_empty_addSampleSchedules.
    rewrite get_own_unfiled_addApiSchedules by now left. reflexivity. }
  apply String.eqb_neq in E.
  rewrite get_own_addSampleSchedules by (apply samples_plain || exact E).
  destruct (String.eqb k "__proto__") eqn:E'.
  { apply String.eqb_eq in E'. subst k.
    rewrite get_own_unfiled_addApiSchedules by now right. reflexivity. }
  apply String.eqb_neq in E'.
  rewrite get_own_addApiSchedules by assumption.
  now destruct (lastWith k api).
Qed.

(** The prototype of the index: the last fetched schedule whose flight
    number is [__proto__], if there is one. *)
Lemma proto_buildScheduleMap (api : list Schedule) (now : Instant) :
  proto (buildScheduleMap api now) = lastWith "__proto__" api.
Proof.
  unfold buildScheduleMap.
  rewrite proto_addSampleSchedules by apply samples_plain.
  rewrite proto_addApiSchedules. now destruct (lastWith "__proto__" api).
Qed.

Lemma firstWith_LH123 (now : Instant) :
  firstWith "LH123" (generateSampleSchedules now) <> None.
Proof.
  unfold firstWith, generateSampleSchedules. cbn. discriminate.
Qed.

Lemma own_buildScheduleMap_nonempty (api : list Schedule) (now : Instant) :
  own (buildScheduleMap api now) <> [].
Proof.
  intros Hnil.
  pose proof (get_own_buildScheduleMap api now "LH123") as Hl.
  rewrite Hnil in Hl. cbn [get_own] in Hl.
  change (String.eqb "LH123" "" || String.eqb "LH123" "__proto__")%bool
    with false in Hl.
  destruct (lastWith "LH123" api); [discriminate|].
  symmetry in Hl. exact (firstWith_LH123 now Hl).
Qed.

Lemma lastWith_Some (k : string) (l : list Schedule) (s : Schedule) :
  lastWith k l = Some s -> In s l /\ flightNumber s = Some k.
Proof.
  induction l as [|x l IH]; cbn [lastWith]; [discriminate|].
  destruct (lastWith k l) as [y|].
  - intros [= ->]. destruct (IH eq_refl) as [Hin Hk]. split; [now right|exact Hk].
  - unfold filedUnder. destruct (flightNumber x) as [k'|] eqn:Hx; [|discriminate].
    destruct (String.eqb k' k) eqn:E; [|discriminate].
    apply String.eqb_eq in E. subst k'. intros [= ->]. split; [now left|exact Hx].
Qed.

Lemma lastWith_None (k : string) (l : list Schedule) :
  (forall s, In s l -> flightNumber s <> Some k) -> lastWith k l = None.
Proof.
  intros Hno. destruct (lastWith k l) as [s|] eqn:Hl; [|reflexivity].
  apply lastWith_Some in Hl as [Hin Hk]. destruct (Hno s Hin Hk).
Qed.

Lemma firstWith_Some (k : string) (l : list Schedule) (s : Schedule) :
  firstWith k l = Some s -> In s l /\ flightNumber s = Some k.
Proof.
  unfold firstWith. intros Hf. apply List.find_some in Hf as [Hin Hk].
  split; [exact Hin|]. unfold filedUnder in Hk.
  destruct (flightNumber s) as [k'|]; [|discriminate].
  apply String.eqb_eq in Hk. now subst.
Qed.

(** ** The enumeration of the index *)

Lemma insertByIndex_nonempty (e : N * (string * Schedule))
    (l : list (N * (string * Schedule))) :
  insertByIndex e l <> [].
Proof.
  destruct l as [|e' l]; cbn [insertByIndex]; [discriminate|].
  destruct (N.leb (fst e) (fst e')); discriminate.
Qed.

Lemma Object_entries_nonempty (m : ScheduleMap) :
  own m <> [] -> Object_entries m <> [].
Proof.
  unfold Object_entries. destruct (own m) as [|e l]; [contradiction|].
  intros _. cbn [flat_map List.filter].
  destruct (arrayIndex (fst e)) as [n|]; cbn [present negb].
  - cbn [app fold_right]. intros H. apply app_eq_nil in H as [H _].
    apply map_eq_nil in H. exact (insertByIndex_nonempty _ _ H).
  - intros H. apply app_eq_nil in H as [_ H]. discriminate.
Qed.

(** Without an array index among the keys, the enumeration follows the
    order in which the properties were created. *)
Lemma Object_entries_named (m : ScheduleMap) :
  Forall (fun e => arrayIndex (fst e) = None) (own m) ->
  Object_entries m = own m.
Proof.
  unfold Object_entries. intros Hall.
  assert (Hi : flat_map (fun e : string * Schedule =>
                           match arrayIndex (fst e) with
                           | Some n => [(n, e)]
                           | None => []
                           end) (own m) = []).
  { induction Hall as [|e l He Hl IH]; [reflexivity|].
    cbn [flat_map]. now rewrite He. }
  assert (Hn : List.filter
                 (fun e : string * Schedule =>
                    negb (present (arrayIndex (fst e)))) (own m) = own m).
  { clear Hi. induction Hall as [|e l He Hl IH]; [reflexivity|].
    cbn [List.filter]. rewrite He. cbn [present negb]. now rewrite IH. }
  rewrite Hi, Hn. reflexivity.
Qed.

Lemma samples_named (now : Instant) :
  forallb named (generateSampleSchedules now) = true.
Proof. reflexivity. Qed.

(** ** The match *)

(** On a keyed index the loop condition is the heuristic of the
    specification. *)
Lemma partialMatch_fallback (flight : Flight) (k : string) (s : Schedule) :
  flightNumber s = Some k ->
  partialMatch flight k s = Spec.fallback (callsign flight) s.
Proof.
  intros Hk. unfold partialMatch, Spec.fallback. now rewrite Hk.
Qed.

Lemma findPartial_first (flight : Flight) (m : list (string * Schedule)) :
  Forall (fun e => flightNumber (snd e) = Some (fst e)) m ->
  forall before s after,
    map snd m = (before ++ s :: after)%list ->
    Spec.fallback (callsign flight) s = true ->
    Forall (fun s' => Spec.fallback (callsign flight) s' = false) before ->
    findPartial flight m = Some s.
Proof.
  induction m as [|[k v] m IH]; intros Hall before s after Heq Hs Hb.
  - destruct before; discriminate.
  - inversion Hall as [|? ? Hhd Htl]; subst. simpl in *.
    rewrite (partialMatch_fallback _ _ _ Hhd).
    destruct before as [|b before]; simpl in Heq; injection Heq as -> Heq.
    + now rewrite Hs.
    + inversion Hb as [|? ? Hb1 Hb2]; subst. rewrite Hb1.
      now apply (IH Htl before s after).
Qed.

Lemma findPartial_none (flight : Flight) (m : list (string * Schedule)) :
  Forall (fun e => flightNumber (snd e) = Some (fst e)) m ->
  (forall s, In s (map snd m) ->
             Spec.fallback (callsign flight) s = false) ->
  findPartial flight m = None.
Proof.
  induction m as [|[k v] m IH]; intros Hall Hno; [reflexivity|].
  inversion Hall as [|? ? Hhd Htl]; subst. simpl in *.
  rewrite (partialMatch_fallback _ _ _ Hhd), (Hno v) by now left.
  apply IH; [exact Htl|]. intros s Hs. apply Hno. now right.
Qed.

(** The three steps of the match on a keyed index that inherits nothing
    under the callsign and has no array index among its keys. *)
Lemma matchSchedule_ordinary (index : ScheduleMap) (flight : Flight) :
  keyed (own index) ->
  inherited (proto index) (callsign flight) = None ->
  Object_entries index = own index ->
  let schedules := map snd (own index) in
  let c := callsign flight in
  exists schedule,
    matchSchedule flight index = Some (VSchedule schedule)
    /\ (forall s, In s schedules -> flightNumber s = Some c -> schedule = s)
    /\ ((forall s, In s schedules -> flightNumber s <> Some c) ->
        forall before s after,
          schedules = (before ++ s :: after)%list ->
          Spec.fallback c s = true ->
          Forall (fun s' => Spec.fallback c s' = false) before ->
          schedule = s)
    /\ ((forall s, In s schedules ->
                   flightNumber s <> Some c /\ Spec.fallback c s = false) ->
        schedule = placeholder flight).
Proof.
  intros [Hall Hnd] Hinh Hent schedules c.
  assert (Hexact : forall s, In s schedules -> flightNumber s = Some c ->
                             get_own (own index) c = Some s).
  { intros s Hs Hc. apply in_map_iff in Hs as [[k v] [<- Hin]].
    simpl in Hc. rewrite List.Forall_forall in Hall.
    specialize (Hall _ Hin). simpl in Hall.
    assert (k = c) by congruence. subst k. now apply In_get_own. }
  unfold matchSchedule, get. cbv zeta. rewrite Hent, Hinh.
  destruct (get_own (own index) (callsign flight)) as [s0|] eqn:Hget;
    cbn [truthy].
  - exists s0. split; [reflexivity|].
    assert (Hs0 : In s0 schedules /\ flightNumber s0 = Some c).
    { apply get_own_Some_In in Hget. split.
      - change s0 with (snd (callsign flight, s0)). now apply in_map.
      - rewrite List.Forall_forall in Hall. apply (Hall _ Hget). }
    split; [|split].
    + intros s Hs Hc. specialize (Hexact s Hs Hc).
      fold c in Hget. congruence.
    + intros Hno. exfalso. now apply (Hno s0).
    + intros Hno. exfalso. now apply (Hno s0).
  - destruct (findPartial flight (own index)) as [s1|] eqn:Hfind;
      cbn [truthy].
    + exists s1. split; [reflexivity|]. split; [|split].
      * intros s Hs Hc. specialize (Hexact s Hs Hc).
        fold c in Hget. congruence.
      * intros _ before s after Heq Hs Hb.
        rewrite (findPartial_first flight (own index) Hall before s after
                   Heq Hs Hb) in Hfind. congruence.
      * intros Hno.
        rewrite (findPartial_none flight (own index) Hall) in Hfind;
          [discriminate|].
        intros s Hs. now apply Hno.
    + exists (placeholder flight). split; [reflexivity|]. split; [|split].
      * intros s Hs Hc. specialize (Hexact s Hs Hc).
        fold c in Hget. congruence.
      * intros _ before s after Heq Hs Hb.
        rewrite (findPartial_first flight (own index) Hall before s after
                   Heq Hs Hb) in Hfind. discriminate.
      * intros _. reflexivity.
Qed.

(** When no fetched schedule has the flight number [__proto__] or a flight
    number that is an array index, and the callsign is not the name of a
    member of [Object.prototype], the match of a live position on the
    index [getLiveFlights] builds is: the schedule whose flight number
    equals the callsign, if the index holds one; otherwise the first
    schedule of the index, in insertion order, that the fallback
    heuristic accepts; otherwise the placeholder. *)
Theorem correlator_match_on_ordinary_input (now : Instant)
    (api : list Schedule) (flight : Flight) :
  (forall s, In s api -> flightNumber s <> Some "__proto__") ->
  (forall s k, In s api -> flightNumber s = Some k -> arrayIndex k = None) ->
  List.existsb (String.eqb (callsign flight)) Object_prototype = false ->
  let index := buildScheduleMap api now in
  let schedules := map snd (own index) in
  let c := callsign flight in
  exists schedule,
    matchSchedule flight index = Some (VSchedule schedule)
    /\ (forall s, In s schedules -> flightNumber s = Some c -> schedule = s)
    /\ ((forall s, In s schedules -> flightNumber s <> Some c) ->
        forall before s after,
          schedules = (before ++ s :: after)%list ->
          Spec.fallback c s = true ->
          Forall (fun s' => Spec.fallback c s' = false) before ->
          schedule = s)
    /\ ((forall s, In s schedules ->
                   flightNumber s <> Some c /\ Spec.fallback c s = false) ->
        schedule = placeholder flight
        /\ airline schedule = Some "Unknown Airline"
        /\ airport (departure schedule) = Some "Unknown Airport"
        /\ airport (arrival schedule) = Some "Unknown Airport"
        /\ iata (departure schedule) = Some "N/A"
        /\ iata (arrival schedule) = Some "N/A"
        /\ gate (departure schedule) = Some "N/A"
        /\ terminal (departure schedule) = Some "N/A"
        /\ gate (arrival schedule) = Some "N/A"
        /\ terminal (arrival schedule) = Some "N/A"
        /\ status schedule = Some "in-flight"
        /\ registration (aircraft schedule) = Some c).
Proof.
  intros Hproto Hidx Hc index schedules c. subst schedules c.
  pose proof (keyed_buildScheduleMap api now) as Hkeyed. fold index in Hkeyed.
  assert (Hp : proto index = None).
  { unfold index. rewrite proto_buildScheduleMap.
    now apply lastWith_None. }
  assert (Hinh : inherited (proto index) (callsign flight) = None).
  { rewrite Hp. unfold inherited. now rewrite Hc. }
  assert (Hent : Object_entries index = own index).
  { apply Object_entries_named. apply List.Forall_forall.
    intros [k s] Hin. cbn [fst].
    pose proof (In_get_own _ _ _ (proj2 Hkeyed) Hin) as Hg.
    unfold index in Hg. rewrite get_own_buildScheduleMap in Hg.
    destruct (String.eqb k "" || String.eqb k "__proto__")%bool;
      [discriminate|].
    destruct (lastWith k api) as [s'|] eqn:Hl.
    - injection Hg as ->. apply lastWith_Some in Hl as [Hs Hk].
      exact (Hidx s k Hs Hk).
    - apply firstWith_Some in Hg as [Hs Hk].
      pose proof (samples_named now) as Hn.
      rewrite forallb_forall in Hn. specialize (Hn s Hs).
      unfold named in Hn. rewrite Hk in Hn.
      destruct (arrayIndex k); [discriminate Hn|reflexivity]. }
  destruct (matchSchedule_ordinary index flight Hkeyed Hinh Hent)
    as (schedule & Hm & Hexact & Hfirst & Hnone).
  exists schedule. repeat apply conj; try assumption.
  intros Hno. rewrite (Hnone Hno). repeat split.
Qed.

(** C1.  The match is not the one described for every position and every
    index.  (1) When the callsign is the name of a member every object
    inherits ([toString], [constructor], [valueOf], ..) and no fetched
    schedule has it as flight number, [scheduleMap[flight.callsign]]
    gives that inherited member, which is truthy: the search and the
    placeholder are skipped and the match is no schedule at all.
    (2) [Object.entries] lists a key that is an array index before the
    others: with the fetched schedules "A12" and "12", in this order, and
    the callsign "12Z", no flight number equals the callsign, both
    schedules pass the fallback heuristic and "A12" was inserted first,
    yet the match is the schedule "12". *)
Theorem C1_inherited_member_and_index_order (now : Instant) :
  (forall (api : list Schedule) (flight : Flight) (c : string),
      callsign flight = c ->
      In c Object_prototype -> c <> "__proto__" ->
      (forall s, In s api -> flightNumber s <> Some c) ->
      matchSchedule flight (buildScheduleMap api now) = Some (VMember c))
  /\ (let first := schedule_of "A12" "r1" in
      let second := schedule_of "12" "r2" in
      let index := buildScheduleMap [first; second] now in
      let flight := flight_of_callsign "12Z" in
      firstn 2 (own index) = [("A12", first); ("12", second)]
      /\ forallb (fun s => negb (filedUnder "12Z" s)) (map snd (own index))
         = true
      /\ Spec.fallback "12Z" first = true
      /\ Spec.fallback "12Z" second = true
      /\ first <> second
      /\ matchSchedule flight index = Some (VSchedule second)).
Proof.
  split.
  - intros api flight c Hc Hin Hnp Hno.
    assert (Hown : get_own (own (buildScheduleMap api now)) c = None).
    { rewrite get_own_buildScheduleMap, (lastWith_None c api Hno).
      cbn [Object_prototype In] in Hin.
      repeat (destruct Hin as [<-|Hin]; [reflexivity|]). destruct Hin. }
    assert (Hinh : forall p, inherited p c = Some (VMember c)).
    { intros p. cbn [Object_prototype In] in Hin.
      repeat (destruct Hin as [<-|Hin];
              [try (now destruct p); congruence|]).
      destruct Hin. }
    unfold matchSchedule, get. cbv zeta. rewrite Hc, Hown, Hinh.
    reflexivity.
  - cbv zeta. repeat split; try (vm_compute; reflexivity). discriminate.
Qed.

End Correlator.

Lemma correlator_match_on_ordinary_input_witness :
  let api := [schedule_of "XY999" "LH123"; schedule_of "LH123" "D-AIDE"] in
  let flight := flight_of_callsign "LH123" in
  let index := Monitor.buildScheduleMap api 0%Z in
  let schedules := map snd (Monitor.own index) in
  exists schedule,
    Monitor.matchSchedule flight index = Some (Monitor.VSchedule schedule)
    /\ (forall s, In s schedules -> flightNumber s = Some "LH123" ->
                  schedule = s)
    /\ schedule = schedule_of "LH123" "D-AIDE".
Proof.
  intros api flight index schedules.
  destruct (correlator_match_on_ordinary_input 0%Z api flight)
    as (schedule & Hm & Hexact & _).
  - intros s [<-|[<-|[]]]; discriminate.
  - intros s k [<-|[<-|[]]] [= <-]; reflexivity.
  - reflexivity.
  - exists schedule. split; [exact Hm|]. split; [exact Hexact|].
    apply Hexact; [|reflexivity]. vm_compute. tauto.
Defined.

(* ===================================================================== *)
(** * Enrichment *)
(* ===================================================================== *)

Section Enrichment.
Import Monitor.

Lemma matchSchedule_Some (flight : Flight) (m : ScheduleMap) :
  exists v, matchSchedule flight m = Some v /\ truthy (Some v) = true.
Proof.
  unfold matchSchedule. cbv zeta.
  destruct (truthy (get m (callsign flight))) eqn:Ht.
  - rewrite Ht. destruct (get m (callsign flight)) as [v|]; [eauto|discriminate].
  - destruct (findPartial flight (Object_entries m)) as [s|].
    + cbn [truthy]. eauto.
    + rewrite Ht. eauto.
Qed.

Lemma or_string_truthy (x : option string) (d : string) :
  d <> "" -> or_string x d <> "".
Proof.
  intros Hd. unfold or_string. destruct x as [s|]; [|exact Hd].
  destruct (String.eqb s "") eqn:E; [exact Hd|].
  now apply String.eqb_neq in E.
Qed.

(** The two concrete cases of the specification: an exact match wins
    over a registration match that comes first in the index, and a
    callsign nothing matches gets the placeholder. *)
Example exact_match_beats_registration :
  matchSchedule (flight_of_callsign "LH123")
    (addApiSchedules emptyObject
       [schedule_of "XY999" "LH123"; schedule_of "LH123" "D-AIDE"])
  = Some (VSchedule (schedule_of "LH123" "D-AIDE")).
Proof. vm_compute. reflexivity. Qed.

Example registration_match_without_exact :
  matchSchedule (flight_of_callsign "QQ123")
    (addApiSchedules emptyObject
       [schedule_of "XY999" "QQ123"; schedule_of "LH123" "D-AIDE"])
  = Some (VSchedule (schedule_of "XY999" "QQ123")).
Proof. vm_compute. reflexivity. Qed.

Example unmatched_callsign_gets_placeholder :
  let e := enrich (buildScheduleMap [] 0%Z)
             {| flight := flight_of_callsign "QQ123"; distance := 0;
                index := 0 |} in
  e_schedule e = VSchedule (placeholder (flight_of_callsign "QQ123"))
  /\ e_gate e = "N/A".
Proof. vm_compute. split; reflexivity. Qed.

(** C10.  The enrichment step emits one record per live position, in the
    order of the positions; the record of a position carries its
    callsign, what was matched for it (a truthy value, hence never null
    nor undefined), and a gate and a terminal that are the ones of the
    departure of what was matched when it has them and "N/A" otherwise,
    hence never null and never empty. *)
Theorem C10_enrichment_one_per_position (now : Instant)
    (openSkyFlights : list LiveFlight) (aviationStackFlights : list Schedule) :
  let out := enrichedFlights now openSkyFlights aviationStackFlights in
  let index := buildScheduleMap aviationStackFlights now in
  List.length out = List.length openSkyFlights
  /\ map e_callsign out = map (fun f : LiveFlight => callsign f) openSkyFlights
  /\ (forall i f, nth_error openSkyFlights i = Some f ->
        exists e s,
          nth_error out i = Some e
          /\ e_callsign e = callsign f
          /\ matchSchedule f index = Some s
          /\ truthy (Some s) = true
          /\ e_schedule e = s
          /\ (let g := opt_chain (departure_of (Some s)) gate in
              e_gate e = (if truthy_string g then default "" g else "N/A"))
          /\ (let t := opt_chain (departure_of (Some s)) terminal in
              e_terminal e = (if truthy_string t then default "" t
                              else "N/A"))
          /\ e_gate e <> "" /\ e_terminal e <> "").
Proof.
  intros out index. subst out. unfold enrichedFlights. fold index.
  generalize index. clear index. intros index.
  split; [apply length_map|]. split.
  - rewrite map_map. reflexivity.
  - intros i f Hi.
    destruct (matchSchedule_Some f index) as (s & Hs & Ht).
    exists (enrich index f), s.
    split; [now apply map_nth_error|].
    split; [reflexivity|]. split; [exact Hs|]. split; [exact Ht|].
    unfold enrich. cbn [e_schedule e_gate e_terminal]. rewrite Hs, Ht.
    split; [reflexivity|].
    split; [|split; [|split]].
    + cbv zeta. unfold or_string, truthy_string.
      destruct (opt_chain (departure_of (Some s)) gate) as [g|];
        [|reflexivity].
      simpl. now destruct (String.eqb g "").
    + cbv zeta. unfold or_string, truthy_string.
      destruct (opt_chain (departure_of (Some s)) terminal) as [g|];
        [|reflexivity].
      simpl. now destruct (String.eqb g "").
    + apply or_string_truthy. discriminate.
    + apply or_string_truthy. discriminate.
Qed.

End Enrichment.

(* ===================================================================== *)
(** * What toFixed prints *)
(* ===================================================================== *)

Section Printing.
Import Text.

Lemma append_nil (s : string) : "" ++ s = s.
Proof. reflexivity. Qed.

Lemma append_cons (c : ascii) (s t : string) :
  String c s ++ t = String c (s ++ t).
Proof. reflexivity. Qed.

Lemma append_assoc (a b c : string) : (a ++ b) ++ c = a ++ b ++ c.
Proof.
  induction a as [|x a IH]; [reflexivity|].
  rewrite !append_cons. now rewrite IH.
Qed.

Lemma length_append (s1 s2 : string) :
  String.length (s1 ++ s2) = String.length s1 + String.length s2.
Proof.
  induction s1 as [|c s1 IH]; [reflexivity|].
  rewrite append_cons. simpl. now rewrite IH.
Qed.

Lemma append_cancel_r (s1 s2 t : string) : s1 ++ t = s2 ++ t -> s1 = s2.
Proof.
  revert s2. induction s1 as [|c s1 IH]; intros [|c2 s2] Heq.
  - reflexivity.
  - apply (f_equal String.length) in Heq.
    rewrite append_nil, length_append in Heq. simpl in Heq. lia.
  - apply (f_equal String.length) in Heq.
    rewrite append_nil, length_append in Heq. simpl in Heq. lia.
  - rewrite !append_cons in Heq. injection Heq as -> Heq.
    f_equal. now apply IH.
Qed.

Lemma digitsOf_append (a b : string) :
  digitsOf (a ++ b) = digitsOf a ++ digitsOf b.
Proof.
  induction a as [|c a IH]; [reflexivity|].
  rewrite append_cons. cbn [digitsOf].
  destruct (isDigit c); [rewrite append_cons|]; now rewrite IH.
Qed.

Lemma hasChar_append (c : ascii) (a b : string) :
  hasChar c (a ++ b) = (hasChar c a || hasChar c b)%bool.
Proof.
  induction a as [|x a IH]; [reflexivity|].
  rewrite append_cons. cbn [hasChar]. rewrite IH. now rewrite orb_assoc.
Qed.

Lemma substring_split (s : string) (a b : nat) :
  a + b = String.length s ->
  String.substring 0 a s ++ String.substring a b s = s.
Proof.
  revert a b. induction s as [|c s IH]; intros a b Hlen.
  - simpl in Hlen. assert (a = 0) by lia. assert (b = 0) by lia. now subst.
  - destruct a as [|a].
    + simpl in Hlen. subst b. cbn [String.substring]. rewrite append_nil.
      f_equal. clear IH. induction s as [|x s IH]; [reflexivity|].
      simpl. now rewrite IH.
    + cbn [String.substring]. rewrite append_cons. f_equal.
      apply IH. simpl in Hlen. lia.
Qed.

Lemma hasChar_substring (c : ascii) (s : string) (n m : nat) :
  hasChar c s = false -> hasChar c (String.substring n m s) = false.
Proof.
  revert n m. induction s as [|x s IH]; intros n m Hs.
  - now destruct n, m.
  - cbn [hasChar] in Hs. apply orb_false_iff in Hs as [Hx Hs].
    destruct n as [|n]; destruct m as [|m]; cbn [String.substring hasChar];
      rewrite ?Hx; try reflexivity; now apply IH.
Qed.

Lemma isDigit_eqb (c d : ascii) :
  isDigit c = false -> isDigit d = true -> Ascii.eqb d c = false.
Proof.
  intros Hc Hd. destruct (Ascii.eqb_spec d c) as [->|]; congruence.
Qed.

Lemma digitsOf_numeral (d : Decimal.uint) :
  digitsOf (NilEmpty.string_of_uint d) = NilEmpty.string_of_uint d.
Proof. induction d; simpl; congruence. Qed.

Lemma hasChar_numeral (c : ascii) (d : Decimal.uint) :
  isDigit c = false -> hasChar c (NilEmpty.string_of_uint d) = false.
Proof.
  intros Hc. induction d; cbn [NilEmpty.string_of_uint hasChar];
    rewrite ?IHd, ?(isDigit_eqb c _ Hc) by reflexivity; reflexivity.
Qed.

Lemma digitsOf_zeros (n : nat) : digitsOf (zeros n) = zeros n.
Proof. induction n as [|n IH]; simpl; congruence. Qed.

Lemma hasChar_zeros (c : ascii) (n : nat) :
  isDigit c = false -> hasChar c (zeros n) = false.
Proof.
  intros Hc. induction n as [|n IH]; [reflexivity|].
  cbn [zeros hasChar]. rewrite IH, (isDigit_eqb c "0" Hc) by reflexivity.
  reflexivity.
Qed.

Lemma length_zeros (n : nat) : String.length (zeros n) = n.
Proof. induction n as [|n IH]; simpl; congruence. Qed.

Lemma numeral_of_N (n : N) :
  NilZero.string_of_uint (N.to_uint n) = NilEmpty.string_of_uint (N.to_uint n).
Proof.
  destruct n as [|p]; [reflexivity|].
  cbn [N.to_uint]. pose proof (DecimalPos.Unsigned.to_uint_nonnil p) as Hp.
  now destruct (Pos.to_uint p).
Qed.

Lemma uint_of_zeros (j : nat) (d : Decimal.uint) :
  exists d',
    NilEmpty.uint_of_string (zeros j ++ NilEmpty.string_of_uint d) = Some d'
    /\ N.of_uint d' = N.of_uint d.
Proof.
  induction j as [|j (d' & Hd' & Hn)].
  - exists d. split; [apply NilEmpty.usu|reflexivity].
  - exists (Decimal.D0 d'). split; [|exact Hn].
    cbn [zeros]. rewrite append_cons. cbn [NilEmpty.uint_of_string].
    now rewrite Hd'.
Qed.

(** The text the digits are cut from: the integer, with zeros in front
    where it has no more digits than there are decimals. *)
Lemma toFixed_digits_cut (f : nat) (x : Q) :
  let n := Z.to_N (Qfloor (x * inject_Z (10 ^ Z.of_nat f) + (1 # 2))) in
  exists j k,
    let m := zeros j ++ NilEmpty.string_of_uint (N.to_uint n) in
    f <= String.length m
    /\ k + f = String.length m
    /\ toFixed_digits f x
       = match f with
         | O => m
         | _ => String.substring 0 k m ++ "." ++ String.substring k f m
         end.
Proof.
  intros n. unfold toFixed_digits. fold n. cbv zeta.
  rewrite numeral_of_N.
  set (m0 := NilEmpty.string_of_uint (N.to_uint n)).
  destruct (Nat.leb (String.length m0) f) eqn:E.
  - apply Nat.leb_le in E.
    exists (f + 1 - String.length m0),
           (String.length (zeros (f + 1 - String.length m0) ++ m0) - f).
    cbv zeta. rewrite length_append, length_zeros.
    split; [lia|]. split; [lia|]. reflexivity.
  - apply Nat.leb_gt in E.
    exists 0, (String.length m0 - f). cbv zeta. cbn [zeros].
    rewrite append_nil. split; [lia|]. split; [lia|]. reflexivity.
Qed.

(** The digits [toFixed] prints denote the number rounded. *)
Lemma numeral_toFixed_digits (f : nat) (x : Q) :
  numeral (toFixed_digits f x)
  = Some (Z.to_N (Qfloor (x * inject_Z (10 ^ Z.of_nat f) + (1 # 2)))).
Proof.
  destruct (toFixed_digits_cut f x) as (j & k & Hf & Hk & ->).
  set (n := Z.to_N (Qfloor (x * inject_Z (10 ^ Z.of_nat f) + (1 # 2)))) in *.
  set (m := zeros j ++ NilEmpty.string_of_uint (N.to_uint n)) in *.
  assert (Hm : digitsOf m = m).
  { unfold m. now rewrite digitsOf_append, digitsOf_zeros, digitsOf_numeral. }
  assert (Hd : digitsOf
                 match f with
                 | O => m
                 | _ => String.substring 0 k m ++ "." ++ String.substring k f m
                 end = m).
  { destruct f as [|f]; [exact Hm|].
    rewrite !digitsOf_append. cbn [digitsOf isDigit]. simpl (_ && _)%bool.
    cbv iota. rewrite append_nil, <- digitsOf_append.
    rewrite substring_split by exact Hk. exact Hm. }
  unfold numeral. rewrite Hd. unfold m.
  destruct (uint_of_zeros j (N.to_uint n)) as (d' & -> & Hn).
  cbn [option_map]. now rewrite Hn, DecimalN.Unsigned.of_to.
Qed.

(** Other characters than digits and the point are never printed there. *)
Lemma hasChar_toFixed_digits (c : ascii) (f : nat) (x : Q) :
  isDigit c = false -> c <> "."%char -> hasChar c (toFixed_digits f x) = false.
Proof.
  intros Hc Hdot.
  destruct (toFixed_digits_cut f x) as (j & k & _ & _ & ->).
  set (m := zeros j ++ _).
  assert (Hm : hasChar c m = false).
  { unfold m. rewrite hasChar_append, hasChar_zeros, hasChar_numeral
      by exact Hc. reflexivity. }
  destruct f as [|f]; [exact Hm|].
  rewrite !hasChar_append, !hasChar_substring by exact Hm.
  cbn [hasChar]. destruct (Ascii.eqb_spec "." c) as [E|_]; [|reflexivity].
  now subst.
Qed.

Lemma Qlt_bool_0_opp (x : Q) :
  Qlt_bool x 0 = true -> (Qabs x == - x)%Q.
Proof.
  intros H. apply Qlt_bool_iff in H. apply Qabs_neg. Lqa.lra.
Qed.

Lemma Qlt_bool_0_pos (x : Q) :
  Qlt_bool x 0 = false -> (Qabs x == x)%Q.
Proof.
  intros H. apply Qlt_bool_false_iff in H. now apply Qabs_pos.
Qed.

Lemma roundedAbs_nonneg (f : nat) (x : Q) : (0 <= DedupeSpec.roundedAbs f x)%Z.
Proof.
  unfold DedupeSpec.roundedAbs. change 0%Z with (Qfloor 0).
  apply Qfloor_resp_le.
  assert (H10 : (0 <= inject_Z (10 ^ Z.of_nat f))%Q).
  { change 0%Q with (inject_Z 0). rewrite <- Zle_Qle.
    apply Z.pow_nonneg. lia. }
  pose proof (Qabs_nonneg x) as Hx.
  pose proof (Qmult_le_0_compat _ _ Hx H10). Lqa.lra.
Qed.

(** What [toFixed] prints, a sign and the digits of the absolute value
    rounded. *)
Lemma toFixed_sign_digits (x : Q) (f : nat) :
  toFixed x f
  = (if Qlt_bool x 0 then "-" else "") ++ toFixed_digits f (Qabs x)
  /\ numeral (toFixed_digits f (Qabs x))
     = Some (Z.to_N (DedupeSpec.roundedAbs f x)).
Proof.
  assert (Hcomp : forall a b : Q, (a == b)%Q ->
                    toFixed_digits f a = toFixed_digits f b).
  { intros a b Hab. unfold toFixed_digits.
    assert (Hn : Qfloor (a * inject_Z (10 ^ Z.of_nat f) + (1 # 2))
                 = Qfloor (b * inject_Z (10 ^ Z.of_nat f) + (1 # 2))).
    { apply Qfloor_comp. now rewrite Hab. }
    now rewrite Hn. }
  split.
  - unfold toFixed. destruct (Qlt_bool x 0) eqn:E.
    + f_equal. apply Hcomp. symmetry. now apply Qlt_bool_0_opp.
    + rewrite append_nil. apply Hcomp. symmetry. now apply Qlt_bool_0_pos.
  - apply numeral_toFixed_digits.
Qed.

(** Two numbers are printed alike exactly when they agree in sign and in
    the rounded absolute value. *)
Lemma toFixed_eq_iff (x y : Q) (f : nat) :
  toFixed x f = toFixed y f <-> DedupeSpec.sameFixed f x y = true.
Proof.
  destruct (toFixed_sign_digits x f) as [Hx Hnx].
  destruct (toFixed_sign_digits y f) as [Hy Hny].
  unfold DedupeSpec.sameFixed. rewrite andb_true_iff, Z.eqb_eq.
  assert (Hminus : forall z s, "-" ++ s <> toFixed_digits f z).
  { intros z s Heq.
    assert (Hh : hasChar "-" (toFixed_digits f z) = false)
      by (apply hasChar_toFixed_digits; [reflexivity|discriminate]).
    rewrite <- Heq in Hh. rewrite append_cons in Hh. discriminate. }
  split.
  - intros Heq. rewrite Hx, Hy in Heq.
    destruct (Qlt_bool x 0), (Qlt_bool y 0); rewrite ?append_nil in Heq.
    + rewrite !append_cons, !append_nil in Heq. injection Heq as Heq.
      split; [reflexivity|].
      rewrite Heq, Hny in Hnx. injection Hnx as Hn.
      apply Z2N.inj in Hn; [congruence| |]; apply roundedAbs_nonneg.
    + exfalso. exact (Hminus _ _ Heq).
    + exfalso. symmetry in Heq. exact (Hminus _ _ Heq).
    + split; [reflexivity|].
      rewrite Heq, Hny in Hnx. injection Hnx as Hn.
      apply Z2N.inj in Hn; [congruence| |]; apply roundedAbs_nonneg.
  - intros [Hs Hn]. apply eqb_prop in Hs. rewrite Hx, Hy, Hs. f_equal.
    unfold toFixed_digits. unfold DedupeSpec.roundedAbs in Hn.
    now rewrite Hn.
Qed.

(** A text that ends in ["_"] and a part without ["_"] is cut in one way
    only. *)
Lemma append_underscore_inj (u1 u2 b1 b2 : string) :
  hasChar "_" b1 = false -> hasChar "_" b2 = false ->
  u1 ++ "_" ++ b1 = u2 ++ "_" ++ b2 -> u1 = u2 /\ b1 = b2.
Proof.
  intros H1 H2. revert u2.
  induction u1 as [|c u1 IH]; intros [|c2 u2] Heq.
  - rewrite !append_nil, !append_cons, !append_nil in Heq.
    injection Heq as Heq. now split.
  - rewrite !append_nil, !append_cons, !append_nil in Heq.
    injection Heq as _ Heq. rewrite Heq, hasChar_append in H1.
    cbn [hasChar] in H1. rewrite Ascii.eqb_refl, orb_true_r in H1.
    discriminate.
  - rewrite !append_nil, !append_cons, !append_nil in Heq.
    injection Heq as _ Heq. rewrite <- Heq, hasChar_append in H2.
    cbn [hasChar] in H2. rewrite Ascii.eqb_refl, orb_true_r in H2.
    discriminate.
  - rewrite !append_cons in Heq. injection Heq as -> Heq.
    destruct (IH u2 Heq) as [-> ->]. now split.
Qed.

Lemma hasChar_toFixed (x : Q) (f : nat) : hasChar "_" (toFixed x f) = false.
Proof.
  unfold toFixed. destruct (Qlt_bool x 0).
  - rewrite append_cons, append_nil. cbn [hasChar].
    rewrite hasChar_toFixed_digits; [reflexivity|reflexivity|discriminate].
  - apply hasChar_toFixed_digits; [reflexivity|discriminate].
Qed.

End Printing.

(* ===================================================================== *)
(** * De-duplication *)
(* ===================================================================== *)


Section Dedupe.
Import Part000 DedupeSpec.
Context {A : Type} `{Positioned A}.


Lemma fingerprint_located (x : A) :
  located x -> fingerprint x = Ok (keyOf x).
Proof.
  unfold located, fingerprint, keyOf.
  destruct (latitude_of x), (longitude_of x); intros [? ?];
    try congruence; reflexivity.
Qed.

Lemma fingerprint_not_located (x : A) :
  ~ located x -> exists e, fingerprint x = Throw e.
Proof.
  unfold located, fingerprint.
  destruct (latitude_of x), (longitude_of x); intros Hn;
    try (exists TypeError; reflexivity).
  exfalso. apply Hn. split; discriminate.
Qed.


Lemma existsb_eqb_In (k : string) (l : list string) :
  List.existsb (String.eqb k) l = true <-> In k l.
Proof.
  rewrite List.existsb_exists. split.
  - intros (y & Hy & E). apply String.eqb_eq in E. now subst.
  - intros Hk. exists k. split; [exact Hk|apply String.eqb_refl].
Qed.

Lemma loop_keepNew (suf pre unique : list A) (seen : gset string) :
  Forall located suf ->
  (forall k, k ∈ seen <-> In k (map keyOf pre)) ->
  removeDuplicateFlights_loop suf unique seen
  = Ok (unique ++ keepNew pre suf)%list.
Proof.
  revert pre unique seen.
  induction suf as [|x r IH]; intros pre unique seen Hloc Hseen.
  - simpl. now rewrite app_nil_r.
  - inversion Hloc as [|? ? Hx Hr]; subst.
    cbn [removeDuplicateFlights_loop keepNew].
    rewrite (fingerprint_located x Hx). cbn [mbind Exc_bind JS.bind].
    assert (Hnext : forall seen' : gset string,
               (forall k, k ∈ seen' <-> k = keyOf x \/ k ∈ seen) ->
               forall k, k ∈ seen' <-> In k (map keyOf (pre ++ [x]))).
    { intros seen' Hs k. rewrite Hs, Hseen, map_app, in_app_iff. simpl.
      intuition congruence. }
    destruct (decide (keyOf x ∈ seen)) as [Hin|Hnin].
    + assert (E : List.existsb (String.eqb (keyOf x)) (map keyOf pre) = true)
        by now apply existsb_eqb_In, Hseen.
      rewrite E. apply IH; [exact Hr|].
      apply Hnext. intros k. split; [tauto|]. intros [->|Hk]; assumption.
    + assert (E : List.existsb (String.eqb (keyOf x)) (map keyOf pre) = false).
      { destruct (List.existsb _ _) eqn:E; [|reflexivity].
        exfalso. now apply Hnin, Hseen, existsb_eqb_In. }
      rewrite E, (IH (pre ++ [x])%list (unique ++ [x])%list _ Hr).
      * now rewrite <- app_assoc.
      * apply Hnext. intros k.
        now rewrite elem_of_union, elem_of_singleton.
Qed.

Lemma isFirst_existsb (pre suf : list A) (x : A) :
  isFirst keyOf (pre ++ suf) (List.length pre) x
  = negb (List.existsb (String.eqb (keyOf x)) (map keyOf pre)).
Proof.
  unfold isFirst. rewrite firstn_app, firstn_all, Nat.sub_diag.
  simpl. rewrite app_nil_r.
  induction pre as [|y pre IH]; simpl; [reflexivity|].
  rewrite IH, negb_orb, (String.eqb_sym (keyOf y) (keyOf x)). reflexivity.
Qed.

Lemma keepNew_positional (pre suf : list A) :
  map snd
    (List.filter (fun p => isFirst keyOf (pre ++ suf) (fst p) (snd p))
       (combine (seq (List.length pre) (List.length suf)) suf))
  = keepNew pre suf.
Proof.
  revert pre. induction suf as [|x r IH]; intros pre; [reflexivity|].
  cbn [List.length seq combine List.filter fst snd keepNew].
  rewrite isFirst_existsb.
  specialize (IH (pre ++ [x])%list).
  rewrite <- app_assoc, length_app in IH. simpl in IH.
  rewrite Nat.add_1_r in IH.
  destruct (List.existsb _ _); simpl; now rewrite IH.
Qed.

Lemma firstOccurrences_keepNew (xs : list A) :
  firstOccurrences keyOf xs = keepNew [] xs.
Proof. exact (keepNew_positional [] xs). Qed.

Lemma removeDuplicateFlights_located (xs : list A) :
  Forall located xs ->
  removeDuplicateFlights xs = Ok (firstOccurrences keyOf xs).
Proof.
  intros Hloc. unfold removeDuplicateFlights.
  rewrite (loop_keepNew xs [] [] ∅ Hloc).
  - now rewrite firstOccurrences_keepNew.
  - intros k. simpl. split; [|tauto].
    intros Hk. now apply not_elem_of_empty in Hk.
Qed.

Lemma loop_throws (suf unique : list A) (seen : gset string) :
  ~ Forall located suf ->
  exists e, removeDuplicateFlights_loop suf unique seen = Throw e.
Proof.
  revert unique seen. induction suf as [|x r IH]; intros unique seen Hn.
  - exfalso. apply Hn. constructor.
  - cbn [removeDuplicateFlights_loop].
    destruct (latitude_of x) as [la|] eqn:Hla;
      [destruct (longitude_of x) as [lo|] eqn:Hlo|].
    + assert (Hx : located x) by (unfold located; rewrite Hla, Hlo; split; discriminate).
      rewrite (fingerprint_located x Hx). cbn [mbind Exc_bind JS.bind].
      assert (Hr : ~ Forall located r).
      { intros Hr. apply Hn. now constructor. }
      destruct (decide (keyOf x ∈ seen)); now apply IH.
    + exists TypeError. unfold fingerprint. rewrite Hla, Hlo. reflexivity.
    + exists TypeError. unfold fingerprint. rewrite Hla. reflexivity.
Qed.

Lemma keepNew_incl (pre suf : list A) : incl (keepNew pre suf) suf.
Proof.
  revert pre. induction suf as [|x r IH]; intros pre; simpl.
  - apply incl_refl.
  - destruct (List.existsb _ _).
    + apply incl_tl, IH.
    + apply incl_cons; [now left|apply incl_tl, IH].
Qed.

(** A list without two equal keys is left as it is. *)
Lemma keepNew_NoDup (pre suf : list A) :
  List.NoDup (map keyOf (pre ++ suf)) -> keepNew pre suf = suf.
Proof.
  revert pre. induction suf as [|x r IH]; intros pre Hnd; [reflexivity|].
  simpl.
  assert (E : List.existsb (String.eqb (keyOf x)) (map keyOf pre) = false).
  { destruct (List.existsb _ _) eqn:E; [|reflexivity].
    apply existsb_eqb_In in E. exfalso.
    rewrite map_app in Hnd. simpl in Hnd.
    apply NoDup_remove_2 in Hnd. apply Hnd, in_or_app. now left. }
  rewrite E. f_equal. apply IH. now rewrite <- app_assoc.
Qed.

Lemma keepNew_keys_fresh (pre suf : list A) (x : A) :
  In x (keepNew pre suf) -> ~ In (keyOf x) (map keyOf pre).
Proof.
  revert pre. induction suf as [|y r IH]; intros pre; simpl; [tauto|].
  destruct (List.existsb _ _) eqn:E.
  - intros Hx Hk. apply (IH _ Hx). rewrite map_app. apply in_or_app. now left.
  - intros [<-|Hx] Hk.
    + apply existsb_eqb_In in Hk. congruence.
    + apply (IH _ Hx). rewrite map_app. apply in_or_app. now left.
Qed.

Lemma keepNew_keys_NoDup (pre suf : list A) :
  List.NoDup (map keyOf (keepNew pre suf)).
Proof.
  revert pre. induction suf as [|y r IH]; intros pre; simpl; [constructor|].
  destruct (List.existsb _ _) eqn:E; [apply IH|].
  simpl. constructor; [|apply IH].
  intros Hin. apply in_map_iff in Hin as (z & Hz & Hin).
  apply keepNew_keys_fresh in Hin. apply Hin.
  rewrite map_app. apply in_or_app. right. simpl. now left.
Qed.

(** The integer [toFixed] prints with three decimals is the one nearest
    to a thousand times the number, the larger one on a tie. *)
Lemma toFixed_nearest (x : Q) :
  let n := Qfloor (x * inject_Z (10 ^ Z.of_nat 3) + (1 # 2)) in
  (inject_Z n - (1 # 2) <= x * 1000 < inject_Z n + (1 # 2))%Q.
Proof.
  intros n. subst n. change (inject_Z (10 ^ Z.of_nat 3)) with 1000%Q.
  pose proof (Qfloor_le (x * 1000 + (1 # 2))) as Hle.
  pose proof (Qlt_floor (x * 1000 + (1 # 2))) as Hlt.
  rewrite inject_Z_plus in Hlt. change (inject_Z 1) with 1%Q in Hlt.
  split; Lqa.lra.
Qed.

Lemma located_dec (x : A) : {located x} + {~ located x}.
Proof.
  unfold located.
  destruct (latitude_of x), (longitude_of x);
    first [ left; split; discriminate | right; intros [? ?]; congruence ].
Qed.

Lemma removeDuplicateFlights_idempotent (xs : list A) :
  (ys ← removeDuplicateFlights xs; removeDuplicateFlights ys)
  = removeDuplicateFlights xs.
Proof.
  destruct (List.Forall_dec located located_dec xs) as [Hloc|Hloc].
  - rewrite (removeDuplicateFlights_located xs Hloc).
    cbn [mbind Exc_bind JS.bind].
    rewrite firstOccurrences_keepNew.
    assert (Hys : Forall located (keepNew [] xs)).
    { rewrite List.Forall_forall in *. intros x Hx.
      apply Hloc. now apply (keepNew_incl [] xs). }
    rewrite (removeDuplicateFlights_located _ Hys).
    rewrite firstOccurrences_keepNew.
    f_equal. apply keepNew_NoDup. simpl. apply keepNew_keys_NoDup.
  - destruct (loop_throws xs [] ∅ Hloc) as [e He].
    unfold removeDuplicateFlights. now rewrite He.
Qed.

(** The fingerprints of two flights are the same text exactly when the
    flights have the same callsign and coordinates that agree in sign and
    in the rounded absolute value. *)
Lemma keyOf_eq_iff (x y : A) :
  keyOf x = keyOf y <-> sameFingerprint x y = true.
Proof.
  unfold keyOf, sameFingerprint. rewrite !andb_true_iff, String.eqb_eq.
  rewrite <- !toFixed_eq_iff.
  set (la1 := toFixed (ToNumber (latitude_of x)) 3).
  set (la2 := toFixed (ToNumber (latitude_of y)) 3).
  set (lo1 := toFixed (ToNumber (longitude_of x)) 3).
  set (lo2 := toFixed (ToNumber (longitude_of y)) 3).
  split.
  - intros Heq.
    rewrite <- (append_assoc (callsign_of x) ("_" ++ la1) ("_" ++ lo1)) in Heq.
    rewrite <- (append_assoc (callsign_of y) ("_" ++ la2) ("_" ++ lo2)) in Heq.
    apply append_underscore_inj in Heq as [Heq Hlo];
      try apply hasChar_toFixed.
    apply append_underscore_inj in Heq as [Hc Hla];
      try apply hasChar_toFixed.
    repeat split; assumption.
  - intros [[-> ->] ->]. reflexivity.
Qed.

Lemma keepNew_firstBy (pre suf : list A) :
  keepNew pre suf = firstBy sameFingerprint pre suf.
Proof.
  revert pre. induction suf as [|x suf IH]; intros pre; [reflexivity|].
  cbn [keepNew firstBy]. rewrite !IH.
  assert (Hex : List.existsb (String.eqb (keyOf x)) (map keyOf pre)
                = List.existsb (fun y => sameFingerprint y x) pre).
  { clear. induction pre as [|y pre IH]; [reflexivity|].
    cbn [map List.existsb]. rewrite IH. f_equal.
    destruct (sameFingerprint y x) eqn:E.
    - apply keyOf_eq_iff in E. rewrite E. apply String.eqb_refl.
    - apply String.eqb_neq. intros Hk. symmetry in Hk.
      apply keyOf_eq_iff in Hk. congruence. }
  now rewrite Hex.
Qed.

Lemma removeDuplicateFlights_firstBy (xs : list A) :
  Forall located xs ->
  removeDuplicateFlights xs = Ok (firstBy sameFingerprint [] xs).
Proof.
  intros Hall. rewrite (removeDuplicateFlights_located xs Hall).
  now rewrite firstOccurrences_keepNew, keepNew_firstBy.
Qed.

Lemma removeDuplicateFlights_TypeError (xs : list A) :
  ~ Forall located xs -> removeDuplicateFlights xs = Throw TypeError.
Proof.
  intros Hn. unfold removeDuplicateFlights.
  generalize (@nil A) (∅ : gset string).
  induction xs as [|x xs IH]; intros unique seen.
  - exfalso. apply Hn. constructor.
  - cbn [removeDuplicateFlights_loop].
    destruct (located_dec x) as [Hx|Hx].
    + rewrite (fingerprint_located x Hx). cbn [mbind Exc_bind JS.bind].
      assert (Hxs : ~ Forall located xs)
        by (intros Hs; apply Hn; now constructor).
      destruct (decide (keyOf x ∈ seen)); now apply IH.
    + unfold located in Hx. unfold fingerprint.
      destruct (latitude_of x) as [lat|]; [|reflexivity].
      destruct (longitude_of x) as [lon|]; [|reflexivity].
      exfalso. apply Hx. split; discriminate.
Qed.

End Dedupe.

(** C5 as the code has it.  The de-duplication throws a [TypeError] when a
    position lacks a latitude or a longitude.  Otherwise it keeps, in
    input order, the positions that no earlier position is the same as,
    two positions being the same when they have the same callsign and
    latitudes, and longitudes, that are both negative or both not and
    whose absolute values round to the same third decimal.  Running it on
    its own result changes nothing, and of two positions with callsign
    LH123 at (50.038, 8.562) and (50.0381, 8.5621) only the first
    survives. *)
Theorem C5_dedupe_first_wins_idempotent :
  (forall (A : Type) (P : Part000.Positioned A) (xs : list A),
      (~ Forall located xs ->
       Part000.removeDuplicateFlights xs = Throw TypeError)
      /\ (Forall located xs ->
          Part000.removeDuplicateFlights xs
          = Ok (DedupeSpec.firstBy sameFingerprint [] xs))
      /\ (ys ← Part000.removeDuplicateFlights xs;
          Part000.removeDuplicateFlights ys)
         = Part000.removeDuplicateFlights xs)
  /\ (forall f1 f2 : Flight,
         callsign f1 = "LH123" -> callsign f2 = "LH123" ->
         latitude f1 = Some (50038 # 1000) ->
         longitude f1 = Some (8562 # 1000) ->
         latitude f2 = Some (500381 # 10000) ->
         longitude f2 = Some (85621 # 10000) ->
         Part000.removeDuplicateFlights [f1; f2] = Ok [f1]).
Proof.
  split.
  - intros A P xs. split; [|split].
    + apply removeDuplicateFlights_TypeError.
    + apply removeDuplicateFlights_firstBy.
    + apply removeDuplicateFlights_idempotent.
  - intros f1 f2 Hc1 Hc2 Hla1 Hlo1 Hla2 Hlo2.
    assert (H1 : located f1)
      by (unfold located; simpl; rewrite Hla1, Hlo1; split; discriminate).
    assert (H2 : located f2)
      by (unfold located; simpl; rewrite Hla2, Hlo2; split; discriminate).
    rewrite removeDuplicateFlights_firstBy
      by (constructor; [exact H1|constructor; [exact H2|constructor]]).
    cbn [DedupeSpec.firstBy List.existsb app]. unfold sameFingerprint.
    simpl. rewrite Hc1, Hc2, Hla1, Hlo1, Hla2, Hlo2.
    vm_compute. reflexivity.
Qed.

(** C5, counterexample.  Two positions with one callsign and one
    longitude whose latitudes, -0.0001 and 0.0001, are the same number
    after rounding to three decimals: both are kept, the one being
    printed as -0.000 and the other as 0.000. *)
Lemma C5_rounded_alike_but_both_kept :
  let f1 := flight_at "LH123" (- (1 # 10000)) (8562 # 1000) in
  let f2 := flight_at "LH123" (1 # 10000) (8562 # 1000) in
  (DedupeSpec.rounded 3 (- (1 # 10000)) == DedupeSpec.rounded 3 (1 # 10000))%Q
  /\ callsign f1 = callsign f2
  /\ longitude f1 = longitude f2
  /\ toFixed (- (1 # 10000)) 3 = "-0.000"
  /\ toFixed (1 # 10000) 3 = "0.000"
  /\ Part000.removeDuplicateFlights [f1; f2] = Ok [f1; f2].
Proof.
  intros f1 f2. split; [reflexivity|]. split; [reflexivity|].
  split; [reflexivity|]. split; [reflexivity|]. split; [reflexivity|].
  rewrite removeDuplicateFlights_firstBy
    by (repeat constructor; discriminate).
  vm_compute. reflexivity.
Qed.

(* ===================================================================== *)
(** * Normalizer *)
(* ===================================================================== *)


Section Normalizer.
Import NormalizerSpec.

Lemma truthy_number_false (x : option Q) :
  truthy_number x = false -> (or_zero x == 0)%Q.
Proof.
  destruct x as [q|]; simpl; [|reflexivity].
  rewrite negb_false_iff. apply Qeq_bool_eq.
Qed.

Lemma scaled_or_zero (x : option Q) (k : Q) :
  ((if truthy_number x then ToNumber x * k else 0) == or_zero x * k)%Q.
Proof.
  destruct (truthy_number x) eqn:E; [reflexivity|].
  rewrite (truthy_number_false x E). ring.
Qed.

Lemma scaled_nonneg (x k : Q) : (0 < k)%Q -> (0 <= x * k <-> 0 <= x)%Q.
Proof.
  intros Hk. split; intros Hx.
  - destruct (Qlt_le_dec x 0) as [Hneg|Hpos]; [|exact Hpos].
    exfalso. apply (Qlt_not_le (x * k) 0); [|exact Hx].
    assert (Hlt : (x * k < 0 * k)%Q) by now apply Qmult_lt_compat_r.
    now rewrite Qmult_0_l in Hlt.
  - now apply Qmult_le_0_compat; [|apply Qlt_le_weak].
Qed.

(** C6, counterexample.  The altitude of a normalized position can be
    negative: the invariant of the data model fails on the record of an
    aircraft standing below sea level. *)
Lemma C6_negative_altitude_survives :
  (altitude (normalize 0%Z belowSeaLevel) < 0)%Q
  /\ ~ positionInvariant (normalize 0%Z belowSeaLevel).
Proof.
  assert (Hneg : (altitude (normalize 0%Z belowSeaLevel) < 0)%Q)
    by (vm_compute; reflexivity).
  split; [exact Hneg|].
  intros (Halt & _). exact (Qlt_not_le _ _ Hneg Halt).
Qed.

(** C6, as the code has it.  The Normalizer maps every raw record to a
    position: the altitude is the raw altitude times 3.28084 and the
    velocity the raw velocity times 1.94384, a missing altitude,
    velocity, heading or vertical rate counting as 0, a missing
    on-ground flag as false and a missing or empty callsign as
    "UNKNOWN"; altitude and velocity are non-negative exactly when the
    raw values are; a longitude and a latitude that are present are
    copied unchanged. *)
Theorem C6_normalizer_total_defaults (now : Instant) (state : State) :
  let f := normalize now state in
  (altitude f == or_zero (state_7 state) * (328084 # 100000))%Q
  /\ (velocity f == or_zero (state_9 state) * (194384 # 100000))%Q
  /\ heading f = or_zero (state_10 state)
  /\ vertical_rate f = or_zero (state_11 state)
  /\ on_ground f = default false (state_8 state)
  /\ callsign f = (if truthy_string (state_1 state)
                   then trim (default "" (state_1 state)) else "UNKNOWN")
  /\ (state_7 state = None -> altitude f = 0%Q)
  /\ (state_9 state = None -> velocity f = 0%Q)
  /\ (state_10 state = None -> heading f = 0%Q)
  /\ (state_11 state = None -> vertical_rate f = 0%Q)
  /\ (state_8 state = None -> on_ground f = false)
  /\ (state_1 state = None -> callsign f = "UNKNOWN")
  /\ ((0 <= altitude f)%Q <-> (0 <= or_zero (state_7 state))%Q)
  /\ ((0 <= velocity f)%Q <-> (0 <= or_zero (state_9 state))%Q)
  /\ (forall lon, state_5 state = Some lon -> longitude f = Some lon)
  /\ (forall lat, state_6 state = Some lat -> latitude f = Some lat).
Proof.
  intros f. subst f. unfold normalize. cbn [altitude velocity heading
    vertical_rate on_ground callsign longitude latitude].
  repeat match goal with |- _ /\ _ => split end.
  - apply scaled_or_zero.
  - apply scaled_or_zero.
  - reflexivity.
  - reflexivity.
  - now destruct (state_8 state).
  - now destruct (state_1 state).
  - now intros ->.
  - now intros ->.
  - now intros ->.
  - now intros ->.
  - now intros ->.
  - now intros ->.
  - rewrite scaled_or_zero. now apply scaled_nonneg.
  - rewrite scaled_or_zero. now apply scaled_nonneg.
  - now intros lon ->.
  - now intros lat ->.
Qed.

End Normalizer.

(* ===================================================================== *)
(** * Zone filter *)
(* ===================================================================== *)


Section ZoneFilter.
Import ZoneSpec.
Variable calculateDistance : Q -> Q -> Q -> Q -> Q.
Variable clock : nat -> Instant.

Lemma insert_Permutation {A : Type} (cmp : A -> A -> Q) (x : A) (l : list A) :
  Permutation (JS.insert cmp x l) (x :: l).
Proof.
  induction l as [|y l IH]; simpl; [reflexivity|].
  destruct (Qlt_bool 0 (cmp x y)); [|reflexivity].
  rewrite IH. apply perm_swap.
Qed.

Lemma sort_Permutation {A : Type} (cmp : A -> A -> Q) (l : list A) :
  Permutation (JS.sort cmp l) l.
Proof.
  induction l as [|x l IH]; simpl; [reflexivity|].
  rewrite insert_Permutation. now apply perm_skip.
Qed.

Lemma Forall_Permutation {A : Type} (P : A -> Prop) (l l' : list A) :
  Permutation l l' -> Forall P l -> Forall P l'.
Proof.
  intros Hp Hl. rewrite List.Forall_forall in *. intros x Hx.
  apply Hl. apply (Permutation_in x (Permutation_sym Hp) Hx).
Qed.

Lemma before_distance_le (a b : LiveFlight) :
  before a b -> (distance a <= distance b)%Q.
Proof.
  intros [Hlt|[Heq _]]; [now apply Qlt_le_weak|].
  rewrite Heq. apply Qle_refl.
Qed.

Lemma insert_sorted (x : LiveFlight) (l : list LiveFlight) :
  StronglySorted before l ->
  Forall (fun y => index x < index y) l ->
  StronglySorted before (JS.insert byDistance x l).
Proof.
  induction l as [|y l IH]; intros Hs Hidx; simpl.
  - repeat constructor.
  - inversion Hs as [|? ? Hs' Hy]; subst.
    inversion Hidx as [|? ? Hxy Hidx']; subst.
    destruct (Qlt_bool 0 (byDistance x y)) eqn:E.
    + apply Qlt_bool_iff in E. unfold byDistance in E.
      assert (Hyx : (distance y < distance x)%Q) by Lqa.lra.
      constructor; [now apply IH|].
      apply (Forall_Permutation _ (x :: l)).
      * symmetry. apply insert_Permutation.
      * constructor; [now left|exact Hy].
    + apply Qlt_bool_false_iff in E. unfold byDistance in E.
      assert (Hxy' : (distance x <= distance y)%Q) by Lqa.lra.
      constructor; [exact Hs|].
      assert (Hle : Forall (fun z => (distance x <= distance z)%Q) (y :: l)).
      { constructor; [exact Hxy'|].
        rewrite List.Forall_forall in *. intros z Hz.
        eapply Qle_trans; [exact Hxy'|].
        apply before_distance_le. now apply Hy. }
      rewrite List.Forall_forall in *. intros z Hz.
      destruct (Qle_lt_or_eq _ _ (Hle z Hz)) as [Hlt|Heq]; [now left|].
      right. split; [exact Heq|]. now apply Hidx.
Qed.

Lemma sort_sorted (l : list LiveFlight) :
  StronglySorted (fun a b => index a < index b) l ->
  StronglySorted before (JS.sort byDistance l).
Proof.
  induction l as [|x l IH]; intros Hs; simpl; [constructor|].
  inversion Hs as [|? ? Hs' Hx]; subst.
  apply insert_sorted; [now apply IH|].
  apply (Forall_Permutation _ l); [|exact Hx].
  symmetry. apply sort_Permutation.
Qed.

Lemma filter_sorted {A : Type} (R : A -> A -> Prop) (p : A -> bool)
    (l : list A) :
  StronglySorted R l -> StronglySorted R (List.filter p l).
Proof.
  induction 1 as [|x l Hs IH Hx]; simpl; [constructor|].
  destruct (p x); [|exact IH].
  constructor; [exact IH|].
  rewrite List.Forall_forall in *. intros y Hy.
  apply Hx. now apply List.filter_In in Hy as [Hy _].
Qed.

Lemma filter_Permutation {A : Type} (p : A -> bool) (l l' : list A) :
  Permutation l l' -> Permutation (List.filter p l) (List.filter p l').
Proof.
  induction 1 as [|x l l' _ IH|x y l|l l' l'' _ IH1 _ IH2]; simpl.
  - reflexivity.
  - destruct (p x); [now apply perm_skip|exact IH].
  - destruct (p x), (p y); try reflexivity. apply perm_swap.
  - now transitivity (List.filter p l').
Qed.

Lemma mapi_from_index (this : APIClient) (i : nat) (l : list Flight) :
  Forall (fun f => i <= index f)
    (mapi_from i (withDistance calculateDistance this) l)
  /\ StronglySorted (fun a b => index a < index b)
       (mapi_from i (withDistance calculateDistance this) l).
Proof.
  revert i. induction l as [|x l IH]; intros i; simpl.
  - split; constructor.
  - destruct (IH (S i)) as [Hge Hs]. split.
    + constructor; [simpl; lia|].
      rewrite List.Forall_forall in *. intros y Hy.
      specialize (Hge y Hy). lia.
    + constructor; [exact Hs|].
      rewrite List.Forall_forall in *. intros y Hy.
      specialize (Hge y Hy). simpl. lia.
Qed.

Lemma logClosest_ok (flights : list LiveFlight) :
  Forall hasCoordinates (firstn 5 flights) ->
  logClosest flights = Ok tt.
Proof.
  unfold logClosest. generalize (firstn 5 flights). intros l.
  induction 1 as [|f l [Hla Hlo] _ IH]; simpl; [reflexivity|].
  destruct (latitude f); [|congruence].
  destruct (longitude f); [|congruence].
  simpl. exact IH.
Qed.


Lemma processStates_located (this : APIClient) (radius : Q) (status : Z)
    (sts : list (option State)) :
  let sorted := JS.sort byDistance (flightsOf calculateDistance clock this sts) in
  Forall hasCoordinates (firstn 5 sorted) ->
  processStates calculateDistance clock this radius
    {| response_status := status;
       response_data := Some {| states := Some sts |} |}
  = Ok (List.filter (fun f => Qle_bool (distance f) radius) sorted).
Proof.
  intros sorted Hloc. unfold processStates. cbn [response_data states].
  destruct (filter_non_null sts) as [|s0 vs] eqn:Hvs.
  - simpl. subst sorted. unfold flightsOf. now rewrite Hvs.
  - cbn [List.length Nat.eqb].
    fold (flightsOf calculateDistance clock this sts) in *.
    assert (Hf : mapi (withDistance calculateDistance this)
                   (mapi (fun state i => normalize (clock i) state)
                      (s0 :: vs)) = flightsOf calculateDistance clock this sts)
      by (unfold flightsOf; now rewrite Hvs).
    rewrite Hf. fold sorted. rewrite (logClosest_ok sorted Hloc).
    reflexivity.
Qed.

(** What the zone filter of [unnamed/part_000] returns when the five
    closest flights have coordinates: the flights within the configured
    radius, each once, ascending by distance, ties in input order. *)
Lemma Part000_zone_filter (this : APIClient) (status : Z)
    (sts : list (option State)) (get : bool -> Exc (Response OpenSkyData)) :
  let flights := flightsOf calculateDistance clock this sts in
  get true = Ok {| response_status := status;
                   response_data := Some {| states := Some sts |} |} ->
  Forall hasCoordinates (firstn 5 (JS.sort byDistance flights)) ->
  let result := Part000.getOpenSkyFlights calculateDistance clock this get in
  Permutation result
    (List.filter (fun f => Qle_bool (distance f) (airportRadius this)) flights)
  /\ (forall f, In f result <->
                In f flights /\ (distance f <= airportRadius this)%Q)
  /\ StronglySorted before result.
Proof.
  intros flights Hget Hloc result. subst result.
  unfold Part000.getOpenSkyFlights. rewrite Hget.
  cbn [try_catch_exc mbind Exc_bind JS.bind].
  rewrite (processStates_located this (airportRadius this) status sts Hloc).
  cbn [try_catch]. fold flights.
  assert (Hperm : Permutation
            (List.filter (fun f => Qle_bool (distance f) (airportRadius this))
               (JS.sort byDistance flights))
            (List.filter (fun f => Qle_bool (distance f) (airportRadius this))
               flights))
    by apply filter_Permutation, sort_Permutation.
  split; [exact Hperm|]. split.
  - intros f. rewrite (Permutation_in' (eq_refl f) Hperm).
    rewrite List.filter_In. now rewrite Qle_bool_iff.
  - apply filter_sorted, sort_sorted.
    apply (mapi_from_index this 0).
Qed.

End ZoneFilter.

(** The example of the specification on [unnamed/part_000]: with the
    radius 200 and aircraft at 60, 250 and 10 km, the ones at 10 and 60 km
    are returned, in that order. *)
Example Part000_zone_filter_example :
  map (fun f : LiveFlight => (callsign f, distance f))
    (Part000.getOpenSkyFlights ZoneSpec.tableDistance (fun _ => 0%Z)
       (Part000_constructor None None (Some (200 # 1)))
       (fun _ => ZoneSpec.respond
                   [Some ZoneSpec.near60; None; Some ZoneSpec.far250;
                    Some ZoneSpec.near10]))
  = [("DLH10", 10%Q); ("DLH60", 60%Q)].
Proof. vm_compute. reflexivity. Qed.

Section ZoneFilterDefects.
Import ZoneSpec.
Variable calculateDistance : Q -> Q -> Q -> Q -> Q.
Variable clock : nat -> Instant.

Lemma hasCoordinates_dec (f : LiveFlight) :
  {hasCoordinates f} + {~ hasCoordinates f}.
Proof.
  unfold hasCoordinates.
  destruct (latitude f), (longitude f);
    first [ left; split; discriminate | right; intros [? ?]; congruence ].
Qed.

Lemma logClosest_throws (flights : list LiveFlight) :
  ~ Forall hasCoordinates (firstn 5 flights) ->
  logClosest flights = Throw TypeError.
Proof.
  unfold logClosest. generalize (firstn 5 flights). intros l.
  induction l as [|f l IH]; intros Hn.
  - exfalso. apply Hn. constructor.
  - simpl. destruct (latitude f) eqn:Hla; [|reflexivity].
    destruct (longitude f) eqn:Hlo; [|reflexivity].
    simpl. apply IH. intros Hl. apply Hn. constructor; [|exact Hl].
    unfold hasCoordinates. rewrite Hla, Hlo. split; discriminate.
Qed.

(** When one of the five closest flights has no latitude or longitude the
    logging loop throws and the whole feed is answered by the empty list,
    in both revisions. *)
Lemma zone_filter_empty_on_missing_coordinates (this : APIClient)
    (radius : Q) (status : Z) (sts : list (option State)) :
  ~ Forall hasCoordinates
      (firstn 5 (JS.sort byDistance (flightsOf calculateDistance clock this sts))) ->
  processStates calculateDistance clock this radius
    {| response_status := status;
       response_data := Some {| states := Some sts |} |}
  = Throw TypeError.
Proof.
  intros Hn. unfold processStates. cbn [response_data states].
  destruct (filter_non_null sts) as [|s0 vs] eqn:Hvs.
  - exfalso. apply Hn. unfold flightsOf. rewrite Hvs. constructor.
  - cbn [List.length Nat.eqb].
    assert (Hf : mapi (withDistance calculateDistance this)
                   (mapi (fun state i => normalize (clock i) state)
                      (s0 :: vs))
                 = flightsOf calculateDistance clock this sts)
      by (unfold flightsOf; now rewrite Hvs).
    rewrite Hf, (logClosest_throws _ Hn). reflexivity.
Qed.

(** C3 on [src/utils/apiclient.js].  The zone of that revision is the fixed
    radius 200, whatever radius the client is configured with: the result
    is the list of flights within 200 km, and a flight farther away than
    the configured radius but within 200 km is returned. *)
Theorem C3_apiclient_zone_is_200km (this : APIClient) (credentials : bool)
    (get : bool -> Exc (Response OpenSkyData)) (status : Z)
    (sts : list (option State)) :
  let flights := flightsOf calculateDistance clock this sts in
  get credentials = Ok {| response_status := status;
                          response_data := Some {| states := Some sts |} |} ->
  Forall hasCoordinates (firstn 5 (JS.sort byDistance flights)) ->
  let result :=
    Apiclient.getOpenSkyFlights calculateDistance clock this credentials get in
  result = List.filter (fun f => Qle_bool (distance f) 200)
             (JS.sort byDistance flights)
  /\ (forall f, In f flights ->
                (airportRadius this < distance f)%Q ->
                (distance f <= 200)%Q ->
                In f result).
Proof.
  intros flights Hget Hloc result. subst result.
  unfold Apiclient.getOpenSkyFlights. rewrite Hget.
  cbn [mbind Exc_bind JS.bind].
  rewrite (processStates_located calculateDistance clock this 200 status sts
             Hloc).
  cbn [try_catch]. fold flights. split; [reflexivity|].
  intros f Hf _ Hle. apply List.filter_In. split.
  - apply (Permutation_in f (Permutation_sym (sort_Permutation byDistance flights))).
    exact Hf.
  - now apply Qle_bool_iff.
Qed.

End ZoneFilterDefects.

(** With the default radius of 50 km an aircraft 60 km away is returned. *)
Lemma C3_apiclient_zone_is_200km_witness :
  let this := Apiclient_constructor None None None in
  let result :=
    Apiclient.getOpenSkyFlights ZoneSpec.tableDistance (fun _ => 0%Z) this
      false (fun _ => ZoneSpec.respond [Some ZoneSpec.near10;
                                        Some ZoneSpec.near60]) in
  airportRadius this = 50%Q
  /\ map (fun f : LiveFlight => (callsign f, distance f)) result
     = [("DLH10", 10%Q); ("DLH60", 60%Q)].
Proof.
  intros this result. split; [reflexivity|].
  pose proof (C3_apiclient_zone_is_200km ZoneSpec.tableDistance (fun _ => 0%Z)
                this false
                (fun _ => ZoneSpec.respond [Some ZoneSpec.near10;
                                            Some ZoneSpec.near60])
                200%Z [Some ZoneSpec.near10; Some ZoneSpec.near60]
                eq_refl) as Hthm.
  cbv zeta in Hthm.
  destruct Hthm as [Heq _].
  - vm_compute. repeat constructor; discriminate.
  - subst result. rewrite Heq. vm_compute. reflexivity.
Defined.

(* ===================================================================== *)
(** * Fetch failures *)
(* ===================================================================== *)


Section FetchFailures.
Import FetchSpec.
Variable calculateDistance : Q -> Q -> Q -> Q -> Q.
Variable clock : nat -> Instant.

Lemma processStates_noStates (this : APIClient) (radius : Q)
    (r : Response OpenSkyData) :
  noStates (response_data r) ->
  processStates calculateDistance clock this radius r = Ok [].
Proof.
  unfold processStates.
  intros [Hn|[(d & Hd & Hs)|(d & sts & Hd & Hs & Hv)]].
  - now rewrite Hn.
  - now rewrite Hd, Hs.
  - now rewrite Hd, Hs, Hv.
Qed.

Lemma generateSampleFlights_length (now : Instant) :
  List.length (generateSampleFlights now) = 3.
Proof. reflexivity. Qed.

Lemma getAviationStackFlights_failure (this : APIClient) (now : Instant)
    (get : Exc (Response AviationStackData)) :
  scheduleFailure get ->
  getAviationStackFlights this now get = generateSampleFlights now.
Proof.
  unfold getAviationStackFlights.
  destruct (negb (truthy_string (aviationStackKey this))); [reflexivity|].
  intros [[e ->]|(r & -> & Hr)]; [reflexivity|].
  cbn [mbind Exc_bind JS.bind].
  destruct Hr as [Hn|(d & Hd & Hr)]; [now rewrite Hn|].
  rewrite Hd.
  destruct Hr as [He|[Hn|[Hn|(l & e & Hl & Hm)]]].
  - destruct (error d); [reflexivity|congruence].
  - destruct (error d); [reflexivity|]. now rewrite Hn.
  - destruct (error d); [reflexivity|]. now rewrite Hn.
  - destruct (error d); [reflexivity|]. rewrite Hl.
    destruct (Nat.eqb (List.length l) 0); [reflexivity|].
    now rewrite Hm.
Qed.

(** No key is configured by the constructor, so the schedule fetch never
    sends a request: it returns the samples whatever the network does. *)
Lemma getAviationStackFlights_without_key (lat lon radius : option Q)
    (now : Instant) (get : Exc (Response AviationStackData)) :
  getAviationStackFlights (Part000_constructor lat lon radius) now get
  = generateSampleFlights now
  /\ getAviationStackFlights (Apiclient_constructor lat lon radius) now get
     = generateSampleFlights now.
Proof. split; reflexivity. Qed.

(** In [unnamed/part_000] a request rejected with credentials is tried
    once more without them, and the answer to the second one is used. *)
Lemma Part000_retry_without_credentials (this : APIClient)
    (get : bool -> Exc (Response OpenSkyData)) (e : Error)
    (r : Response OpenSkyData) :
  get true = Throw e -> get false = Ok r ->
  Part000.getOpenSkyFlights calculateDistance clock this get
  = try_catch
      (processStates calculateDistance clock this (airportRadius this) r)
      (fun _ => []).
Proof.
  intros H1 H2. unfold Part000.getOpenSkyFlights. now rewrite H1, H2.
Qed.

(** A payload whose only element lacks the nested [flight] object is
    answered with the samples. *)
Example malformed_schedule_payload :
  scheduleFailure
    (Ok {| response_status := 200;
           response_data :=
             Some {| error := None;
                     data := Some [ {| raw_flight := None;
                                       raw_airline := None;
                                       raw_departure := None;
                                       raw_arrival := None;
                                       flight_status := Some "active";
                                       raw_aircraft := None |} ] |} |}).
Proof.
  right. eexists. split; [reflexivity|]. right. eexists.
  split; [reflexivity|]. right. right. right.
  eexists. exists TypeError. split; reflexivity.
Qed.

(** C9, counterexample.  When the schedule request is rejected the schedule
    fetch does not return an empty collection: it returns the three sample
    schedules. *)
Lemma C9_schedule_fetch_returns_samples :
  getAviationStackFlights keyedClient 0%Z (Throw NetworkError)
  = generateSampleFlights 0%Z
  /\ getAviationStackFlights keyedClient 0%Z (Throw NetworkError) <> [].
Proof. split; [reflexivity|discriminate]. Qed.

(** C9, as the code has it.  Neither fetch throws.  The telemetry fetch
    returns the empty list when the request is rejected (in
    [unnamed/part_000]: when it is rejected with and without credentials)
    and when the payload has no usable states.  The schedule fetch returns
    the three sample schedules, not an empty list, when the request is
    rejected or the payload is missing, carries an error, is empty or is
    malformed. *)
Theorem C9_fetch_failures_recovered (this : APIClient) (now : Instant) :
  (forall credentials get e,
      get credentials = Throw e ->
      Apiclient.getOpenSkyFlights calculateDistance clock this credentials get
      = [])
  /\ (forall get e1 e2,
         get true = Throw e1 -> get false = Throw e2 ->
         Part000.getOpenSkyFlights calculateDistance clock this get = [])
  /\ (forall credentials get r,
         get credentials = Ok r -> noStates (response_data r) ->
         Apiclient.getOpenSkyFlights calculateDistance clock this credentials
           get = [])
  /\ (forall get r,
         (get true = Ok r \/ (exists e, get true = Throw e) /\ get false = Ok r) ->
         noStates (response_data r) ->
         Part000.getOpenSkyFlights calculateDistance clock this get = [])
  /\ (forall get,
         scheduleFailure get ->
         getAviationStackFlights this now get = generateSampleFlights now)
  /\ List.length (generateSampleFlights now) = 3.
Proof.
  repeat match goal with |- _ /\ _ => split end.
  - intros credentials get e Hget.
    unfold Apiclient.getOpenSkyFlights. now rewrite Hget.
  - intros get e1 e2 H1 H2.
    unfold Part000.getOpenSkyFlights. now rewrite H1, H2.
  - intros credentials get r Hget Hn.
    unfold Apiclient.getOpenSkyFlights. rewrite Hget.
    cbn [mbind Exc_bind JS.bind].
    now rewrite (processStates_noStates this 200 r Hn).
  - intros get r Hget Hn.
    unfold Part000.getOpenSkyFlights.
    assert (Hr : try_catch_exc (get true) (fun _ => get false) = Ok r).
    { destruct Hget as [->|[[e ->] ->]]; reflexivity. }
    rewrite Hr. cbn [mbind Exc_bind JS.bind].
    now rewrite (processStates_noStates this (airportRadius this) r Hn).
  - apply getAviationStackFlights_failure.
  - reflexivity.
Qed.

End FetchFailures.

(* ===================================================================== *)
(** * The cosine of a latitude *)
(* ===================================================================== *)

Section Latitude.
Import Geo.
Local Open Scope R_scope.

Lemma cos_toRad_pos (lat : R) : -90 < lat < 90 -> 0 < cos (toRad lat).
Proof.
  intros [Hlo Hhi]. pose proof PI_RGT_0 as Hpi.
  apply cos_gt_0; unfold toRad; nra.
Qed.

End Latitude.

(* ===================================================================== *)
(** * Great-circle distance *)
(* ===================================================================== *)

Section Distance.
Import Floats Geo64 EngineSpec.
Local Open Scope float_scope.

(** ** Signs in binary64 arithmetic *)

Section Rounding.
Variables prec emax : Z.

Lemma SFopp_involutive (x : spec_float) : SFopp (SFopp x) = x.
Proof. destruct x as [[]|[]| |[] ? ?]; reflexivity. Qed.

Lemma binary_round_aux_opp (s : bool) (m e : Z) (l : location) :
  binary_round_aux prec emax (negb s) m e l
  = SFopp (binary_round_aux prec emax s m e l).
Proof.
  unfold binary_round_aux.
  destruct (shr_fexp prec emax m e l) as [mrs' e'].
  destruct (shr_fexp prec emax _ e' loc_Exact) as [mrs'' e''].
  destruct (shr_m mrs''); [reflexivity| |reflexivity].
  now destruct (Z.leb e'' (emax - prec)).
Qed.

Lemma binary_round_opp (s : bool) (m : positive) (e : Z) :
  binary_round prec emax (negb s) m e = SFopp (binary_round prec emax s m e).
Proof.
  unfold binary_round.
  destruct (shl_align m e _) as [mz ez]. apply binary_round_aux_opp.
Qed.

Lemma binary_normalize_opp (m e : Z) :
  m <> 0%Z ->
  binary_normalize prec emax (- m) e false
  = SFopp (binary_normalize prec emax m e false).
Proof.
  destruct m as [|p|p]; [congruence| |]; intros _; cbn [Z.opp binary_normalize].
  - apply (binary_round_opp false).
  - change true with (negb false).
    now rewrite binary_round_opp, SFopp_involutive.
Qed.

Lemma SFmul_comm (x y : spec_float) :
  SFmul prec emax x y = SFmul prec emax y x.
Proof.
  destruct x as [sx|sx| |sx mx ex], y as [sy|sy| |sy my ey];
    cbn [SFmul]; rewrite ?(xorb_comm sx sy); try reflexivity.
  now rewrite Pos.mul_comm, Z.add_comm.
Qed.

Lemma SFmul_opp_l (x y : spec_float) :
  SFmul prec emax (SFopp x) y = SFopp (SFmul prec emax x y).
Proof.
  destruct x as [sx|sx| |sx mx ex], y as [sy|sy| |sy my ey];
    cbn [SFmul SFopp]; rewrite <- ?negb_xorb_l; try reflexivity.
  apply binary_round_aux_opp.
Qed.

Lemma SFdiv_opp_l (x y : spec_float) :
  SFdiv prec emax (SFopp x) y = SFopp (SFdiv prec emax x y).
Proof.
  destruct x as [sx|sx| |sx mx ex], y as [sy|sy| |sy my ey];
    cbn [SFdiv SFopp]; rewrite <- ?negb_xorb_l; try reflexivity.
  destruct (SFdiv_core_binary prec emax (Zpos mx) ex (Zpos my) ey)
    as [[mz ez] lz].
  apply binary_round_aux_opp.
Qed.

Lemma SFsub_swap (x y : spec_float) :
  SFsub prec emax y x = SFopp (SFsub prec emax x y)
  \/ (SFsub prec emax x y = S754_zero false
      /\ SFsub prec emax y x = S754_zero false).
Proof.
  destruct x as [sx|sx| |sx mx ex], y as [sy|sy| |sy my ey];
    cbn [SFsub SFopp];
    try (left; reflexivity);
    try (destruct sx, sy; (left; reflexivity) || (right; split; reflexivity)).
  cbv zeta. rewrite (Z.min_comm ey ex).
  set (a := cond_Zopp sx _). set (b := cond_Zopp sy _).
  destruct (Z.eq_dec (a - b)%Z 0%Z) as [E|E].
  - right. assert (E' : (b - a = 0)%Z) by lia. rewrite E, E'. split; reflexivity.
  - left. replace (b - a)%Z with (- (a - b))%Z by lia.
    now apply binary_normalize_opp.
Qed.

Lemma SFsub_diag (x : spec_float) :
  match x with S754_zero _ | S754_finite _ _ _ => True | _ => False end ->
  SFsub prec emax x x = S754_zero false.
Proof.
  destruct x as [[]|[]| |sx mx ex]; cbn [SFsub]; try tauto; intros _;
    try reflexivity.
  cbv zeta. now rewrite Z.sub_diag.
Qed.

End Rounding.

Lemma opp_involutive (x : float) : - - x = x.
Proof. apply Prim2SF_inj. rewrite !opp_spec. apply SFopp_involutive. Qed.

Lemma mul_comm (x y : float) : x * y = y * x.
Proof. apply Prim2SF_inj. rewrite !mul_spec. apply SFmul_comm. Qed.

Lemma mul_opp_l (x y : float) : (- x) * y = - (x * y).
Proof.
  apply Prim2SF_inj. rewrite opp_spec, !mul_spec, opp_spec.
  apply SFmul_opp_l.
Qed.

Lemma mul_opp_r (x y : float) : x * (- y) = - (x * y).
Proof. now rewrite mul_comm, mul_opp_l, mul_comm. Qed.

Lemma div_opp_l (x y : float) : (- x) / y = - (x / y).
Proof.
  apply Prim2SF_inj. rewrite opp_spec, !div_spec, opp_spec.
  apply SFdiv_opp_l.
Qed.

Lemma sub_swap (x y : float) : y - x = - (x - y) \/ (x - y = 0 /\ y - x = 0).
Proof.
  destruct (SFsub_swap prec emax (Prim2SF x) (Prim2SF y)) as [H|[H1 H2]].
  - left. apply Prim2SF_inj. rewrite opp_spec, !sub_spec. exact H.
  - right. split; apply Prim2SF_inj; rewrite sub_spec; assumption.
Qed.

Lemma sub_diag (x : float) : isFinite x = true -> x - x = 0.
Proof.
  unfold isFinite. intros H. apply Prim2SF_inj. rewrite sub_spec.
  apply SFsub_diag. now destruct (Prim2SF x).
Qed.

Lemma toRad_opp (x : float) : toRad (- x) = - toRad x.
Proof. unfold toRad. now rewrite mul_opp_l, div_opp_l. Qed.

(** The squared sine of half the difference is the same both ways. *)
Lemma haversine_swap (M : MathLib) (x y c : float) :
  odd_sine M ->
  c * Math_sin M (toRad (y - x) / 2) * Math_sin M (toRad (y - x) / 2)
  = c * Math_sin M (toRad (x - y) / 2) * Math_sin M (toRad (x - y) / 2).
Proof.
  intros Hodd. destruct (sub_swap x y) as [H|[H1 H2]].
  - rewrite H, toRad_opp, div_opp_l, Hodd, !mul_opp_r, !mul_opp_l.
    now rewrite opp_involutive.
  - now rewrite H1, H2.
Qed.

Lemma haversine_swap_1 (M : MathLib) (x y : float) :
  odd_sine M ->
  Math_sin M (toRad (y - x) / 2) * Math_sin M (toRad (y - x) / 2)
  = Math_sin M (toRad (x - y) / 2) * Math_sin M (toRad (x - y) / 2).
Proof.
  intros Hodd. destruct (sub_swap x y) as [H|[H1 H2]].
  - rewrite H, toRad_opp, div_opp_l, Hodd, !mul_opp_r, !mul_opp_l.
    now rewrite opp_involutive.
  - now rewrite H1, H2.
Qed.

Lemma calculateDistance_sym (M : MathLib) (lat1 lon1 lat2 lon2 : float) :
  odd_sine M ->
  calculateDistance M lat1 lon1 lat2 lon2
  = calculateDistance M lat2 lon2 lat1 lon1.
Proof.
  intros Hodd. unfold calculateDistance. cbv zeta.
  rewrite (haversine_swap_1 M lat1 lat2 Hodd).
  rewrite (haversine_swap M lon1 lon2 _ Hodd).
  now rewrite (mul_comm (Math_cos M (toRad lat1))).
Qed.

Lemma finite_mul_zero (c : float) :
  isFinite c = true -> 0 + c * 0 * 0 = 0.
Proof.
  unfold isFinite. intros H. apply Prim2SF_inj.
  rewrite add_spec, !mul_spec.
  change (Prim2SF 0) with (S754_zero false).
  destruct (Prim2SF c) as [[]|[]| |[] m e]; try discriminate; reflexivity.
Qed.

Lemma calculateDistance_self (M : MathLib) (lat lon : float) :
  ecma M -> bounded_cosine M ->
  isFinite lat = true -> isFinite lon = true ->
  isFinite (toRad lat) = true ->
  calculateDistance M lat lon lat lon = 0.
Proof.
  intros (Hsin & _ & _ & Hatan & _) Hcos Hlat Hlon Hrad.
  unfold calculateDistance. cbv zeta.
  rewrite (sub_diag lat Hlat), (sub_diag lon Hlon).
  change (toRad 0 / 2) with 0. rewrite Hsin.
  change (0 * 0) with 0.
  rewrite (finite_mul_zero _ (Hcos _ _ Hrad Hrad)).
  change (sqrt 0) with 0. change (sqrt (1 - 0)) with 1.
  rewrite Hatan. reflexivity.
Qed.


Lemma isFinite_toRad (x : float) :
  isFinite (toRad x) = true -> isFinite x = true.
Proof.
  unfold isFinite, toRad. rewrite div_spec, mul_spec.
  destruct (Prim2SF x) as [s|s| |s m e]; try reflexivity;
    intros H; vm_compute in H; discriminate.
Qed.






(** ** The example engine *)

Lemma smallAngle_ecma : ecma smallAngle.
Proof.
  repeat split. intros x. apply Prim2SF_inj.
  cbn [smallAngle Math_atan2]. rewrite div_spec.
  change (Prim2SF nan) with S754_nan. reflexivity.
Qed.

Lemma smallAngle_odd : odd_sine smallAngle.
Proof. intros x. reflexivity. Qed.

Lemma smallAngle_bounded : bounded_cosine smallAngle.
Proof. intros x y _ _. reflexivity. Qed.



End Distance.


(* ===================================================================== *)
(** * Tiler *)
(* ===================================================================== *)


Section Tiler.
Import Geo TilerSpec.
Local Open Scope R_scope.

Lemma nth_error_seq_0 (n j : nat) :
  (j < n)%nat -> nth_error (seq 0 n) j = Some j.
Proof.
  intros Hj. rewrite (nth_error_nth' _ 0%nat) by now rewrite length_seq.
  now rewrite seq_nth.
Qed.

(** The element at row [k], column [j] of a grid built by two nested loops. *)
Lemma grid_nth_error {A : Type} (g : nat -> nat -> A) (n m a k j : nat) :
  (k < m)%nat -> (j < n)%nat ->
  nth_error
    (flat_map (fun i => map (fun j => g i j) (seq 0 n)) (seq a m))
    (k * n + j)
  = Some (g (a + k)%nat j).
Proof.
  revert a k. induction m as [|m IH]; intros a k Hk Hj; [lia|].
  cbn [seq flat_map].
  destruct k as [|k].
  - rewrite Nat.mul_0_l, Nat.add_0_l, Nat.add_0_r.
    rewrite List.nth_error_app1 by now rewrite length_map, length_seq.
    rewrite (map_nth_error _ _ _ (nth_error_seq_0 n j Hj)). reflexivity.
  - rewrite List.nth_error_app2 by (rewrite length_map, length_seq; lia).
    rewrite length_map, length_seq.
    replace (S k * n + j - n)%nat with (k * n + j)%nat by lia.
    rewrite (IH (S a) k) by lia. f_equal. f_equal. lia.
Qed.

Lemma grid_length {A : Type} (g : nat -> nat -> A) (n m a : nat) :
  List.length (flat_map (fun i => map (fun j => g i j) (seq 0 n)) (seq a m))
  = (m * n)%nat.
Proof.
  revert a. induction m as [|m IH]; intros a; [reflexivity|].
  cbn [seq flat_map]. rewrite length_app, length_map, length_seq, IH. lia.
Qed.

Lemma calculateBoundingBoxes_single (centerLat centerLon radiusKm : R) :
  radiusKm <= 500 ->
  calculateBoundingBoxes centerLat centerLon radiusKm
  = [createBoundingBox centerLat centerLon radiusKm].
Proof.
  intros Hr. unfold calculateBoundingBoxes. cbv zeta.
  destruct (Rle_dec radiusKm 500) as [_|Hn]; [reflexivity|contradiction].
Qed.

Lemma calculateBoundingBoxes_grid (centerLat centerLon radiusKm : R) :
  500 < radiusKm ->
  let numBoxes := Zceil (radiusKm / 500) in
  let n := Z.to_nat numBoxes in
  calculateBoundingBoxes centerLat centerLon radiusKm
  = flat_map (fun i => map (fun j => tile centerLat centerLon numBoxes i j)
                           (seq 0 n)) (seq 0 n).
Proof.
  intros Hr. unfold calculateBoundingBoxes. cbv zeta.
  destruct (Rle_dec radiusKm 500) as [Hle|_]; [lra|reflexivity].
Qed.

(** The tile of row [i] and column [j] is a box of half size 250 km whose
    centre is moved from the centre of the zone by [(i - (n-1)/2) * 450]
    km of latitude and [(j - (n-1)/2) * 450] km of longitude, a degree of
    latitude being 111.32 km and a degree of longitude 111.32 km times the
    cosine of the latitude of the centre of the zone. *)
Lemma tile_offsets (centerLat centerLon : R) (numBoxes : Z) (i j : nat) :
  tile centerLat centerLon numBoxes i j
  = createBoundingBox
      (centerLat + (INR i - (IZR numBoxes - 1) / 2) * (500 - 50) / 111.32)
      (centerLon + (INR j - (IZR numBoxes - 1) / 2) * (500 - 50)
                   / (111.32 * cos (toRad centerLat)))
      250.
Proof.
  unfold tile. cbv zeta. f_equal. lra.
Qed.

(** The four bounds of a box are clamped to the coordinate ranges. *)
Lemma createBoundingBox_clamped (centerLat centerLon halfSizeKm : R) :
  let b := createBoundingBox centerLat centerLon halfSizeKm in
  -90 <= lamin b /\ lamax b <= 90 /\ -180 <= lomin b /\ lomax b <= 180.
Proof.
  simpl. repeat split;
    first [ apply Rmax_l | apply Rmin_l ].
Qed.

(** Around a centre inside the coordinate ranges, away from the poles, a
    box of non-negative half size is well formed. *)
Lemma createBoundingBox_invariant (centerLat centerLon halfSizeKm : R) :
  -90 < centerLat < 90 -> -180 <= centerLon <= 180 -> 0 <= halfSizeKm ->
  boxInvariant (createBoundingBox centerLat centerLon halfSizeKm).
Proof.
  intros Hlat Hlon Hh. unfold boxInvariant.
  destruct (createBoundingBox_clamped centerLat centerLon halfSizeKm)
    as (H1 & H2 & H3 & H4).
  repeat split; try assumption; simpl.
  - assert (0 <= halfSizeKm / 111.32)
      by (apply Rmult_le_pos; [exact Hh|]; lra).
    apply Rmax_lub; apply Rmin_glb; lra.
  - pose proof (cos_toRad_pos centerLat Hlat) as Hc.
    assert (0 <= halfSizeKm / (111.32 * cos (toRad centerLat))).
    { apply Rmult_le_pos; [exact Hh|]. apply Rlt_le, Rinv_0_lt_compat. nra. }
    apply Rmax_lub; apply Rmin_glb; lra.
Qed.

(** Two tiles of one column in consecutive rows overlap by 50 km of
    latitude, when neither of the two bounds is clamped. *)
Lemma tile_latitude_overlap (centerLat centerLon : R) (numBoxes : Z)
    (i j : nat) :
  let south := tile centerLat centerLon numBoxes i j in
  let north := tile centerLat centerLon numBoxes (S i) j in
  lamax south < 90 -> -90 < lamin north ->
  lamax south - lamin north = 50 / 111.32.
Proof.
  intros south north. subst south north. unfold tile. cbv zeta.
  cbn [lamax lamin createBoundingBox]. rewrite S_INR.
  intros Hs Hn.
  unfold Rmin in *. unfold Rmax in *.
  repeat match goal with
         | H : context [Rle_dec ?a ?b] |- _ => destruct (Rle_dec a b)
         | |- context [Rle_dec ?a ?b] => destruct (Rle_dec a b)
         end; try lra.
Qed.

(** Two tiles of one row in consecutive columns: their centres are 450 km
    apart by the scale of the latitude of the zone centre, their half
    width is 250 km by the scale of their own latitude.  The two scales
    agree only in the row at the latitude of the zone centre. *)
Lemma tile_longitude_overlap (centerLat centerLon : R) (numBoxes : Z)
    (i j : nat) :
  let west := tile centerLat centerLon numBoxes i j in
  let east := tile centerLat centerLon numBoxes i (S j) in
  let boxLat :=
    centerLat + (INR i - (IZR numBoxes - 1) / 2) * (500 - 50) / 111.32 in
  cos (toRad centerLat) <> 0 ->
  lomax west < 180 -> -180 < lomin east ->
  lomax west - lomin east
  = 500 / (111.32 * cos (toRad boxLat))
    - 450 / (111.32 * cos (toRad centerLat)).
Proof.
  intros west east boxLat Hc. subst west east. unfold tile. cbv zeta.
  cbn [lomax lomin createBoundingBox]. rewrite S_INR.
  fold boxLat.
  set (d := 500 / 2 / (111.32 * cos (toRad boxLat))).
  replace (500 / (111.32 * cos (toRad boxLat))) with (2 * d)
    by (unfold d; lra).
  intros Hw He.
  assert (Hs : (INR j + 1 - (IZR numBoxes - 1) / 2) * (500 - 50)
               / (111.32 * cos (toRad centerLat))
               = (INR j - (IZR numBoxes - 1) / 2) * (500 - 50)
                 / (111.32 * cos (toRad centerLat))
                 + 450 / (111.32 * cos (toRad centerLat)))
    by (field; split; [exact Hc|lra]).
  rewrite Hs in *.
  unfold Rmin in *. unfold Rmax in *.
  repeat match goal with
         | H : context [Rle_dec ?a ?b] |- _ => destruct (Rle_dec a b)
         | |- context [Rle_dec ?a ?b] => destruct (Rle_dec a b)
         end; try lra.
Qed.

Lemma Zceil_1200 : Zceil (1200 / 500) = 3%Z.
Proof. apply Zceil_eq. simpl. lra. Qed.

Lemma Zceil_4500 : Zceil (4500 / 500) = 9%Z.
Proof. apply Zceil_eq. simpl. lra. Qed.

(** The tiler on a radius above the cap: [n * n] tiles, [n] being the
    radius over 500 rounded up, row by row; nine for 1200 km. *)
Lemma calculateBoundingBoxes_count (centerLat centerLon radiusKm : R) :
  500 < radiusKm ->
  let numBoxes := Zceil (radiusKm / 500) in
  let n := Z.to_nat numBoxes in
  let boxes := calculateBoundingBoxes centerLat centerLon radiusKm in
  List.length boxes = (n * n)%nat
  /\ forall i j, (i < n)%nat -> (j < n)%nat ->
       nth_error boxes (i * n + j)
       = Some (tile centerLat centerLon numBoxes i j).
Proof.
  intros Hr numBoxes n boxes. subst boxes.
  rewrite (calculateBoundingBoxes_grid centerLat centerLon radiusKm Hr).
  fold numBoxes. fold n. split.
  - apply grid_length.
  - intros i j Hi Hj.
    apply (grid_nth_error (tile centerLat centerLon numBoxes) n n 0 i j Hi Hj).
Qed.

Lemma calculateBoundingBoxes_1200 (centerLat centerLon : R) :
  List.length (calculateBoundingBoxes centerLat centerLon 1200) = 9%nat.
Proof.
  destruct (calculateBoundingBoxes_count centerLat centerLon 1200) as [Hl _];
    [lra|].
  rewrite Hl, Zceil_1200. reflexivity.
Qed.

End Tiler.

Section TilerDefects.
Import Geo TilerSpec.
Local Open Scope R_scope.

Lemma Zceil_5500 : Zceil (5500 / 500) = 11%Z.
Proof. apply Zceil_eq. simpl. lra. Qed.

Lemma Zceil_4000 : Zceil (4000 / 500) = 8%Z.
Proof. apply Zceil_eq. simpl. lra. Qed.

Lemma sqrt_2_3_bounds :
  0 < sqrt 2 /\ 0 < sqrt 3 /\ 250 * sqrt 2 < 225 * sqrt 3.
Proof.
  assert (H2 : sqrt 2 * sqrt 2 = 2) by (apply sqrt_sqrt; lra).
  assert (H3 : sqrt 3 * sqrt 3 = 3) by (apply sqrt_sqrt; lra).
  assert (P2 : 0 < sqrt 2) by (apply sqrt_lt_R0; lra).
  assert (P3 : 0 < sqrt 3) by (apply sqrt_lt_R0; lra).
  repeat split; try assumption.
  destruct (Rlt_dec (250 * sqrt 2) (225 * sqrt 3)) as [H|H]; [exact H|].
  exfalso. nra.
Qed.

(** The cosine of the latitude of the default airport is below the one
    of 45 degrees, and the cosine of a latitude between 0 and 30 degrees is
    above the one of 30 degrees. *)
Lemma cos_airport_bound : cos (toRad 50.0379) < 1 / sqrt 2.
Proof.
  rewrite <- cos_PI4. pose proof PI_RGT_0 as Hpi.
  apply cos_decreasing_1; unfold toRad; lra.
Qed.

Lemma cos_low_latitude_bound (lat : R) :
  0 <= lat < 30 -> sqrt 3 / 2 < cos (toRad lat).
Proof.
  intros [Hlo Hhi]. rewrite <- cos_PI6. pose proof PI_RGT_0 as Hpi.
  apply cos_decreasing_1; unfold toRad; nra.
Qed.

(** C4 on the default airport with a radius of 5500 km.  The tiler emits
    121 tiles; the first two, neighbours in the southernmost row, have no
    longitude in common: the eastern bound of the first lies west of the
    western bound of the second. *)
Theorem C4_adjacent_tiles_can_be_disjoint :
  let boxes := calculateBoundingBoxes 50.0379 8.5622 5500 in
  List.length boxes = 121%nat
  /\ exists west east,
       nth_error boxes 0 = Some west
       /\ nth_error boxes 1 = Some east
       /\ west = tile 50.0379 8.5622 11 0 0
       /\ east = tile 50.0379 8.5622 11 0 1
       /\ lomax west < lomin east
       /\ ~ overlapping west east.
Proof.
  intros boxes.
  destruct (calculateBoundingBoxes_count 50.0379 8.5622 5500) as [Hlen Hnth];
    [lra|].
  fold boxes in Hlen, Hnth. rewrite Zceil_5500 in Hlen, Hnth.
  change (Z.to_nat 11) with 11%nat in Hlen, Hnth.
  split; [exact Hlen|].
  exists (tile 50.0379 8.5622 11 0 0), (tile 50.0379 8.5622 11 0 1).
  split; [apply (Hnth 0%nat 0%nat); lia|].
  split; [apply (Hnth 0%nat 1%nat); lia|].
  split; [reflexivity|]. split; [reflexivity|].
  assert (Hgap : lomax (tile 50.0379 8.5622 11 0 0)
                 < lomin (tile 50.0379 8.5622 11 0 1)).
  { unfold tile. cbv zeta. cbn [lomax lomin createBoundingBox].
    change (INR 0) with 0. change (INR 1) with 1.
    set (boxLat := 50.0379 + (0 - (11 - 1) / 2) * (500 - 50) / 111.32).
    set (cc := cos (toRad 50.0379)).
    set (cb := cos (toRad boxLat)).
    assert (Hcc : 0 < cc) by (apply cos_toRad_pos; lra).
    assert (Hcc' : cc < 1 / sqrt 2) by apply cos_airport_bound.
    assert (Hcb : sqrt 3 / 2 < cb)
      by (apply cos_low_latitude_bound; unfold boxLat; lra).
    destruct sqrt_2_3_bounds as (P2 & P3 & Hs).
    assert (H2 : sqrt 2 * sqrt 2 = 2) by (apply sqrt_sqrt; lra).
    assert (Hcb0 : 0 < cb) by lra.
    assert (Hkey : 500 * cc < 450 * cb).
    { assert (cc * sqrt 2 < 1).
      { apply (Rmult_lt_compat_r (sqrt 2)) in Hcc'; [|exact P2].
        replace (1 / sqrt 2 * sqrt 2) with 1 in Hcc' by (field; lra).
        exact Hcc'. }
      nra. }
    eapply Rle_lt_trans; [apply Rmin_r|].
    eapply Rlt_le_trans; [|apply Rmax_r].
    assert (Hd : 2 * (500 / 2 / (111.32 * cb)) < (500 - 50) / (111.32 * cc)).
    { apply (Rmult_lt_reg_r (111.32 * cb * cc)); [nra|].
      replace (2 * (500 / 2 / (111.32 * cb)) * (111.32 * cb * cc))
        with (500 * cc) by (field; lra).
      replace ((500 - 50) / (111.32 * cc) * (111.32 * cb * cc))
        with (450 * cb) by (field; lra).
      exact Hkey. }
    replace ((1 - (11 - 1) / 2) * (500 - 50) / (111.32 * cc))
      with ((0 - (11 - 1) / 2) * (500 - 50) / (111.32 * cc)
            + (500 - 50) / (111.32 * cc)) by (field; lra).
    lra. }
  split; [exact Hgap|].
  intros [_ Hlon].
  assert (lomin (tile 50.0379 8.5622 11 0 1) <= lomax (tile 50.0379 8.5622 11 0 0)).
  { eapply Rle_trans; [apply Rmax_r|].
    eapply Rle_trans; [exact Hlon|]. apply Rmin_l. }
  lra.
Qed.

(** C8 on the airport of Longyearbyen with a radius of 4000 km.  The tiler
    emits 64 tiles; the first tile of the northernmost row has its centre
    beyond the pole, and its southern bound lies north of its northern
    bound. *)
Theorem C8_tile_beyond_pole_inverted :
  let boxes := calculateBoundingBoxes 78.2461 15.4656 4000 in
  List.length boxes = 64%nat
  /\ exists b,
       nth_error boxes 56 = Some b
       /\ b = tile 78.2461 15.4656 8 7 0
       /\ lamax b = 90
       /\ 90 < lamin b
       /\ ~ boxInvariant b.
Proof.
  intros boxes.
  destruct (calculateBoundingBoxes_count 78.2461 15.4656 4000) as [Hlen Hnth];
    [lra|].
  fold boxes in Hlen, Hnth. rewrite Zceil_4000 in Hlen, Hnth.
  change (Z.to_nat 8) with 8%nat in Hlen, Hnth.
  split; [exact Hlen|].
  exists (tile 78.2461 15.4656 8 7 0).
  split; [apply (Hnth 7%nat 0%nat); lia|].
  split; [reflexivity|].
  assert (Hmax : lamax (tile 78.2461 15.4656 8 7 0) = 90).
  { unfold tile. cbv zeta. cbn [lamax createBoundingBox].
    replace (INR 7) with 7 by (simpl; lra).
    apply Rmin_left. lra. }
  assert (Hmin : 90 < lamin (tile 78.2461 15.4656 8 7 0)).
  { unfold tile. cbv zeta. cbn [lamin createBoundingBox].
    replace (INR 7) with 7 by (simpl; lra).
    eapply Rlt_le_trans; [|apply Rmax_r]. lra. }
  split; [exact Hmax|]. split; [exact Hmin|].
  intros (_ & _ & _ & _ & Hord & _). lra.
Qed.

End TilerDefects.

(* ===================================================================== *)
(** * Zone membership *)
(* ===================================================================== *)

Section ZoneMembership.
Import Floats Geo64 EngineSpec.
Local Open Scope float_scope.

Lemma leb_nan_l (x : float) : (nan <=? x) = false.
Proof. rewrite leb_spec. reflexivity. Qed.

Lemma leb_nan_r (x : float) : (x <=? nan) = false.
Proof.
  rewrite leb_spec. change (Prim2SF nan) with S754_nan.
  now destruct (Prim2SF x).
Qed.

(** Zone membership, in binary64 arithmetic, for an engine that gives the
    values the standard fixes, whose sine is odd and whose cosines are
    bounded.  The airport, when its longitude is finite and its latitude
    is still finite in radians, is in its own zone exactly when zero is at
    most the radius.  A point is in the zone of the airport exactly when
    the airport would be in a zone of the same radius around the point.
    A point whose distance is NaN is not in the zone, and with a radius
    that is NaN no point is. *)
Theorem isInAirportZone_radius (M : MathLib) :
  ecma M -> odd_sine M -> bounded_cosine M ->
  (forall airportLat airportLon airportRadius,
      isFinite (toRad airportLat) = true -> isFinite airportLon = true ->
      isInAirportZone M airportLat airportLon airportRadius
        airportLat airportLon
      = (0 <=? airportRadius))
  /\ (forall airportLat airportLon airportRadius lat lon,
         isInAirportZone M airportLat airportLon airportRadius lat lon
         = isInAirportZone M lat lon airportRadius airportLat airportLon)
  /\ (forall airportLat airportLon airportRadius lat lon,
         calculateDistance M airportLat airportLon lat lon = nan ->
         isInAirportZone M airportLat airportLon airportRadius lat lon
         = false)
  /\ (forall airportLat airportLon lat lon,
         isInAirportZone M airportLat airportLon nan lat lon = false).
Proof.
  intros Hecma Hodd Hcos. unfold isInAirportZone. cbv zeta.
  repeat match goal with |- _ /\ _ => split end.
  - intros airportLat airportLon airportRadius Hlat Hlon.
    rewrite calculateDistance_self; try assumption; [reflexivity|].
    now apply isFinite_toRad.
  - intros airportLat airportLon airportRadius lat lon.
    now rewrite (calculateDistance_sym M airportLat airportLon lat lon).
  - intros airportLat airportLon airportRadius lat lon ->.
    apply leb_nan_l.
  - intros. apply leb_nan_r.
Qed.

End ZoneMembership.

Lemma isInAirportZone_radius_witness :
  let M := EngineSpec.smallAngle in
  (forall airportLat airportLon airportRadius,
      EngineSpec.isFinite (Geo64.toRad airportLat) = true ->
      EngineSpec.isFinite airportLon = true ->
      Geo64.isInAirportZone M airportLat airportLon airportRadius
        airportLat airportLon
      = PrimFloat.leb PrimFloat.zero airportRadius)
  /\ (forall airportLat airportLon airportRadius lat lon,
         Geo64.isInAirportZone M airportLat airportLon airportRadius lat lon
         = Geo64.isInAirportZone M lat lon airportRadius airportLat
             airportLon)
  /\ (forall airportLat airportLon airportRadius lat lon,
         Geo64.calculateDistance M airportLat airportLon lat lon
         = PrimFloat.nan ->
         Geo64.isInAirportZone M airportLat airportLon airportRadius lat lon
         = false)
  /\ (forall airportLat airportLon lat lon,
         Geo64.isInAirportZone M airportLat airportLon PrimFloat.nan lat lon
         = false).
Proof.
  intros M.
  apply (isInAirportZone_radius EngineSpec.smallAngle).
  - exact smallAngle_ecma.
  - exact smallAngle_odd.
  - exact smallAngle_bounded.
Defined.

(* ===================================================================== *)
(** * The tiler: layout, clamping, reach *)
(* ===================================================================== *)

Section TilerLayout.
Import Geo TilerSpec.
Local Open Scope R_scope.

Lemma Zceil_above_cap (radiusKm : R) :
  500 < radiusKm -> (2 <= Zceil (radiusKm / 500))%Z.
Proof.
  intros Hr. pose proof (Zceil_bound (radiusKm / 500)) as [_ Hb].
  assert (H1 : 1 < IZR (Zceil (radiusKm / 500))) by lra.
  apply lt_IZR in H1. lia.
Qed.

Lemma In_calculateBoundingBoxes (centerLat centerLon radiusKm : R)
    (b : BoundingBox) :
  500 < radiusKm ->
  In b (calculateBoundingBoxes centerLat centerLon radiusKm) ->
  exists i j : nat,
    (i < Z.to_nat (Zceil (radiusKm / 500)))%nat
    /\ (j < Z.to_nat (Zceil (radiusKm / 500)))%nat
    /\ b = tile centerLat centerLon (Zceil (radiusKm / 500)) i j.
Proof.
  intros Hr Hin.
  rewrite (calculateBoundingBoxes_grid centerLat centerLon radiusKm Hr) in Hin.
  cbv zeta in Hin. apply in_flat_map in Hin as (i & Hi & Hin).
  apply in_map_iff in Hin as (j & <- & Hj).
  apply in_seq in Hi. apply in_seq in Hj.
  exists i, j. repeat split; lia.
Qed.

(** The layout of the tiler.  A radius of at most 500 km gives the one box
    of that half size around the centre.  A larger radius gives [n * n]
    boxes, [n] being the radius over 500 rounded up and at least two; the
    box of row [i] and column [j] is at position [i * n + j] and is the
    box of half size 250 km whose centre is [(i - (n-1)/2) * 450] km north
    and [(j - (n-1)/2) * 450] km east of the centre of the zone. *)
Theorem calculateBoundingBoxes_layout (centerLat centerLon radiusKm : R) :
  let boxes := calculateBoundingBoxes centerLat centerLon radiusKm in
  let numBoxes := Zceil (radiusKm / 500) in
  let n := Z.to_nat numBoxes in
  (radiusKm <= 500 ->
   boxes = [createBoundingBox centerLat centerLon radiusKm])
  /\ (500 < radiusKm ->
      (2 <= n)%nat
      /\ List.length boxes = (n * n)%nat
      /\ forall i j : nat, (i < n)%nat -> (j < n)%nat ->
           nth_error boxes (i * n + j)
           = Some (createBoundingBox
                     (centerLat
                      + (INR i - (IZR numBoxes - 1) / 2) * 450 / 111.32)
                     (centerLon
                      + (INR j - (IZR numBoxes - 1) / 2) * 450
                        / (111.32 * cos (toRad centerLat)))
                     250)).
Proof.
  intros boxes numBoxes n. split.
  - apply calculateBoundingBoxes_single.
  - intros Hr.
    destruct (calculateBoundingBoxes_count centerLat centerLon radiusKm Hr)
      as [Hlen Hnth].
    pose proof (Zceil_above_cap radiusKm Hr) as Hn.
    repeat split.
    + subst n numBoxes. lia.
    + exact Hlen.
    + intros i j Hi Hj.
      transitivity (Some (tile centerLat centerLon numBoxes i j));
        [exact (Hnth i j Hi Hj)|].
      rewrite tile_offsets. do 3 f_equal; lra.
Qed.

(** The tiler always returns at least one box, and every box it returns
    has its four bounds inside the coordinate ranges, for every centre
    and every radius. *)
Theorem calculateBoundingBoxes_bounds_in_range
    (centerLat centerLon radiusKm : R) :
  calculateBoundingBoxes centerLat centerLon radiusKm <> []
  /\ Forall (fun b => -90 <= lamin b /\ lamax b <= 90
                      /\ -180 <= lomin b /\ lomax b <= 180)
            (calculateBoundingBoxes centerLat centerLon radiusKm).
Proof.
  destruct (Rle_dec radiusKm 500) as [Hle|Hgt].
  - rewrite (calculateBoundingBoxes_single _ _ _ Hle). split; [discriminate|].
    constructor; [|constructor]. apply createBoundingBox_clamped.
  - assert (Hr : 500 < radiusKm) by lra. split.
    + intros Hnil.
      destruct (calculateBoundingBoxes_count centerLat centerLon radiusKm Hr)
        as [Hlen _].
      rewrite Hnil in Hlen. pose proof (Zceil_above_cap radiusKm Hr).
      simpl in Hlen. nia.
    + apply List.Forall_forall. intros b Hin.
      apply In_calculateBoundingBoxes in Hin as (i & j & _ & _ & ->);
        [|exact Hr].
      rewrite tile_offsets. apply createBoundingBox_clamped.
Qed.

(** For a centre inside the coordinate ranges and away from the poles and
    a radius between 0 and 500 km, the one box the tiler returns is well
    formed and contains the centre. *)
Theorem calculateBoundingBoxes_single_box_around_centre
    (centerLat centerLon radiusKm : R) :
  -90 < centerLat < 90 -> -180 <= centerLon <= 180 ->
  0 <= radiusKm <= 500 ->
  exists b,
    calculateBoundingBoxes centerLat centerLon radiusKm = [b]
    /\ boxInvariant b
    /\ lamin b <= centerLat <= lamax b
    /\ lomin b <= centerLon <= lomax b.
Proof.
  intros Hlat Hlon [Hr0 Hr].
  exists (createBoundingBox centerLat centerLon radiusKm).
  split; [now apply calculateBoundingBoxes_single|].
  split; [now apply createBoundingBox_invariant|].
  cbn [lamin lamax lomin lomax createBoundingBox].
  assert (0 <= radiusKm / 111.32)
    by (apply Rmult_le_pos; [exact Hr0|]; lra).
  pose proof (cos_toRad_pos centerLat Hlat) as Hc.
  assert (0 <= radiusKm / (111.32 * cos (toRad centerLat))).
  { apply Rmult_le_pos; [exact Hr0|]. apply Rlt_le, Rinv_0_lt_compat. nra. }
  repeat split;
    first [ apply Rmax_lub; lra | apply Rmin_glb; lra ].
Qed.

Lemma calculateBoundingBoxes_single_box_around_centre_witness :
  (-90 < 50.0379 < 90 /\ -180 <= 8.5622 <= 180 /\ 0 <= 50 <= 500)
  /\ exists b,
       calculateBoundingBoxes 50.0379 8.5622 50 = [b]
       /\ boxInvariant b
       /\ lamin b <= 50.0379 <= lamax b
       /\ lomin b <= 8.5622 <= lomax b.
Proof.
  split; [lra|].
  apply (calculateBoundingBoxes_single_box_around_centre 50.0379 8.5622 50);
    lra.
Defined.

(** Above the cap the tiles do not reach the edge of the zone: every tile
    ends south of the latitude that lies [radiusKm] north of the centre,
    by more than [(0.55 * radiusKm - 250)] km of latitude, and begins
    north of the latitude that lies [radiusKm] south of it by as much. *)
Theorem calculateBoundingBoxes_tiles_short_of_radius
    (centerLat centerLon radiusKm : R) :
  500 < radiusKm ->
  Forall (fun b =>
            lamax b < centerLat + radiusKm / 111.32
                      - (0.55 * radiusKm - 250) / 111.32
            /\ centerLat - radiusKm / 111.32
               + (0.55 * radiusKm - 250) / 111.32 < lamin b)
         (calculateBoundingBoxes centerLat centerLon radiusKm).
Proof.
  intros Hr. apply List.Forall_forall. intros b Hin.
  apply In_calculateBoundingBoxes in Hin as (i & j & Hi & _ & ->);
    [|exact Hr].
  rewrite tile_offsets. cbn [lamin lamax createBoundingBox].
  pose proof (Zceil_above_cap radiusKm Hr) as Hn2.
  pose proof (Zceil_bound (radiusKm / 500)) as [Hub _].
  set (numBoxes := Zceil (radiusKm / 500)) in *.
  assert (Hi' : INR i <= IZR numBoxes - 1).
  { rewrite INR_IZR_INZ. rewrite <- minus_IZR. apply IZR_le. lia. }
  assert (Hi0 : 0 <= INR i) by apply pos_INR.
  split.
  - eapply Rle_lt_trans; [apply Rmin_r|]. lra.
  - eapply Rlt_le_trans; [|apply Rmax_r]. lra.
Qed.

Lemma calculateBoundingBoxes_tiles_short_of_radius_witness :
  500 < 1200
  /\ Forall (fun b =>
               lamax b < 50.0379 + 1200 / 111.32
                         - (0.55 * 1200 - 250) / 111.32
               /\ 50.0379 - 1200 / 111.32
                  + (0.55 * 1200 - 250) / 111.32 < lamin b)
            (calculateBoundingBoxes 50.0379 8.5622 1200).
Proof.
  split; [lra|].
  apply (calculateBoundingBoxes_tiles_short_of_radius 50.0379 8.5622 1200).
  lra.
Defined.

(** Above the cap, the boxes of one column in two consecutive rows are at
    positions [i * n + j] and [(i + 1) * n + j] of the result, and they
    overlap by 50 km of latitude unless one of the two facing bounds is
    clamped at a pole. *)
Theorem calculateBoundingBoxes_rows_overlap
    (centerLat centerLon radiusKm : R) (i j : nat) :
  let boxes := calculateBoundingBoxes centerLat centerLon radiusKm in
  let n := Z.to_nat (Zceil (radiusKm / 500)) in
  500 < radiusKm -> (S i < n)%nat -> (j < n)%nat ->
  exists south north,
    nth_error boxes (i * n + j) = Some south
    /\ nth_error boxes (S i * n + j) = Some north
    /\ (lamax south < 90 -> -90 < lamin north ->
        lamax south - lamin north = 50 / 111.32).
Proof.
  intros boxes n Hr Hi Hj.
  destruct (calculateBoundingBoxes_count centerLat centerLon radiusKm Hr)
    as [_ Hnth].
  exists (tile centerLat centerLon (Zceil (radiusKm / 500)) i j),
         (tile centerLat centerLon (Zceil (radiusKm / 500)) (S i) j).
  split; [apply Hnth; fold n; lia|].
  split; [apply Hnth; fold n; lia|].
  apply tile_latitude_overlap.
Qed.

Lemma calculateBoundingBoxes_rows_overlap_witness :
  (500 < 1200
   /\ (1 < Z.to_nat (Zceil (1200 / 500)))%nat
   /\ (0 < Z.to_nat (Zceil (1200 / 500)))%nat)
  /\ exists south north,
       nth_error (calculateBoundingBoxes 50.0379 8.5622 1200)
                 (0 * Z.to_nat (Zceil (1200 / 500)) + 0) = Some south
       /\ nth_error (calculateBoundingBoxes 50.0379 8.5622 1200)
                    (1 * Z.to_nat (Zceil (1200 / 500)) + 0) = Some north
       /\ (lamax south < 90 -> -90 < lamin north ->
           lamax south - lamin north = 50 / 111.32).
Proof.
  assert (Hn : Z.to_nat (Zceil (1200 / 500)) = 3%nat)
    by (rewrite Zceil_1200; reflexivity).
  split; [rewrite Hn; split; [lra|split; lia]|].
  apply (calculateBoundingBoxes_rows_overlap 50.0379 8.5622 1200 0 0);
    rewrite ?Hn; try lia; lra.
Defined.

(** Above the cap, the boxes of one row in two consecutive columns are at
    positions [i * n + j] and [i * n + j + 1] of the result.  Unless a
    facing bound is clamped, the signed overlap of their longitudes is
    500 km by the scale of the latitude of the row minus 450 km by the
    scale of the latitude of the zone centre. *)
Theorem calculateBoundingBoxes_columns_overlap
    (centerLat centerLon radiusKm : R) (i j : nat) :
  let boxes := calculateBoundingBoxes centerLat centerLon radiusKm in
  let numBoxes := Zceil (radiusKm / 500) in
  let n := Z.to_nat numBoxes in
  let boxLat :=
    centerLat + (INR i - (IZR numBoxes - 1) / 2) * (500 - 50) / 111.32 in
  500 < radiusKm -> (i < n)%nat -> (S j < n)%nat ->
  cos (toRad centerLat) <> 0 ->
  exists west east,
    nth_error boxes (i * n + j) = Some west
    /\ nth_error boxes (i * n + S j) = Some east
    /\ (lomax west < 180 -> -180 < lomin east ->
        lomax west - lomin east
        = 500 / (111.32 * cos (toRad boxLat))
          - 450 / (111.32 * cos (toRad centerLat))).
Proof.
  intros boxes numBoxes n boxLat Hr Hi Hj Hc.
  destruct (calculateBoundingBoxes_count centerLat centerLon radiusKm Hr)
    as [_ Hnth].
  exists (tile centerLat centerLon numBoxes i j),
         (tile centerLat centerLon numBoxes i (S j)).
  split; [apply Hnth; fold numBoxes; fold n; lia|].
  split; [apply Hnth; fold numBoxes; fold n; lia|].
  apply tile_longitude_overlap. exact Hc.
Qed.

Lemma calculateBoundingBoxes_columns_overlap_witness :
  (500 < 1200
   /\ (0 < Z.to_nat (Zceil (1200 / 500)))%nat
   /\ (1 < Z.to_nat (Zceil (1200 / 500)))%nat
   /\ cos (toRad 50.0379) <> 0)
  /\ exists west east,
       nth_error (calculateBoundingBoxes 50.0379 8.5622 1200)
                 (0 * Z.to_nat (Zceil (1200 / 500)) + 0) = Some west
       /\ nth_error (calculateBoundingBoxes 50.0379 8.5622 1200)
                    (0 * Z.to_nat (Zceil (1200 / 500)) + 1) = Some east
       /\ (lomax west < 180 -> -180 < lomin east ->
           lomax west - lomin east
           = 500 / (111.32
                    * cos (toRad (50.0379
                                  + (INR 0 - (IZR (Zceil (1200 / 500)) - 1) / 2)
                                    * (500 - 50) / 111.32)))
             - 450 / (111.32 * cos (toRad 50.0379))).
Proof.
  assert (Hn : Z.to_nat (Zceil (1200 / 500)) = 3%nat)
    by (rewrite Zceil_1200; reflexivity).
  assert (Hc : cos (toRad 50.0379) <> 0).
  { assert (Hlat : -90 < 50.0379 < 90) by lra.
    pose proof (cos_toRad_pos 50.0379 Hlat). lra. }
  split; [rewrite Hn; split; [lra|split; [lia|split; [lia|exact Hc]]]|].
  apply (calculateBoundingBoxes_columns_overlap 50.0379 8.5622 1200 0 0);
    rewrite ?Hn; try lia; try lra; exact Hc.
Defined.

End TilerLayout.

(* ===================================================================== *)
(** * The zone filter of the later revision *)
(* ===================================================================== *)

Section ZoneFilterResult.
Import ZoneSpec.
Variable calculateDistance : Q -> Q -> Q -> Q -> Q.
Variable clock : nat -> Instant.

(** The zone filter of [unnamed/part_000], whether the request succeeds
    with credentials or only anonymously after the first attempt failed:
    when the five closest flights have coordinates, the result holds the
    flights within the configured radius, each once, ascending by
    distance with ties in input order, and never more flights than the
    feed has non-null states. *)
Theorem Part000_getOpenSkyFlights_within_radius (this : APIClient)
    (status : Z) (sts : list (option State))
    (get : bool -> Exc (Response OpenSkyData)) :
  let response := {| response_status := status;
                     response_data := Some {| states := Some sts |} |} in
  let flights := flightsOf calculateDistance clock this sts in
  (get true = Ok response
   \/ ((exists e, get true = Throw e) /\ get false = Ok response)) ->
  Forall hasCoordinates (firstn 5 (JS.sort byDistance flights)) ->
  let result := Part000.getOpenSkyFlights calculateDistance clock this get in
  Permutation result
    (List.filter (fun f => Qle_bool (distance f) (airportRadius this)) flights)
  /\ StronglySorted before result
  /\ Forall (fun f => (distance f <= airportRadius this)%Q) result
  /\ List.length result <= List.length (filter_non_null sts).
Proof.
  intros response flights Hget Hloc result.
  assert (Hres : result
                 = List.filter
                     (fun f => Qle_bool (distance f) (airportRadius this))
                     (JS.sort byDistance flights)).
  { subst result. unfold Part000.getOpenSkyFlights.
    assert (Htry : try_catch_exc (get true) (fun _ => get false) = Ok response).
    { destruct Hget as [->|[[e ->] Hf]]; [reflexivity|exact Hf]. }
    rewrite Htry. cbn [mbind Exc_bind JS.bind].
    subst response.
    rewrite (processStates_located calculateDistance clock this
               (airportRadius this) status sts Hloc).
    reflexivity. }
  assert (Hperm : Permutation result
            (List.filter (fun f => Qle_bool (distance f) (airportRadius this))
               flights)).
  { rewrite Hres. apply filter_Permutation, sort_Permutation. }
  split; [exact Hperm|]. split; [|split].
  - rewrite Hres. apply filter_sorted, sort_sorted.
    apply (mapi_from_index calculateDistance this 0).
  - apply List.Forall_forall. intros f Hf. rewrite Hres in Hf.
    apply List.filter_In in Hf as [_ Hf]. now apply Qle_bool_iff.
  - rewrite (Permutation_length Hperm).
    etransitivity; [apply List.filter_length_le|].
    unfold flights, flightsOf, mapi.
    generalize (filter_non_null sts). intros l.
    assert (Hlen : forall (A B : Type) (g : A -> nat -> B) l i,
               List.length (mapi_from i g l) = List.length l).
    { intros A B g l0. induction l0 as [|x l0 IH]; intros i;
        [reflexivity|]. simpl. now rewrite IH. }
    now rewrite !Hlen.
Qed.

(** When one of the five closest flights lacks a latitude or a longitude,
    both revisions answer a feed they received with the empty list,
    also when other flights are inside the zone. *)
Theorem getOpenSkyFlights_empty_when_a_close_flight_lacks_coordinates
    (this : APIClient) (credentials : bool) (status : Z)
    (sts : list (option State)) (get : bool -> Exc (Response OpenSkyData)) :
  (forall auth, get auth = Ok {| response_status := status;
                                 response_data :=
                                   Some {| states := Some sts |} |}) ->
  ~ Forall hasCoordinates
      (firstn 5 (JS.sort byDistance
                   (flightsOf calculateDistance clock this sts))) ->
  Apiclient.getOpenSkyFlights calculateDistance clock this credentials get = []
  /\ Part000.getOpenSkyFlights calculateDistance clock this get = [].
Proof.
  intros Hget Hn. split.
  - unfold Apiclient.getOpenSkyFlights. rewrite Hget.
    cbn [mbind Exc_bind JS.bind].
    rewrite (zone_filter_empty_on_missing_coordinates calculateDistance clock
               this 200 status sts Hn).
    reflexivity.
  - unfold Part000.getOpenSkyFlights. rewrite Hget.
    cbn [try_catch_exc mbind Exc_bind JS.bind].
    rewrite (zone_filter_empty_on_missing_coordinates calculateDistance clock
               this (airportRadius this) status sts Hn).
    reflexivity.
Qed.

End ZoneFilterResult.

Lemma Part000_getOpenSkyFlights_within_radius_witness :
  let this := Part000_constructor None None (Some (200 # 1)) in
  let sts := [Some ZoneSpec.near60; None; Some ZoneSpec.far250; Some ZoneSpec.near10] in
  let result :=
    Part000.getOpenSkyFlights ZoneSpec.tableDistance (fun _ => 0%Z) this
      (fun _ => ZoneSpec.respond sts) in
  Permutation result
    (List.filter (fun f => Qle_bool (distance f) (airportRadius this))
       (ZoneSpec.flightsOf ZoneSpec.tableDistance (fun _ => 0%Z) this sts))
  /\ StronglySorted ZoneSpec.before result
  /\ Forall (fun f => (distance f <= airportRadius this)%Q) result
  /\ List.length result <= List.length (filter_non_null sts).
Proof.
  intros this sts result.
  apply (Part000_getOpenSkyFlights_within_radius ZoneSpec.tableDistance (fun _ => 0%Z)
           this 200%Z sts (fun _ => ZoneSpec.respond sts)).
  - left. reflexivity.
  - vm_compute. repeat constructor; discriminate.
Defined.

Lemma getOpenSkyFlights_empty_when_a_close_flight_lacks_coordinates_witness :
  let this := Part000_constructor None None None in
  let sts := [Some ZoneSpec.near10; Some RawFixtures.noFix] in
  Apiclient.getOpenSkyFlights ZoneSpec.tableDistance (fun _ => 0%Z) this false
    (fun _ => ZoneSpec.respond sts) = []
  /\ Part000.getOpenSkyFlights ZoneSpec.tableDistance (fun _ => 0%Z) this
       (fun _ => ZoneSpec.respond sts) = [].
Proof.
  intros this sts.
  apply (getOpenSkyFlights_empty_when_a_close_flight_lacks_coordinates
           ZoneSpec.tableDistance (fun _ => 0%Z) this false 200%Z sts
           (fun _ => ZoneSpec.respond sts)).
  - intros auth. reflexivity.
  - vm_compute. intros Hall.
    inversion Hall as [|? ? _ Hrest]; subst.
    inversion Hrest as [|? ? [Hlat _] _]; subst.
    apply Hlat. reflexivity.
Defined.

(* ===================================================================== *)
(** * Airport codes *)
(* ===================================================================== *)

Section AirportCodes.
Import Client.

Lemma toUpperCase_char_idempotent (c : ascii) :
  toUpperCase_char (toUpperCase_char c) = toUpperCase_char c.
Proof. destruct c as [[] [] [] [] [] [] [] []]; reflexivity. Qed.

Lemma toUpperCase_idempotent (s : string) :
  toUpperCase (toUpperCase s) = toUpperCase s.
Proof.
  induction s as [|c s IH]; [reflexivity|].
  simpl. now rewrite toUpperCase_char_idempotent, IH.
Qed.

Lemma toUpperCase_substring (s : string) (n m : nat) :
  toUpperCase (String.substring n m s) = String.substring n m (toUpperCase s).
Proof.
  revert n m. induction s as [|c s IH]; intros n m.
  - destruct n, m; reflexivity.
  - destruct n as [|n]; destruct m as [|m]; simpl;
      rewrite ?IH; reflexivity.
Qed.

Lemma length_substring_le (s : string) (n m : nat) :
  String.length (String.substring n m s) <= m.
Proof.
  revert n m. induction s as [|c s IH]; intros n m.
  - destruct n, m; simpl; lia.
  - destruct n as [|n]; destruct m as [|m]; simpl;
      first [ lia | apply le_n_S, IH | apply IH ].
Qed.

Lemma length_toUpperCase (s : string) :
  String.length (toUpperCase s) = String.length s.
Proof. induction s as [|c s IH]; simpl; congruence. Qed.

Lemma lookup_Some_In (m : list (string * string)) (k v : string) :
  lookup m k = Some v -> In (k, v) m.
Proof.
  induction m as [|[k' v'] m IH]; simpl; [discriminate|].
  destruct (String.eqb k' k) eqn:E.
  - apply String.eqb_eq in E. intros [= <-]. left. now subst.
  - intros Hl. right. now apply IH.
Qed.

Lemma lookup_None_not_In (m : list (string * string)) (k : string) :
  lookup m k = None -> forall v, ~ In (k, v) m.
Proof.
  induction m as [|[k' v'] m IH]; simpl; [tauto|].
  destruct (String.eqb k' k) eqn:E; [discriminate|].
  apply String.eqb_neq in E. intros Hl v [[= -> _]|Hin]; [congruence|].
  exact (IH Hl v Hin).
Qed.

(** The airport code [getIATAFromICAO] returns does not depend on the
    case of the letters of its argument, is in upper case and has at most
    three characters; it is the entry of the table for the argument in
    upper case when there is one, and otherwise the second to fourth
    character of the argument, in upper case. *)
Theorem getIATAFromICAO_code (icao : string) :
  let code := getIATAFromICAO icao in
  getIATAFromICAO (toUpperCase icao) = code
  /\ toUpperCase code = code
  /\ String.length code <= 3
  /\ (forall v, In (toUpperCase icao, v) iataMap -> code = v)
  /\ ((forall v, ~ In (toUpperCase icao, v) iataMap) ->
      code = String.substring 1 3 (toUpperCase icao)).
Proof.
  intros code. subst code. unfold getIATAFromICAO.
  rewrite toUpperCase_idempotent.
  rewrite (toUpperCase_substring (toUpperCase icao)), toUpperCase_idempotent.
  rewrite (toUpperCase_substring icao).
  destruct (lookup iataMap (toUpperCase icao)) as [v|] eqn:Hl.
  - pose proof (lookup_Some_In _ _ _ Hl) as Hin.
    assert (Hv : truthy_string (Some v) = true
                 /\ toUpperCase v = v /\ String.length v <= 3).
    { simpl in Hin.
      repeat (destruct Hin as [[= _ <-]|Hin];
              [split; [reflexivity|split; [reflexivity|simpl; lia]]|]).
      destruct Hin. }
    destruct Hv as (-> & Hup & Hlen).
    repeat match goal with |- _ /\ _ => split end;
      try reflexivity; try assumption.
    + intros v' Hin'. revert Hl.
      simpl in Hin'.
      repeat (destruct Hin' as [[= Hk <-]|Hin'];
              [rewrite <- Hk; simpl; congruence|]).
      destruct Hin'.
    + intros Hno. destruct (Hno v Hin).
  - cbn [truthy_string].
    repeat match goal with |- _ /\ _ => split end; try reflexivity.
    + rewrite <- toUpperCase_substring. apply toUpperCase_idempotent.
    + apply length_substring_le.
    + intros v Hin. destruct (lookup_None_not_In _ _ Hl v Hin).
Qed.

End AirportCodes.

(* ===================================================================== *)
(** * The schedule index *)
(* ===================================================================== *)

Section ScheduleIndex.
Import Monitor LookupSpec.

(** What reading the schedule index under a key gives, for every key.
    Its own property under a key other than the empty one and
    [__proto__] is the last of the fetched schedules with that flight
    number and, when no fetched schedule has it, the first of the sample
    schedules with it; it has no own property under the empty key nor
    under [__proto__].  Its prototype is the last fetched schedule whose
    flight number is [__proto__], if there is one.  Reading a key gives
    the own property when there is one and otherwise what is inherited:
    a member of [Object.prototype], or the prototype schedule or one of
    its properties.  The index is never empty. *)
Theorem buildScheduleMap_lookup (api : list Schedule) (now : Instant)
    (k : string) :
  let index := buildScheduleMap api now in
  proto index = lastWith "__proto__" api
  /\ get_own (own index) k
     = (if (String.eqb k "" || String.eqb k "__proto__")%bool then None
        else match lastWith k api with
             | Some s => Some s
             | None => firstWith k (generateSampleSchedules now)
             end)
  /\ get index k
     = match get_own (own index) k with
       | Some s => Some (VSchedule s)
       | None =>
           match proto index with
           | Some s =>
               if String.eqb k "__proto__" then Some (VSchedule s)
               else match schedule_member s k with
                    | Some v => Some v
                    | None =>
                        if List.existsb (String.eqb k) Object_prototype
                        then Some (VMember k) else None
                    end
           | None =>
               if List.existsb (String.eqb k) Object_prototype
               then Some (VMember k) else None
           end
       end
  /\ own index <> [].
Proof.
  intros index. subst index.
  split; [apply proto_buildScheduleMap|].
  split; [apply get_own_buildScheduleMap|].
  split; [reflexivity|apply own_buildScheduleMap_nonempty].
Qed.

Lemma includes_empty (s : string) : includes s "" = true.
Proof. destruct s; reflexivity. Qed.

(** A position whose raw callsign consists of blanks only is given the
    empty callsign, and with it the schedule of the first entry that
    [Object.entries] lists of the index, whatever that flight is. *)
Theorem blank_callsign_takes_first_schedule (api : list Schedule)
    (now at_ : Instant) (state : State) (f : LiveFlight) (raw : string) :
  state_1 state = Some raw -> raw <> "" -> trim raw = "" ->
  flight f = normalize at_ state ->
  let index := buildScheduleMap api now in
  exists k s rest,
    Object_entries index = (k, s) :: rest
    /\ callsign f = ""
    /\ matchSchedule f index = Some (VSchedule s)
    /\ e_schedule (enrich index f) = VSchedule s
    /\ e_callsign (enrich index f) = "".
Proof.
  intros Hraw Hne Htrim Hf index.
  assert (Hc : callsign f = "").
  { rewrite Hf. unfold normalize. cbn [callsign]. rewrite Hraw.
    cbn [truthy_string].
    destruct (String.eqb raw "") eqn:E;
      [apply String.eqb_eq in E; contradiction|].
    exact Htrim. }
  assert (Hemp : get index "" = None).
  { unfold get, index. rewrite get_own_buildScheduleMap. cbn [String.eqb orb].
    now apply inherited_plain. }
  pose proof (Object_entries_nonempty index
                (own_buildScheduleMap_nonempty api now)) as Hnil.
  destruct (Object_entries index) as [|[k s] rest] eqn:Hent; [contradiction|].
  assert (Hm : matchSchedule f index = Some (VSchedule s)).
  { unfold matchSchedule. cbv zeta. rewrite Hc, Hemp, Hent.
    cbn [truthy findPartial]. unfold partialMatch. rewrite Hc.
    cbn [String.substring]. now rewrite includes_empty. }
  exists k, s, rest. repeat split; try assumption.
  unfold enrich. cbn [e_schedule]. now rewrite Hm.
Qed.

End ScheduleIndex.

Lemma blank_callsign_takes_first_schedule_witness :
  let f := {| flight := normalize 0%Z RawFixtures.blankCallsign;
              distance := 10; index := 0 |} in
  let index := Monitor.buildScheduleMap [] 0%Z in
  exists k s rest,
    Monitor.Object_entries index = (k, s) :: rest
    /\ callsign f = ""
    /\ Monitor.matchSchedule f index = Some (Monitor.VSchedule s)
    /\ Monitor.e_schedule (Monitor.enrich index f) = Monitor.VSchedule s
    /\ Monitor.e_callsign (Monitor.enrich index f) = "".
Proof.
  intros f index.
  apply (blank_callsign_takes_first_schedule [] 0%Z 0%Z
           RawFixtures.blankCallsign f "        ").
  - reflexivity.
  - discriminate.
  - vm_compute. reflexivity.
  - reflexivity.
Defined.

(* ===================================================================== *)
(** * De-duplication: failure and distinctness *)
(* ===================================================================== *)

Section DedupeOutcome.
Import Part000 DedupeSpec.
Context {A : Type} `{Positioned A}.

Lemma fingerprint_TypeError (x : A) :
  ~ located x -> fingerprint x = Throw TypeError.
Proof.
  unfold located, fingerprint. intros Hn.
  destruct (latitude_of x) as [lat|]; [|reflexivity].
  destruct (longitude_of x) as [lon|]; [|reflexivity].
  exfalso. apply Hn. split; discriminate.
Qed.

Lemma loop_TypeError (suf unique : list A) (seen : gset string) :
  ~ Forall located suf ->
  removeDuplicateFlights_loop suf unique seen = Throw TypeError.
Proof.
  revert unique seen. induction suf as [|x suf IH]; intros unique seen Hn.
  - exfalso. apply Hn. constructor.
  - cbn [removeDuplicateFlights_loop].
    destruct (located_dec x) as [Hx|Hx].
    + rewrite (fingerprint_located x Hx). cbn [mbind Exc_bind JS.bind].
      assert (Hsuf : ~ Forall located suf)
        by (intros Hs; apply Hn; now constructor).
      destruct (decide (keyOf x ∈ seen)); now apply IH.
    + now rewrite (fingerprint_TypeError x Hx).
Qed.

Lemma keepNew_sublist (pre suf : list A) : sublist (keepNew pre suf) suf.
Proof.
  revert pre. induction suf as [|x suf IH]; intros pre; simpl.
  - constructor.
  - destruct (List.existsb _ _).
    + apply sublist_cons, IH.
    + apply sublist_skip, IH.
Qed.

Lemma keepNew_covers (pre suf : list A) (x : A) :
  In x suf ->
  In (keyOf x) (map keyOf pre)
  \/ exists y, In y (keepNew pre suf) /\ keyOf y = keyOf x.
Proof.
  revert pre. induction suf as [|z suf IH]; intros pre Hin; [destruct Hin|].
  simpl. destruct Hin as [->|Hin].
  - destruct (List.existsb _ _) eqn:E.
    + left. now apply existsb_eqb_In.
    + right. exists x. split; [now left|reflexivity].
  - destruct (IH (pre ++ [z])%list Hin) as [Hpre|(y & Hy & Hk)].
    + rewrite map_app in Hpre. apply in_app_or in Hpre as [Hpre|Hz].
      * now left.
      * destruct Hz as [Hz|[]].
        destruct (List.existsb _ _) eqn:E.
        -- left. rewrite <- Hz. now apply existsb_eqb_In.
        -- right. exists z. split; [now left|exact Hz].
    + right. exists y. split; [|exact Hk].
      destruct (List.existsb _ _); [exact Hy|now right].
Qed.

(** The de-duplication fails with a [TypeError], returning nothing, as
    soon as one flight of the input lacks a latitude or a longitude.  When
    it returns, every flight of the input has both, the result is a
    subsequence of the input in which no fingerprint occurs twice and in
    which every fingerprint of the input occurs, and an input without
    repeated fingerprints is returned unchanged. *)
Theorem removeDuplicateFlights_outcome (xs : list A) :
  (~ Forall located xs -> removeDuplicateFlights xs = Throw TypeError)
  /\ (forall ys, removeDuplicateFlights xs = Ok ys ->
        Forall located xs
        /\ sublist ys xs
        /\ List.NoDup (map keyOf ys)
        /\ (forall x, In x xs -> exists y, In y ys /\ keyOf y = keyOf x)
        /\ (List.NoDup (map keyOf xs) -> ys = xs)).
Proof.
  split.
  - apply loop_TypeError.
  - intros ys Hys.
    destruct (List.Forall_dec located located_dec xs) as [Hall|Hn];
      [|unfold removeDuplicateFlights in Hys;
        rewrite (loop_TypeError xs [] ∅ Hn) in Hys; discriminate].
    rewrite (removeDuplicateFlights_located xs Hall) in Hys.
    injection Hys as <-. rewrite firstOccurrences_keepNew.
    split; [exact Hall|]. split; [apply keepNew_sublist|].
    split; [apply keepNew_keys_NoDup|]. split.
    + intros x Hx. destruct (keepNew_covers [] xs x Hx) as [[]|Hy].
      exact Hy.
    + intros Hnd. now apply keepNew_NoDup.
Qed.

End DedupeOutcome.

(* ===================================================================== *)
(** * Schedules and the combined fetch *)
(* ===================================================================== *)

Section CombinedFetch.
Import Client.
Variable calculateDistance : Q -> Q -> Q -> Q -> Q.
Variable clock : nat -> Instant.

Lemma mapM_length {X Y : Type} (g : X -> Exc Y) (l : list X) (ys : list Y) :
  mapM g l = Ok ys -> List.length ys = List.length l.
Proof.
  revert ys. induction l as [|x l IH]; intros ys; simpl.
  - now intros [= <-].
  - destruct (g x) as [y|e]; simpl; [|discriminate].
    destruct (mapM g l) as [ys'|e]; simpl; [|discriminate].
    intros [= <-]. simpl. now rewrite (IH ys' eq_refl).
Qed.

Lemma mapM_Forall2 {X Y : Type} (g : X -> Exc Y) (l : list X) (ys : list Y) :
  mapM g l = Ok ys -> Forall2 (fun x y => g x = Ok y) l ys.
Proof.
  revert ys. induction l as [|x l IH]; intros ys; simpl.
  - intros [= <-]. constructor.
  - destruct (g x) as [y|e] eqn:Hx; simpl; [|discriminate].
    destruct (mapM g l) as [ys'|e]; simpl; [|discriminate].
    intros [= <-]. constructor; [exact Hx|]. now apply IH.
Qed.

(** The schedule fetch never returns the empty list: its result is the
    three sample schedules, or one schedule per element of a payload that
    has at least one element, in the order of the payload, each with the
    IATA designator of its element as flight number, or the ICAO
    designator when the former is missing or empty. *)
Theorem getAviationStackFlights_never_empty (this : APIClient)
    (now : Instant) (get : Exc (Response AviationStackData)) :
  let result := getAviationStackFlights this now get in
  result <> []
  /\ (result = generateSampleFlights now
      \/ exists r d l,
           get = Ok r /\ response_data r = Some d /\ data d = Some l
           /\ List.length result = List.length l
           /\ Forall2
                (fun raw s =>
                   exists ids,
                     raw_flight raw = Some ids
                     /\ flightNumber s = or_else (ids_iata ids) (ids_icao ids)
                     /\ status s = flight_status raw)
                l result).
Proof.
  intros result. subst result. unfold getAviationStackFlights.
  assert (Hs : generateSampleFlights now <> []) by discriminate.
  destruct (negb (truthy_string (aviationStackKey this)));
    [split; [exact Hs|now left]|].
  destruct get as [r|e]; cbn [mbind Exc_bind JS.bind try_catch];
    [|split; [exact Hs|now left]].
  destruct (response_data r) as [d|] eqn:Hd;
    [|split; [exact Hs|now left]].
  destruct (error d); [split; [exact Hs|now left]|].
  destruct (data d) as [l|] eqn:Hl; [|split; [exact Hs|now left]].
  destruct (Nat.eqb (List.length l) 0) eqn:Hlen;
    [split; [exact Hs|now left]|].
  apply Nat.eqb_neq in Hlen.
  destruct (mapM transformFlight l) as [ys|e] eqn:Hm;
    [|split; [exact Hs|now left]].
  cbn [try_catch]. pose proof (mapM_length _ _ _ Hm) as Hlen'. split.
  - intros ->. simpl in Hlen'. congruence.
  - right. exists r, d, l. repeat split; try assumption; try reflexivity.
    pose proof (mapM_Forall2 _ _ _ Hm) as Hall.
    clear Hm Hlen Hlen' Hl. induction Hall as [|raw s l' ys' Hraw _ IH];
      constructor; [|exact IH].
    unfold transformFlight in Hraw.
    destruct (raw_flight raw) as [ids|]; [|discriminate].
    destruct (raw_airline raw), (raw_departure raw), (raw_arrival raw);
      try discriminate.
    injection Hraw as <-. exists ids. repeat split.
Qed.

(** The combined fetch of [unnamed/part_000] always returns: its two
    totals are the lengths of its two lists, there is at least one
    schedule, no live position is farther from the airport than the
    configured radius, and a client without a schedule key gets the three
    sample schedules. *)
Theorem getAllFlights_totals (this : APIClient) (now : Instant)
    (getStates : bool -> Exc (Response OpenSkyData))
    (getSchedules : Exc (Response AviationStackData)) :
  let r := getAllFlights calculateDistance clock this now getStates
             getSchedules in
  totalLive r = List.length (livePositions r)
  /\ totalScheduled r = List.length (schedules r)
  /\ 1 <= totalScheduled r
  /\ all_timestamp r = now
  /\ Forall (fun f => (distance f <= airportRadius this)%Q) (livePositions r)
  /\ (aviationStackKey this = None ->
      schedules r = generateSampleFlights now /\ totalScheduled r = 3).
Proof.
  intros r. subst r. unfold getAllFlights.
  cbn [totalLive livePositions totalScheduled schedules all_timestamp].
  split; [reflexivity|]. split; [reflexivity|]. split; [|split; [reflexivity|]].
  - destruct (getAviationStackFlights_never_empty this now getSchedules)
      as [Hne _].
    destruct (getAviationStackFlights this now getSchedules);
      [contradiction|simpl; lia].
  - split.
    + unfold Part000.getOpenSkyFlights.
      destruct (try_catch_exc (getStates true) (fun _ => getStates false))
        as [response|e]; cbn [mbind Exc_bind JS.bind try_catch];
        [|constructor].
      unfold processStates.
      destruct (response_data response) as [d|]; [|constructor].
      destruct (states d) as [sts|]; [|constructor].
      destruct (Nat.eqb _ 0); [constructor|].
      cbv zeta.
      destruct (logClosest _); cbn [mbind Exc_bind JS.bind try_catch];
        [|constructor].
      apply List.Forall_forall. intros f Hf.
      apply List.filter_In in Hf as [_ Hf]. now apply Qle_bool_iff.
    + intros Hkey. unfold getAviationStackFlights. rewrite Hkey.
      cbn [truthy_string negb try_catch]. split; reflexivity.
Qed.

End CombinedFetch.

(* ===================================================================== *)
(** * Status words and summary counts *)
(* ===================================================================== *)

Section StatusWords.
Import Monitor.

(** The status word of a raw telemetry record, normalisation and status
    rule taken together.  The two thresholds of the rule, 1000 and 5000,
    are compared with the altitude in feet, that is the metres of the
    record times 3.28084; a record that is not marked as on the ground and
    carries no altitude is reported as taxiing. *)
Theorem determineStatusFromOpenSky_of_raw_state (now : Instant)
    (state : State) :
  let word := determineStatusFromOpenSky (normalize now state) in
  let feet := (or_zero (state_7 state) * (328084 # 100000))%Q in
  (word = "on-ground" <-> state_8 state = Some true)
  /\ (word = "taxiing" <-> state_8 state <> Some true /\ (feet < 1000)%Q)
  /\ (word = "in-flight" <-> state_8 state <> Some true /\ (5000 < feet)%Q)
  /\ (word = "climbing" <->
      state_8 state <> Some true /\ (1000 <= feet)%Q /\ (feet <= 5000)%Q)
  /\ (state_8 state <> Some true -> state_7 state = None -> word = "taxiing").
Proof.
  intros word feet.
  pose proof (scaled_or_zero (state_7 state) (328084 # 100000)) as Halt.
  fold feet in Halt.
  assert (Hnone : state_7 state = None -> (feet == 0)%Q).
  { intros Hn. unfold feet. rewrite Hn. reflexivity. }
  subst word. unfold determineStatusFromOpenSky, normalize.
  cbn [on_ground altitude].
  set (alt := if truthy_number (state_7 state)
              then (ToNumber (state_7 state) * (328084 # 100000))%Q
              else 0%Q) in *.
  assert (Hg : truthy_bool (state_8 state) = true <-> state_8 state = Some true).
  { destruct (state_8 state) as [[|]|]; simpl; split; congruence. }
  destruct (truthy_bool (state_8 state)).
  - assert (Ht : state_8 state = Some true) by now apply Hg.
    repeat match goal with |- _ /\ _ => split end;
      try (split; [discriminate|intros [Hc _]; congruence]).
    + split; [intros _; exact Ht|reflexivity].
    + intros Hc. congruence.
  - assert (Ht : state_8 state <> Some true).
    { intros Hc. apply Hg in Hc. discriminate. }
    destruct (Qlt_bool alt 1000) eqn:E1.
    + apply Qlt_bool_iff in E1.
      repeat match goal with |- _ /\ _ => split end.
      * split; [discriminate|congruence].
      * split; [intros _; split; [exact Ht|Lqa.lra]|reflexivity].
      * split; [discriminate|intros [_ Hc]; Lqa.lra].
      * split; [discriminate|intros (_ & Hc & _); Lqa.lra].
      * reflexivity.
    + apply Qlt_bool_false_iff in E1.
      destruct (Qlt_bool 5000 alt) eqn:E2.
      * apply Qlt_bool_iff in E2.
        repeat match goal with |- _ /\ _ => split end.
        -- split; [discriminate|congruence].
        -- split; [discriminate|intros [_ Hc]; Lqa.lra].
        -- split; [intros _; split; [exact Ht|Lqa.lra]|reflexivity].
        -- split; [discriminate|intros (_ & _ & Hc); Lqa.lra].
        -- intros _ Hn. apply Hnone in Hn. Lqa.lra.
      * apply Qlt_bool_false_iff in E2.
        repeat match goal with |- _ /\ _ => split end.
        -- split; [discriminate|congruence].
        -- split; [discriminate|intros [_ Hc]; Lqa.lra].
        -- split; [discriminate|intros [_ Hc]; Lqa.lra].
        -- split; [intros _; repeat split; [exact Ht|Lqa.lra|Lqa.lra]
                  |reflexivity].
        -- intros _ Hn. apply Hnone in Hn. Lqa.lra.
Qed.

(** [determineStatus] of the monitor: [TypeError] without live data;
    otherwise a word that is never empty: ["on_ground"] when the hash says
    so; else the status of the schedule when there is a schedule with a
    non-empty status; else ["in_flight"].  The hash is asked before the
    schedule: a cancelled flight that is on the ground is ["on_ground"]
    here and ["Cancelled"] for the passenger service. *)
Theorem Store_determineStatus_word (live : gmap string string)
    (schedule : option Schedule) :
  Store.determineStatus None schedule = Throw TypeError
  /\ exists word,
       Store.determineStatus (Some live) schedule = Ok word
       /\ word <> ""
       /\ (live !! "on_ground" = Some "true" -> word = "on_ground")
       /\ (live !! "on_ground" <> Some "true" ->
           (forall s w, schedule = Some s -> status s = Some w -> w <> "" ->
                        word = w)
           /\ (schedule = None -> word = "in_flight")
           /\ (forall s, schedule = Some s ->
                 status s = None \/ status s = Some "" ->
                 word = "in_flight"))
       /\ (forall s, schedule = Some s -> status s = Some "cancelled" ->
           live !! "on_ground" = Some "true" ->
           word = "on_ground"
           /\ Passenger.determineStatus s (Some live) = "Cancelled").
Proof.
  split; [reflexivity|].
  unfold Store.determineStatus. cbn [deref mbind Exc_bind JS.bind].
  destruct (decide (live !! "on_ground" = Some "true")) as [Hg|Hg].
  - exists "on_ground". repeat split; try discriminate; try contradiction.
    unfold Passenger.determineStatus.
    destruct (decide (status s = Some "cancelled")); [reflexivity|contradiction].
  - destruct schedule as [s|].
    + exists (or_string (status s) "in_flight").
      split; [reflexivity|]. split; [now apply or_string_truthy|].
      split; [contradiction|]. split; [|intros; contradiction].
      intros _. split; [|split].
      * intros s' w [= <-] Hst Hw. unfold or_string. rewrite Hst.
        destruct (String.eqb w "") eqn:E; [|reflexivity].
        apply String.eqb_eq in E. contradiction.
      * discriminate.
      * intros s' [= <-] [Hst|Hst]; unfold or_string; now rewrite Hst.
    + exists "in_flight". split; [reflexivity|]. split; [discriminate|].
      split; [contradiction|]. split; [|discriminate].
      intros _. split; [discriminate|]. split; [reflexivity|discriminate].
Qed.

Lemma length_filter_map {X Y : Type} (g : X -> Y) (p : Y -> bool)
    (l : list X) :
  List.length (List.filter p (map g l))
  = List.length (List.filter (fun x => p (g x)) l).
Proof.
  induction l as [|x l IH]; [reflexivity|].
  simpl. destruct (p (g x)); simpl; now rewrite IH.
Qed.

(** The counts of the summary.  Flights in flight and flights on the
    ground add up to all flights, occupied and available gates to all
    gates, for any flights and gates.  For the flights the enrichment
    returns, the total is the number of live positions and the flights on
    the ground are the positions marked as on the ground, which are the
    flights with the status word ["on-ground"]; for the gates
    [getGateStatus] returns the total is the number of records, and no
    gate has an empty status. *)
Theorem getSummary_counts (now at_ : Instant) :
  (forall (flights : list EnrichedFlight) (gates : list Store.Gate),
      let s := Store.getSummary flights gates at_ in
      Store.inFlight s + Store.onGround s = Store.totalFlights s
      /\ Store.occupiedGates s + Store.availableGates s = Store.totalGates s)
  /\ (forall (live : list LiveFlight) (api : list Schedule)
             (records : list Store.GateRecord),
         let flights := enrichedFlights now live api in
         let gates := Store.gatesOfRecords records in
         let s := Store.getSummary flights gates at_ in
         Store.totalFlights s = List.length live
         /\ Store.onGround s
            = List.length (List.filter (fun f : LiveFlight => on_ground f) live)
         /\ Store.onGround s
            = List.length
                (List.filter (fun e => String.eqb (e_status e) "on-ground")
                   flights)
         /\ Store.totalGates s = List.length records
         /\ Forall (fun g => Store.gate_status g <> "") gates).
Proof.
  split.
  - intros flights gates s. subst s. unfold Store.getSummary.
    cbn [Store.inFlight Store.onGround Store.totalFlights Store.occupiedGates
         Store.availableGates Store.totalGates].
    split.
    + rewrite Nat.add_comm.
      apply (List.filter_length (fun f => e_on_ground f) flights).
    + apply (List.filter_length
               (fun g => truthy_string (Store.occupiedBy g)) gates).
  - intros live api records flights gates s. subst s flights gates.
    unfold Store.getSummary, enrichedFlights.
    cbn [Store.onGround Store.totalFlights Store.totalGates].
    split; [apply length_map|]. split; [|split; [|split]].
    + rewrite length_filter_map. reflexivity.
    + rewrite !length_filter_map. f_equal.
      apply List.filter_ext. intros f. unfold enrich.
      cbn [e_on_ground e_status]. unfold determineStatusFromOpenSky.
      destruct (on_ground f); [reflexivity|].
      destruct (Qlt_bool (altitude f) 1000); [reflexivity|].
      destruct (Qlt_bool 5000 (altitude f)); reflexivity.
    + unfold Store.gatesOfRecords. apply length_map.
    + unfold Store.gatesOfRecords. apply List.Forall_forall.
      intros g Hg. apply in_map_iff in Hg as (record & <- & _).
      cbn [Store.gate_status]. now apply or_string_truthy.
Qed.

End StatusWords.

(* ===================================================================== *)
(** * The response of getFlightInfo *)
(* ===================================================================== *)

Section FlightInfoResponse.
Import Info.
Variable parseFloat : string -> option Q.
Variable now : Instant.

Lemma Math_round_div_nearest (n : Z) :
  (-30000 < 60000 * Math_round_div n 60000 - n <= 30000)%Z.
Proof.
  unfold Math_round_div.
  pose proof (Z.div_mod (2 * n + 60000) (2 * 60000)) as Hd.
  pose proof (Z.mod_pos_bound (2 * n + 60000) (2 * 60000)) as Hm.
  lia.
Qed.

(** The response of [getFlightInfo].  None of the four gate and terminal
    texts and not the status is ever empty.  A flight that has neither a
    schedule nor live data is answered with the status ["Unknown"], the
    gates ["TBA"], no delay and no position.  For a flight that is known,
    a gate or terminal from the gate assignment goes before the one of the
    schedule.  The delay is the difference of actual and scheduled
    departure rounded to the nearest minute, and zero when one of the two
    is missing; the position is given exactly when the hash has a
    non-empty latitude. *)
Theorem flightInfo_response (requested : string)
    (scheduleFound : option Schedule) (liveData : gmap string string)
    (gateInfo : option GateInfo) :
  let r := flightInfo parseFloat now requested scheduleFound liveData
             gateInfo in
  let known := scheduleFound <> None \/ liveData <> ∅ in
  (li_gate (fi_departure r) <> "" /\ li_terminal (fi_departure r) <> ""
   /\ li_gate (fi_arrival r) <> "" /\ li_terminal (fi_arrival r) <> ""
   /\ fi_status r <> "")
  /\ (~ known ->
      fi_status r = "Unknown" /\ fi_delay r = 0%Z
      /\ fi_currentPosition r = None /\ fi_aircraft r = None
      /\ li_gate (fi_departure r) = "TBA"
      /\ li_terminal (fi_departure r) = "TBA"
      /\ fi_flightNumber r = Some (Client.toUpperCase requested))
  /\ (known ->
      (forall gi g, gateInfo = Some gi -> info_gate gi = Some g -> g <> "" ->
                    li_gate (fi_departure r) = g)
      /\ (forall gi t, gateInfo = Some gi -> info_terminal gi = Some t ->
                       t <> "" -> li_terminal (fi_departure r) = t)
      /\ (fi_currentPosition r <> None <->
          truthy_string (liveData !! "latitude") = true))
  /\ (forall found a s,
         scheduleFound = Some found ->
         actual (departure found) = Some a ->
         scheduled (departure found) = Some s ->
         (-30000 < 60000 * fi_delay r - (a - s) <= 30000)%Z)
  /\ ((forall found, scheduleFound = Some found ->
         actual (departure found) = None
         \/ scheduled (departure found) = None) ->
      fi_delay r = 0%Z)
  /\ (scheduleFound = None -> known ->
      fi_status r = (if decide (liveData !! "on_ground" = Some "true")
                     then "On Ground" else "In Flight")).
Proof.
  intros r known.
  assert (Htba : "TBA" <> "") by discriminate.
  assert (Hgate : forall (o : option string) (g : string) (alt : option string),
             o = Some g -> g <> "" -> or_string (or_else o alt) "TBA" = g).
  { intros o g alt -> Hg. unfold or_else, or_string. cbn [truthy_string].
    destruct (String.eqb g "") eqn:E;
      [apply String.eqb_eq in E; contradiction|].
    cbn [negb]. now rewrite E. }
  assert (Hgate' : forall (o : option string) (g : string),
             o = Some g -> g <> "" -> or_string o "TBA" = g).
  { intros o g -> Hg. unfold or_string.
    destruct (String.eqb g "") eqn:E;
      [apply String.eqb_eq in E; contradiction|reflexivity]. }
  assert (Hpos :
             (if truthy_string (liveData !! "latitude") then Some
                {| cp_latitude := (liveData !! "latitude") ≫= parseFloat;
                   cp_longitude := (liveData !! "longitude") ≫= parseFloat;
                   cp_altitude := (liveData !! "altitude") ≫= parseFloat |}
              else None) <> None
             <-> truthy_string (liveData !! "latitude") = true).
  { destruct (truthy_string (liveData !! "latitude")); split; congruence. }
  subst r known. unfold flightInfo.
  destruct scheduleFound as [found|].
  - cbn [fi_departure fi_arrival fi_status fi_delay fi_currentPosition
         fi_aircraft fi_flightNumber li_gate li_terminal].
    split; [|split; [|split; [|split; [|split]]]].
    + repeat split; try (now apply or_string_truthy).
      unfold Passenger.determineStatus.
      repeat match goal with
             | |- context [decide ?P] => destruct (decide P)
             | |- context [present ?o] => destruct (present o)
             end; discriminate.
    + intros Hk. exfalso. apply Hk. left. discriminate.
    + intros _. split; [|split].
      * intros gi g -> Hg Hne. cbn [opt_chain]. now apply Hgate.
      * intros gi t -> Ht Hne. cbn [opt_chain]. now apply Hgate.
      * exact Hpos.
    + intros found' a s [= <-] -> ->. apply Math_round_div_nearest.
    + intros Hmiss. destruct (Hmiss found eq_refl) as [-> | ->];
        [reflexivity|].
      now destruct (actual (departure found)).
    + discriminate.
  - unfold isEmptyHash. destruct (bool_decide (liveData = ∅)) eqn:E.
    + apply bool_decide_eq_true in E.
      cbn [fi_departure fi_arrival fi_status fi_delay fi_currentPosition
           fi_aircraft fi_flightNumber li_gate li_terminal].
      split; [repeat split; discriminate|].
      split; [intros _; repeat split|].
      assert (Hnk : ~ (@None Schedule <> None \/ liveData <> ∅)).
      { intros [Hc|Hc]; [now apply Hc|now apply Hc]. }
      split; [intros Hk; contradiction|].
      split; [discriminate|]. split; [reflexivity|].
      intros _ Hk. contradiction.
    + apply bool_decide_eq_false in E.
      cbn [fi_departure fi_arrival fi_status fi_delay fi_currentPosition
           fi_aircraft fi_flightNumber li_gate li_terminal].
      split; [|split; [|split; [|split; [|split]]]].
      * repeat split; try (now apply or_string_truthy); try discriminate.
        destruct (decide (liveData !! "on_ground" = Some "true"));
          discriminate.
      * intros Hk. exfalso. apply Hk. now right.
      * intros _. split; [|split].
        -- intros gi g -> Hg Hne. cbn [opt_chain]. now apply Hgate'.
        -- intros gi t -> Ht Hne. cbn [opt_chain]. now apply Hgate'.
        -- exact Hpos.
      * discriminate.
      * reflexivity.
      * reflexivity.
Qed.

End FlightInfoResponse.

(* ===================================================================== *)
(** * The position store *)
(* ===================================================================== *)

Section PositionStore.
Import Store StoreSpec ZoneSpec.
Variable Number_toString : Q -> string.
Variable toISOString : Instant -> string.

Lemma positionKey_inj (c1 c2 : string) :
  positionKey c1 = positionKey c2 -> c1 = c2.
Proof.
  unfold positionKey. rewrite !append_cons, !append_nil.
  intros Heq. injection Heq as Heq.
  exact (append_cancel_r _ _ _ Heq).
Qed.

Lemma positionFields_located (f : LiveFlight) :
  hasCoordinates f ->
  positionFields Number_toString toISOString f
  = Ok (fieldsOf Number_toString toISOString f).
Proof.
  unfold hasCoordinates, positionFields, fieldsOf. intros [Hla Hlo].
  destruct (latitude f); [|congruence].
  destruct (longitude f); [|congruence]. reflexivity.
Qed.

Lemma positionFields_TypeError (f : LiveFlight) :
  ~ hasCoordinates f ->
  positionFields Number_toString toISOString f = Throw TypeError.
Proof.
  unfold hasCoordinates, positionFields. intros Hn.
  destruct (latitude f); [|reflexivity].
  destruct (longitude f); [|reflexivity].
  exfalso. apply Hn. split; discriminate.
Qed.

Lemma written_lookup (redis : Redis) (key k : string)
    (fields : list (string * string)) :
  expire (hSet redis key fields) key 300 !! k
  = if decide (key = k)
    then Some (overwritten fields (hGetAll redis key), Some 300%Z)
    else redis !! k.
Proof.
  unfold expire, hSet, hGetAll, overwritten. rewrite lookup_insert_eq.
  rewrite !lookup_insert.
  destruct (decide (key = k)); [|reflexivity].
  destruct (redis !! key); reflexivity.
Qed.

Lemma overwritten_twice (f g : LiveFlight) (h : gmap string string) :
  overwritten (fieldsOf Number_toString toISOString g)
    (overwritten (fieldsOf Number_toString toISOString f) h)
  = overwritten (fieldsOf Number_toString toISOString g) h.
Proof.
  unfold overwritten, fieldsOf. cbn [fold_left fst snd].
  apply map_eq. intros i. rewrite !lookup_insert.
  repeat match goal with
         | |- context [decide (?a = i)] =>
             destruct (decide (a = i)); [reflexivity|]
         end.
  reflexivity.
Qed.

Lemma lastPosition_callsign (c : string) (positions : list LiveFlight)
    (g : LiveFlight) :
  lastPosition c positions = Some g -> callsign g = c /\ In g positions.
Proof.
  induction positions as [|f rest IH]; simpl; [discriminate|].
  destruct (lastPosition c rest) as [g'|].
  - intros [= <-]. destruct (IH eq_refl). split; [assumption|now right].
  - destruct (String.eqb (callsign f) c) eqn:E; [|discriminate].
    intros [= <-]. apply String.eqb_eq in E. split; [exact E|now left].
Qed.

Lemma lastPosition_In (positions : list LiveFlight) (f : LiveFlight) :
  In f positions -> exists g, lastPosition (callsign f) positions = Some g.
Proof.
  induction positions as [|f' rest IH]; intros Hin; [destruct Hin|].
  simpl. destruct (lastPosition (callsign f) rest) as [g|] eqn:Hl; [eauto|].
  destruct Hin as [->|Hin].
  - rewrite String.eqb_refl. eauto.
  - destruct (IH Hin) as [g Hg]. discriminate.
Qed.

Lemma storeLivePositions_lookup (positions : list LiveFlight) (redis : Redis)
    (c : string) :
  Forall hasCoordinates positions ->
  fst (storeLivePositions Number_toString toISOString redis positions)
    !! positionKey c
  = match lastPosition c positions with
    | Some g =>
        Some (overwritten (fieldsOf Number_toString toISOString g)
                (hGetAll redis (positionKey c)), Some 300%Z)
    | None => redis !! positionKey c
    end.
Proof.
  intros Hall. revert redis.
  induction Hall as [|f rest Hf _ IH]; intros redis; [reflexivity|].
  cbn [storeLivePositions lastPosition].
  rewrite (positionFields_located f Hf). rewrite IH.
  destruct (lastPosition c rest) as [g|].
  - do 2 f_equal. unfold hGetAll at 1. rewrite written_lookup.
    destruct (decide (positionKey (callsign f) = positionKey c)) as [Hk|Hk];
      [|reflexivity].
    cbn [fst]. rewrite Hk. apply overwritten_twice.
  - rewrite written_lookup.
    destruct (decide (positionKey (callsign f) = positionKey c)) as [Hk|Hk].
    + apply positionKey_inj in Hk as Hc. rewrite Hc, String.eqb_refl.
      reflexivity.
    + destruct (String.eqb (callsign f) c) eqn:E; [|reflexivity].
      apply String.eqb_eq in E. now rewrite E in Hk.
Qed.

Lemma storeLivePositions_other_keys (positions : list LiveFlight)
    (redis : Redis) (k : string) :
  (forall f, In f positions -> positionKey (callsign f) <> k) ->
  fst (storeLivePositions Number_toString toISOString redis positions) !! k
  = redis !! k.
Proof.
  revert redis. induction positions as [|f rest IH]; intros redis Hk;
    [reflexivity|].
  cbn [storeLivePositions].
  destruct (positionFields Number_toString toISOString f) as [fields|e];
    [|reflexivity].
  rewrite IH by (intros f' Hf'; apply Hk; now right).
  rewrite written_lookup.
  destruct (decide (positionKey (callsign f) = k)) as [Hc|_]; [|reflexivity].
  exfalso. apply (Hk f); [now left|exact Hc].
Qed.

Lemma storeLivePositions_succeeds (positions : list LiveFlight)
    (redis : Redis) :
  Forall hasCoordinates positions ->
  snd (storeLivePositions Number_toString toISOString redis positions)
  = Ok tt.
Proof.
  intros Hall. revert redis.
  induction Hall as [|f rest Hf _ IH]; intros redis; [reflexivity|].
  cbn [storeLivePositions]. rewrite (positionFields_located f Hf). apply IH.
Qed.

(** Storing positions that all have coordinates succeeds.  Afterwards the
    key of every callsign of the list holds the eight fields of the last
    position with that callsign, written over what the hash held before,
    with 300 seconds to live; every position of the list has such a key;
    and no other key of the store is touched. *)
Theorem storeLivePositions_keeps_last_position (redis : Redis)
    (positions : list LiveFlight) :
  Forall hasCoordinates positions ->
  let out := storeLivePositions Number_toString toISOString redis positions in
  snd out = Ok tt
  /\ (forall c g,
         lastPosition c positions = Some g ->
         callsign g = c /\ In g positions
         /\ fst out !! positionKey c
            = Some (overwritten (fieldsOf Number_toString toISOString g)
                      (hGetAll redis (positionKey c)), Some 300%Z))
  /\ (forall f, In f positions ->
        exists g, lastPosition (callsign f) positions = Some g)
  /\ (forall k, (forall f, In f positions -> positionKey (callsign f) <> k) ->
        fst out !! k = redis !! k).
Proof.
  intros Hall out. subst out.
  split; [now apply storeLivePositions_succeeds|]. split; [|split].
  - intros c g Hg. destruct (lastPosition_callsign c positions g Hg).
    repeat split; try assumption.
    rewrite (storeLivePositions_lookup positions redis c Hall). now rewrite Hg.
  - apply lastPosition_In.
  - intros k Hk. now apply storeLivePositions_other_keys.
Qed.

Lemma storable_located (positions : list LiveFlight) :
  Forall hasCoordinates (storable positions).
Proof.
  induction positions as [|f rest IH]; simpl; [constructor|].
  destruct (latitude f) eqn:Hla; simpl; [|constructor].
  destruct (longitude f) eqn:Hlo; simpl; [|constructor].
  constructor; [|exact IH]. unfold hasCoordinates. rewrite Hla, Hlo.
  split; discriminate.
Qed.

(** When a position lacks a latitude or a longitude, storing stops there
    with a [TypeError]: the positions before it have been written, it and
    the positions after it have not. *)
Theorem storeLivePositions_stops_at_missing_coordinate (redis : Redis)
    (positions : list LiveFlight) :
  ~ Forall hasCoordinates positions ->
  storeLivePositions Number_toString toISOString redis positions
  = (fst (storeLivePositions Number_toString toISOString redis
            (storable positions)),
     Throw TypeError)
  /\ Forall hasCoordinates (storable positions)
  /\ exists f rest,
       positions = (storable positions ++ f :: rest)%list
       /\ ~ hasCoordinates f.
Proof.
  intros Hn. split; [|split; [apply storable_located|]].
  - revert redis. induction positions as [|f rest IH]; intros redis.
    + exfalso. apply Hn. constructor.
    + cbn [storeLivePositions storable].
      destruct (hasCoordinates_dec f) as [Hf|Hf].
      * rewrite (positionFields_located f Hf).
        destruct Hf as [Hla Hlo].
        destruct (latitude f) eqn:Ela; [|congruence].
        destruct (longitude f) eqn:Elo; [|congruence].
        cbn [present andb storeLivePositions].
        assert (Hf' : hasCoordinates f)
          by (unfold hasCoordinates; rewrite Ela, Elo; split; discriminate).
        rewrite (positionFields_located f Hf').
        apply IH. intros Hrest. apply Hn. now constructor.
      * rewrite (positionFields_TypeError f Hf).
        assert (Hb : (present (latitude f) && present (longitude f))%bool
                     = false).
        { unfold hasCoordinates in Hf.
          destruct (latitude f); [|reflexivity].
          destruct (longitude f); [|reflexivity].
          exfalso. apply Hf. split; discriminate. }
        rewrite Hb. reflexivity.
  - induction positions as [|f rest IH].
    + exfalso. apply Hn. constructor.
    + cbn [storable]. destruct (hasCoordinates_dec f) as [Hf|Hf].
      * assert (Hb : (present (latitude f) && present (longitude f))%bool
                     = true).
        { destruct Hf as [Hla Hlo].
          destruct (latitude f); [|congruence].
          destruct (longitude f); [|congruence]. reflexivity. }
        rewrite Hb.
        destruct IH as (f' & rest' & Heq & Hf').
        { intros Hrest. apply Hn. now constructor. }
        exists f', rest'. split; [|exact Hf'].
        simpl. now rewrite <- Heq.
      * assert (Hb : (present (latitude f) && present (longitude f))%bool
                     = false).
        { unfold hasCoordinates in Hf.
          destruct (latitude f); [|reflexivity].
          destruct (longitude f); [|reflexivity].
          exfalso. apply Hf. split; discriminate. }
        rewrite Hb. exists f, rest. split; [reflexivity|exact Hf].
Qed.

Variable parseFloat : string -> option Q.
Variable now : Instant.

(** A stored position read back.  After positions that all have
    coordinates have been stored, the hash under the key of a callsign of
    the list is not empty and gives back the callsign and the ground flag,
    latitude, longitude and altitude of the last position with that
    callsign; without a schedule the monitor reads the status
    ["on_ground"] or ["in_flight"] from it and the passenger service
    ["On Ground"] or ["In Flight"], as the ground flag says. *)
Theorem stored_position_read_back (redis : Redis)
    (positions : list LiveFlight) (c requested : string) (g : LiveFlight)
    (gateInfo : option Info.GateInfo) :
  Forall hasCoordinates positions ->
  lastPosition c positions = Some g ->
  let redis' :=
    fst (storeLivePositions Number_toString toISOString redis positions) in
  let h := hGetAll redis' (positionKey c) in
  h <> ∅
  /\ h !! "callsign" = Some c
  /\ h !! "on_ground" = Some (Boolean_toString (on_ground g))
  /\ h !! "latitude" = Some (Number_toString (ToNumber (latitude g)))
  /\ h !! "longitude" = Some (Number_toString (ToNumber (longitude g)))
  /\ h !! "altitude" = Some (Number_toString (altitude g))
  /\ determineStatus (Some h) None
     = Ok (if on_ground g then "on_ground" else "in_flight")
  /\ Info.fi_status
       (Info.flightInfo parseFloat now requested None h gateInfo)
     = (if on_ground g then "On Ground" else "In Flight").
Proof.
  intros Hall Hg redis' h.
  destruct (lastPosition_callsign c positions g Hg) as [Hc _].
  assert (Hh : h = overwritten (fieldsOf Number_toString toISOString g)
                     (hGetAll redis (positionKey c))).
  { subst h redis'. unfold hGetAll at 1.
    rewrite (storeLivePositions_lookup positions redis c Hall), Hg.
    reflexivity. }
  assert (Hcs : h !! "callsign" = Some c).
  { rewrite Hh. unfold overwritten, fieldsOf. cbn [fold_left fst snd].
    repeat (rewrite lookup_insert_ne by discriminate).
    rewrite lookup_insert_eq. now rewrite Hc. }
  assert (Hog : h !! "on_ground" = Some (Boolean_toString (on_ground g))).
  { rewrite Hh. unfold overwritten, fieldsOf. cbn [fold_left fst snd].
    repeat (rewrite lookup_insert_ne by discriminate).
    now rewrite lookup_insert_eq. }
  assert (Hne : h <> ∅).
  { intros He. rewrite He in Hcs. rewrite lookup_empty in Hcs. discriminate. }
  split; [exact Hne|]. split; [exact Hcs|]. split; [exact Hog|].
  split; [|split; [|split; [|split]]].
  - rewrite Hh. unfold overwritten, fieldsOf. cbn [fold_left fst snd].
    repeat (rewrite lookup_insert_ne by discriminate).
    now rewrite lookup_insert_eq.
  - rewrite Hh. unfold overwritten, fieldsOf. cbn [fold_left fst snd].
    repeat (rewrite lookup_insert_ne by discriminate).
    now rewrite lookup_insert_eq.
  - rewrite Hh. unfold overwritten, fieldsOf. cbn [fold_left fst snd].
    repeat (rewrite lookup_insert_ne by discriminate).
    now rewrite lookup_insert_eq.
  - unfold determineStatus. cbn [deref mbind Exc_bind JS.bind].
    rewrite Hog. destruct (on_ground g); cbn [Boolean_toString];
      match goal with
      | |- context [decide ?P] => destruct (decide P) as [Hd|Hd]
      end;
      first [ reflexivity | discriminate Hd | exfalso; apply Hd; reflexivity ].
  - unfold Info.flightInfo, Info.isEmptyHash.
    rewrite (bool_decide_eq_false_2 _ Hne). cbn [Info.fi_status].
    rewrite Hog. destruct (on_ground g); cbn [Boolean_toString];
      match goal with
      | |- context [decide ?P] => destruct (decide P) as [Hd|Hd]
      end;
      first [ reflexivity | discriminate Hd | exfalso; apply Hd; reflexivity ].
Qed.

End PositionStore.

Lemma storeLivePositions_keeps_last_position_witness :
  let positions := [RawFixtures.positionOf ZoneSpec.near10;
                    RawFixtures.positionOf ZoneSpec.near60] in
  let Number_toString := fun _ : Q => "0" in
  let toISOString := fun _ : Instant => "1970-01-01T00:00:00.000Z" in
  Forall ZoneSpec.hasCoordinates positions
  /\ (let out :=
        Store.storeLivePositions Number_toString toISOString ∅ positions in
      snd out = Ok tt
      /\ (forall c g,
             StoreSpec.lastPosition c positions = Some g ->
             callsign g = c /\ In g positions
             /\ fst out !! Store.positionKey c
                = Some (StoreSpec.overwritten
                          (StoreSpec.fieldsOf Number_toString toISOString g)
                          (Store.hGetAll ∅ (Store.positionKey c)),
                        Some 300%Z))
      /\ (forall f, In f positions ->
            exists g, StoreSpec.lastPosition (callsign f) positions = Some g)
      /\ (forall k,
             (forall f, In f positions ->
                        Store.positionKey (callsign f) <> k) ->
             fst out !! k = (∅ : Store.Redis) !! k)).
Proof.
  intros positions Number_toString toISOString.
  assert (Hall : Forall ZoneSpec.hasCoordinates positions)
    by (repeat constructor; discriminate).
  split; [exact Hall|].
  exact (storeLivePositions_keeps_last_position Number_toString toISOString
           ∅ positions Hall).
Defined.

Lemma storeLivePositions_stops_at_missing_coordinate_witness :
  let positions := [RawFixtures.positionOf ZoneSpec.near10;
                    RawFixtures.positionOf RawFixtures.noFix;
                    RawFixtures.positionOf ZoneSpec.near60] in
  let Number_toString := fun _ : Q => "0" in
  let toISOString := fun _ : Instant => "1970-01-01T00:00:00.000Z" in
  ~ Forall ZoneSpec.hasCoordinates positions
  /\ Store.storeLivePositions Number_toString toISOString ∅ positions
     = (fst (Store.storeLivePositions Number_toString toISOString ∅
               (StoreSpec.storable positions)),
        Throw TypeError)
  /\ Forall ZoneSpec.hasCoordinates (StoreSpec.storable positions)
  /\ exists f rest,
       positions = (StoreSpec.storable positions ++ f :: rest)%list
       /\ ~ ZoneSpec.hasCoordinates f.
Proof.
  intros positions Number_toString toISOString.
  assert (Hn : ~ Forall ZoneSpec.hasCoordinates positions).
  { intros Hall. inversion Hall as [|? ? _ Hrest]; subst.
    inversion Hrest as [|? ? [Hlat _] _]; subst.
    apply Hlat. reflexivity. }
  split; [exact Hn|].
  exact (storeLivePositions_stops_at_missing_coordinate Number_toString
           toISOString ∅ positions Hn).
Defined.

Lemma stored_position_read_back_witness :
  let positions := [RawFixtures.positionOf ZoneSpec.near10;
                    RawFixtures.positionOf ZoneSpec.near60] in
  let g := RawFixtures.positionOf ZoneSpec.near10 in
  let Number_toString := fun _ : Q => "0" in
  let toISOString := fun _ : Instant => "1970-01-01T00:00:00.000Z" in
  let h :=
    Store.hGetAll
      (fst (Store.storeLivePositions Number_toString toISOString ∅ positions))
      (Store.positionKey "DLH10") in
  (Forall ZoneSpec.hasCoordinates positions
   /\ StoreSpec.lastPosition "DLH10" positions = Some g)
  /\ h <> ∅
  /\ h !! "callsign" = Some "DLH10"
  /\ h !! "on_ground" = Some (Store.Boolean_toString (on_ground g))
  /\ h !! "latitude" = Some (Number_toString (ToNumber (latitude g)))
  /\ h !! "longitude" = Some (Number_toString (ToNumber (longitude g)))
  /\ h !! "altitude" = Some (Number_toString (altitude g))
  /\ Store.determineStatus (Some h) None
     = Ok (if on_ground g then "on_ground" else "in_flight")
  /\ Info.fi_status
       (Info.flightInfo (fun _ => None) 0%Z "DLH10" None h None)
     = (if on_ground g then "On Ground" else "In Flight").
Proof.
  intros positions g Number_toString toISOString h.
  assert (Hall : Forall ZoneSpec.hasCoordinates positions)
    by (repeat constructor; discriminate).
  assert (Hg : StoreSpec.lastPosition "DLH10" positions = Some g)
    by reflexivity.
  split; [split; [exact Hall|exact Hg]|].
  exact (stored_position_read_back Number_toString toISOString
           (fun _ => None) 0%Z ∅ positions "DLH10" "DLH10" g None Hall Hg).
Defined.

(* ===================================================================== *)
(** * Flight details *)
(* ===================================================================== *)

Section FlightDetails.
Import Store StoreSpec ZoneSpec Details.
Variable parseFloat : string -> option Q.
Variable nowISO : string.
Variable getGateAssignment : string -> option Info.GateInfo.
Variable getFlightSchedule : string -> option Schedule.
Variable Number_toString : Q -> string.
Variable toISOString : Instant -> string.

Lemma determineStatus_of_hash (live : gmap string string)
    (schedule : option Schedule) :
  exists word,
    determineStatus (Some live) schedule = Ok word
    /\ word <> ""
    /\ (live !! "on_ground" = Some "true" -> word = "on_ground").
Proof.
  unfold determineStatus. cbn [deref mbind Exc_bind JS.bind].
  destruct (decide (live !! "on_ground" = Some "true")) as [Hg|Hg].
  - exists "on_ground". repeat split. discriminate.
  - destruct schedule as [s|].
    + exists (or_string (status s) "in_flight").
      split; [reflexivity|]. split; [now apply or_string_truthy|].
      intros; contradiction.
    + exists "in_flight". split; [reflexivity|]. split; [discriminate|].
      intros; contradiction.
Qed.

Lemma or_null_not_empty (x : option string) : or_null x <> Some "".
Proof.
  unfold or_null. destruct x as [s|]; cbn [truthy_string]; [|discriminate].
  destruct (String.eqb s "") eqn:E; cbn [negb]; [discriminate|].
  apply String.eqb_neq in E. congruence.
Qed.

Lemma or_string_empty_default (c : string) : or_string (Some c) "" = c.
Proof.
  unfold or_string. destruct (String.eqb c "") eqn:E; [|reflexivity].
  apply String.eqb_eq in E. now subst.
Qed.

Lemma or_string_same (c : string) : or_string (Some c) c = c.
Proof. unfold or_string. now destruct (String.eqb c ""). Qed.

Lemma overwritten_fieldsOf_lookup (g : LiveFlight) (h0 : gmap string string) :
  let h := overwritten (fieldsOf Number_toString toISOString g) h0 in
  h !! "callsign" = Some (callsign g)
  /\ h !! "latitude" = Some (Number_toString (ToNumber (latitude g)))
  /\ h !! "longitude" = Some (Number_toString (ToNumber (longitude g)))
  /\ h !! "altitude" = Some (Number_toString (altitude g))
  /\ h !! "velocity" = Some (Number_toString (velocity g))
  /\ h !! "heading" = Some (Number_toString (heading g))
  /\ h !! "on_ground" = Some (Boolean_toString (on_ground g))
  /\ h !! "last_update" = Some (toISOString (timestamp g))
  /\ h !! "gate" = h0 !! "gate"
  /\ h <> ∅.
Proof.
  intros h. subst h. unfold overwritten, fieldsOf. cbn [fold_left fst snd].
  repeat match goal with |- _ /\ _ => split end;
    try (repeat (rewrite lookup_insert_ne by discriminate);
         first [ now rewrite lookup_insert_eq | reflexivity ]).
  intros He. apply (f_equal (fun m => m !! "last_update")) in He.
  rewrite lookup_insert_eq, lookup_empty in He. discriminate.
Qed.

(** [getFlightDetails] never throws.  It answers [null] only when the
    schedule store has nothing for the trimmed flight number; a non-empty
    hash under the exact key always gives an answer with a position.  In
    every answer the status is not empty and neither gate nor terminal is
    the empty text; an answer with a position has a ground flag, and its
    status is ["on_ground"] when the flag is set; an answer without a
    position is made of the schedule found for the trimmed flight
    number. *)
Theorem getFlightDetails_outcome (redis : Redis) (keys : list string)
    (flightNumber : option string) :
  let trimmed := trim (or_string flightNumber "") in
  exists r,
    getFlightDetails parseFloat nowISO getGateAssignment getFlightSchedule
      redis keys flightNumber = Ok r
    /\ (r = None -> getFlightSchedule trimmed = None)
    /\ (Info.isEmptyHash (hGetAll redis (positionKey trimmed)) = false ->
        exists d, r = Some d /\ d_position d <> None)
    /\ (forall d, r = Some d ->
          d_status d <> "" /\ d_gate d <> Some "" /\ d_terminal d <> Some ""
          /\ (d_position d <> None ->
              exists flag, d_on_ground d = Some flag
                           /\ (flag = true -> d_status d = "on_ground"))
          /\ (d_position d = None ->
              d_on_ground d = None /\ d_callsign d = trimmed
              /\ getFlightSchedule trimmed = Some (d_schedule d))).
Proof.
  intros trimmed. unfold getFlightDetails. fold trimmed. cbv zeta.
  assert (Hlive : forall data' : gmap string string,
            exists word,
              determineStatus (Some data')
                (getFlightSchedule
                   (trim (or_string (data' !! "callsign") trimmed)))
              = Ok word
              /\ word <> ""
              /\ (bool_decide (data' !! "on_ground" = Some "true") = true ->
                  word = "on_ground")).
  { intros data'.
    destruct (determineStatus_of_hash data'
                (getFlightSchedule
                   (trim (or_string (data' !! "callsign") trimmed))))
      as (word & Hw & Hne & Hg).
    exists word. split; [exact Hw|]. split; [exact Hne|].
    intros Hflag. apply bool_decide_eq_true in Hflag. now apply Hg. }
  destruct (Info.isEmptyHash (hGetAll redis (positionKey trimmed))) eqn:Hex;
    cbn [negb];
    [destruct keys as [|key keys'];
     [|destruct (Info.isEmptyHash (hGetAll redis key)) eqn:Hk; cbn [negb]]
    |rewrite Hex; cbn [negb]].
  all: try match goal with
       | |- context [determineStatus (Some ?data')] =>
           destruct (Hlive data') as (word & -> & Hne & Hflag);
           cbn [mbind Exc_bind JS.bind]
       end.
  all: try (destruct (getFlightSchedule trimmed) as [schedule|]).
  all: eexists; split; [reflexivity|].
  all: split; [first [ reflexivity | discriminate ]|].
  all: split; [first [ discriminate | intros _; eexists; split;
                                      [reflexivity|discriminate] ]|].
  all: intros d Hd; first [ discriminate Hd | injection Hd as <- ].
  all: cbn [d_status d_gate d_terminal d_position d_on_ground d_callsign
            d_schedule].
  all: split; [first [ exact Hne | now apply or_string_truthy ]|].
  all: split; [apply or_null_not_empty|].
  all: split; [apply or_null_not_empty|].
  all: split;
    [first [ intros _; eexists; split; [reflexivity|exact Hflag]
           | intros Hc; now destruct Hc ]
    |first [ discriminate | intros _; repeat split ]].
Qed.

(** A stored position asked for by its callsign.  After positions that
    all have coordinates have been stored, [getFlightDetails] answers the
    callsign of a position of the list (a callsign without blanks around
    it) from the hash under its exact key: the answer carries that
    callsign, the ground flag of the last position with it, the status
    ["on_ground"] when the flag is set, the five numbers of that position
    as [parseFloat] reads what was printed, and the time of that
    position. *)
Theorem getFlightDetails_of_stored_position (redis : Redis)
    (positions : list LiveFlight) (keys : list string) (c : string)
    (g : LiveFlight) :
  Forall hasCoordinates positions ->
  lastPosition c positions = Some g ->
  trim c = c ->
  let redis' :=
    fst (storeLivePositions Number_toString toISOString redis positions) in
  let read := fun x : Q => or_zero (parseFloat (Number_toString x)) in
  exists d,
    getFlightDetails parseFloat nowISO getGateAssignment getFlightSchedule
      redis' keys (Some c) = Ok (Some d)
    /\ d_callsign d = c
    /\ d_on_ground d = Some (on_ground g)
    /\ (on_ground g = true -> d_status d = "on_ground")
    /\ d_position d
       = Some {| Monitor.p_latitude := read (ToNumber (latitude g));
                 Monitor.p_longitude := read (ToNumber (longitude g));
                 Monitor.p_altitude := read (altitude g);
                 Monitor.p_velocity := read (velocity g);
                 Monitor.p_heading := read (heading g) |}
    /\ d_last_update d
       = Some (or_string (Some (toISOString (timestamp g))) nowISO).
Proof.
  intros Hall Hg Htrim redis' read.
  destruct (lastPosition_callsign c positions g Hg) as [Hc _].
  set (h := hGetAll redis' (positionKey c)).
  assert (Hh : h = overwritten (fieldsOf Number_toString toISOString g)
                     (hGetAll redis (positionKey c))).
  { subst h redis'. unfold hGetAll at 1.
    rewrite (storeLivePositions_lookup Number_toString toISOString positions
               redis c Hall), Hg.
    reflexivity. }
  destruct (overwritten_fieldsOf_lookup g (hGetAll redis (positionKey c)))
    as (Hcs & Hla & Hlo & Hal & Hve & Hhe & Hog & Hlu & _ & Hne).
  rewrite <- Hh in Hcs, Hla, Hlo, Hal, Hve, Hhe, Hog, Hlu, Hne.
  unfold getFlightDetails. rewrite or_string_empty_default, Htrim.
  fold h. unfold Info.isEmptyHash.
  rewrite (bool_decide_eq_false_2 _ Hne). cbn [negb].
  rewrite (bool_decide_eq_false_2 _ Hne). cbn [negb].
  rewrite Hcs, Hc, or_string_same, Htrim.
  destruct (determineStatus_of_hash h (getFlightSchedule c))
    as (word & -> & _ & Hw).
  cbn [mbind Exc_bind JS.bind]. eexists. split; [reflexivity|].
  cbn [d_callsign d_on_ground d_status d_position d_last_update].
  split; [reflexivity|]. split; [|split; [|split]].
  - f_equal. rewrite Hog.
    destruct (on_ground g); cbn [Boolean_toString];
      [apply bool_decide_eq_true_2; reflexivity
      |apply bool_decide_eq_false_2; discriminate].
  - intros Hgr. apply Hw. rewrite Hog, Hgr. reflexivity.
  - unfold parse_or_zero, read. now rewrite Hla, Hlo, Hal, Hve, Hhe.
  - now rewrite Hlu.
Qed.

End FlightDetails.

Lemma getFlightDetails_of_stored_position_witness :
  let positions := [RawFixtures.positionOf ZoneSpec.near10;
                    RawFixtures.positionOf ZoneSpec.near60] in
  let g := RawFixtures.positionOf ZoneSpec.near10 in
  let Number_toString := fun _ : Q => "0" in
  let toISOString := fun _ : Instant => "1970-01-01T00:00:00.000Z" in
  let parseFloat := fun _ : string => Some 0%Q in
  let redis' :=
    fst (Store.storeLivePositions Number_toString toISOString ∅ positions) in
  let read := fun x : Q => or_zero (parseFloat (Number_toString x)) in
  (Forall ZoneSpec.hasCoordinates positions
   /\ StoreSpec.lastPosition "DLH10" positions = Some g
   /\ trim "DLH10" = "DLH10")
  /\ exists d,
       Details.getFlightDetails parseFloat "2026-01-01T00:00:00.000Z"
         (fun _ => None) (fun _ => None) redis' [] (Some "DLH10")
       = Ok (Some d)
       /\ Details.d_callsign d = "DLH10"
       /\ Details.d_on_ground d = Some (on_ground g)
       /\ (on_ground g = true -> Details.d_status d = "on_ground")
       /\ Details.d_position d
          = Some {| Monitor.p_latitude := read (ToNumber (latitude g));
                    Monitor.p_longitude := read (ToNumber (longitude g));
                    Monitor.p_altitude := read (altitude g);
                    Monitor.p_velocity := read (velocity g);
                    Monitor.p_heading := read (heading g) |}
       /\ Details.d_last_update d
          = Some (or_string (Some (toISOString (timestamp g)))
                    "2026-01-01T00:00:00.000Z").
Proof.
  intros positions g Number_toString toISOString parseFloat redis' read.
  assert (Hall : Forall ZoneSpec.hasCoordinates positions)
    by (repeat constructor; discriminate).
  assert (Hg : StoreSpec.lastPosition "DLH10" positions = Some g)
    by reflexivity.
  assert (Ht : trim "DLH10" = "DLH10") by reflexivity.
  split; [repeat split; assumption|].
  exact (getFlightDetails_of_stored_position parseFloat
           "2026-01-01T00:00:00.000Z" (fun _ => None) (fun _ => None)
           Number_toString toISOString ∅ positions [] "DLH10" g Hall Hg Ht).
Defined.

(* ===================================================================== *)
(** * Performance indicators *)
(* ===================================================================== *)

Section Indicators.
Import KPI.

Lemma Q_of_nat_nonneg (n : nat) : (0 <= Q_of_nat n)%Q.
Proof.
  unfold Q_of_nat. change 0%Q with (inject_Z 0). rewrite <- Zle_Qle. lia.
Qed.

Lemma Q_of_nat_le (n m : nat) : n <= m -> (Q_of_nat n <= Q_of_nat m)%Q.
Proof. intros H. unfold Q_of_nat. rewrite <- Zle_Qle. lia. Qed.

Lemma Q_of_nat_pos (n : nat) : 0 < n -> (0 < Q_of_nat n)%Q.
Proof.
  intros H. unfold Q_of_nat. change 0%Q with (inject_Z 0).
  rewrite <- Zlt_Qlt. lia.
Qed.

Lemma toFixed_number_2_bounds (x : Q) :
  (0 <= x)%Q ->
  (0 <= toFixed_number x 2)%Q
  /\ ((x <= 100)%Q -> (toFixed_number x 2 <= 100)%Q).
Proof.
  intros Hx. unfold toFixed_number.
  change (inject_Z (10 ^ Z.of_nat 2)) with (inject_Z 100).
  assert (H100 : (0 < inject_Z 100)%Q) by reflexivity.
  split.
  - apply Qle_shift_div_l; [exact H100|]. rewrite Qmult_0_l.
    change 0%Q with (inject_Z 0). rewrite <- Zle_Qle.
    change 0%Z with (Qfloor 0). apply Qfloor_resp_le.
    change (inject_Z 100) with 100%Q. Lqa.lra.
  - intros Hle. apply Qle_shift_div_r; [exact H100|].
    change (100 * inject_Z 100)%Q with (inject_Z 10000).
    rewrite <- Zle_Qle.
    change 10000%Z with (Qfloor (10000 + (1 # 2))).
    apply Qfloor_resp_le. change (inject_Z 100) with 100%Q. Lqa.lra.
Qed.

Lemma liveFlights_length (redis : Store.Redis) (keys : list string) :
  List.length (liveFlights redis keys) <= List.length keys.
Proof.
  unfold liveFlights. induction keys as [|key keys IH]; [reflexivity|].
  cbn [flat_map]. rewrite length_app.
  destruct (negb _); simpl; lia.
Qed.

(** The indicator summary.  Airborne flights and flights on the ground
    add up to the live flights, of which there are at most as many as
    keys; the total is live plus scheduled flights; the on-time
    percentage is never negative and is zero when there are no flights;
    without a document from the aggregation the scheduled numbers are
    zero.  When the aggregation counts no more delayed, on-time and
    cancelled schedules than schedules in total, then delayed, on-time and
    cancelled flights do not exceed the total and the percentage is at
    most 100. *)
Theorem getKPISummary_consistent (redis : Store.Redis)
    (liveFlightKeys : list string) (flightStats : list Stats)
    (now : Instant) :
  let s := getKPISummary redis liveFlightKeys flightStats now in
  kpi_airborneFlights s + kpi_groundFlights s = kpi_liveFlights s
  /\ kpi_liveFlights s <= List.length liveFlightKeys
  /\ kpi_totalFlights s = kpi_liveFlights s + kpi_scheduledFlights s
  /\ (0 <= kpi_onTimePercentage s)%Q
  /\ (kpi_totalFlights s = 0 -> kpi_onTimePercentage s = 0%Q)
  /\ (flightStats = [] ->
      kpi_scheduledFlights s = 0 /\ kpi_delayedFlights s = 0
      /\ kpi_cancelledFlights s = 0
      /\ kpi_onTimeFlights s = kpi_airborneFlights s)
  /\ (forall st rest,
         flightStats = st :: rest ->
         st_delayed st + st_onTime st + st_cancelled st <= st_total st ->
         kpi_delayedFlights s + kpi_onTimeFlights s + kpi_cancelledFlights s
         <= kpi_totalFlights s
         /\ (kpi_onTimePercentage s <= 100)%Q).
Proof.
  intros s. subst s. unfold getKPISummary. cbv zeta.
  cbn [kpi_airborneFlights kpi_groundFlights kpi_liveFlights kpi_totalFlights
       kpi_scheduledFlights kpi_onTimePercentage kpi_delayedFlights
       kpi_cancelledFlights kpi_onTimeFlights].
  set (live := liveFlights redis liveFlightKeys).
  set (stats := match flightStats with
                | [] => {| st_total := 0; st_delayed := 0; st_onTime := 0;
                           st_cancelled := 0 |}
                | st :: _ => st
                end).
  pose proof (List.filter_length (fun f : bool => f) live) as Hpart.
  assert (Hlive : List.length live <= List.length liveFlightKeys)
    by apply liveFlights_length.
  set (airborne := List.length (List.filter (fun f : bool => negb f) live))
    in *.
  set (ground := List.length (List.filter (fun f : bool => f) live)) in *.
  assert (Hx : (0 <= Q_of_nat (st_onTime stats + airborne)
                     / Q_of_nat (List.length live + st_total stats) * 100)%Q).
  { apply Qmult_le_0_compat; [|discriminate].
    apply Qmult_le_0_compat; [apply Q_of_nat_nonneg|].
    apply Qinv_le_0_compat, Q_of_nat_nonneg. }
  destruct (toFixed_number_2_bounds _ Hx) as [Hp0 Hp100].
  split; [lia|]. split; [exact Hlive|]. split; [reflexivity|].
  split; [|split; [|split]].
  - destruct (Nat.ltb 0 (List.length live + st_total stats));
      [exact Hp0|discriminate].
  - intros ->. reflexivity.
  - intros Hnil. subst stats. rewrite Hnil. repeat split.
  - intros st rest Hst Hcons. subst stats. rewrite Hst in *.
    split; [lia|].
    destruct (Nat.ltb 0 (List.length live + st_total st)) eqn:Ht;
      [|discriminate].
    apply Nat.ltb_lt in Ht. apply Hp100.
    assert (Hle : (Q_of_nat (st_onTime st + airborne)
                   <= Q_of_nat (List.length live + st_total st))%Q)
      by (apply Q_of_nat_le; lia).
    pose proof (Q_of_nat_pos _ Ht) as Hpos.
    assert (Hdiv : (Q_of_nat (st_onTime st + airborne)
                    / Q_of_nat (List.length live + st_total st) <= 1)%Q).
    { apply Qle_shift_div_r; [exact Hpos|]. now rewrite Qmult_1_l. }
    Lqa.lra.
Qed.

Lemma updateKPICounters_snoc (counts : list Count) (c : Count) :
  updateKPICounters (counts ++ [c])
  = {| total := total (updateKPICounters counts) + count c;
       delayed := if decide (count_id c = Some "delayed") then count c
                  else delayed (updateKPICounters counts);
       onTime := if decide (count_id c = Some "active") then count c
                 else onTime (updateKPICounters counts) |}.
Proof. unfold updateKPICounters. now rewrite fold_left_app. Qed.

(** The three counters [updateKPICounters] writes: the total is the sum
    of all counts, the delayed and the on-time counter are each zero or
    the count of a document with that status, and together they never
    exceed the total, whatever documents the aggregation returns. *)
Theorem updateKPICounters_within_total (counts : list Count) :
  let c := updateKPICounters counts in
  total c = list_sum (map count counts)
  /\ delayed c + onTime c <= total c
  /\ (delayed c = 0
      \/ exists d, In d counts /\ count_id d = Some "delayed"
                   /\ count d = delayed c)
  /\ (onTime c = 0
      \/ exists d, In d counts /\ count_id d = Some "active"
                   /\ count d = onTime c)
  /\ ((forall d, In d counts -> count_id d <> Some "delayed") ->
      delayed c = 0).
Proof.
  cbv zeta. induction counts as [|c counts IH] using rev_ind.
  - repeat split; try reflexivity; try (now left).
  - destruct IH as (Ht & Hle & Hd & Ho & Hno).
    rewrite updateKPICounters_snoc. cbn [total delayed onTime].
    rewrite map_app, list_sum_app.
    split; [simpl; lia|]. split; [|split; [|split]].
    + destruct (decide (count_id c = Some "delayed")) as [Hcd|Hcd];
        destruct (decide (count_id c = Some "active")) as [Hca|Hca];
        try lia.
      rewrite Hcd in Hca. discriminate.
    + destruct (decide (count_id c = Some "delayed")) as [Hcd|Hcd].
      * right. exists c. split; [apply in_or_app; right; now left|].
        split; [exact Hcd|reflexivity].
      * destruct Hd as [Hd|(d & Hin & Hid & Hc)]; [now left|].
        right. exists d. split; [apply in_or_app; now left|].
        split; assumption.
    + destruct (decide (count_id c = Some "active")) as [Hca|Hca].
      * right. exists c. split; [apply in_or_app; right; now left|].
        split; [exact Hca|reflexivity].
      * destruct Ho as [Ho|(d & Hin & Hid & Hc)]; [now left|].
        right. exists d. split; [apply in_or_app; now left|].
        split; assumption.
    + intros Hnone.
      destruct (decide (count_id c = Some "delayed")) as [Hcd|Hcd].
      * exfalso. apply (Hnone c); [apply in_or_app; right; now left|exact Hcd].
      * apply Hno. intros d Hin. apply Hnone. apply in_or_app. now left.
Qed.

End Indicators.
